(** * Equipment booking portal: conflict checker, booking store and schedule grid

    A shallow embedding of the booking logic of [src/App.tsx]:
    - [sanitizeBooking] (equipment normalisation of a record received from
      the remote script),
    - the booking store of [BookingsProvider] ([fetchBookings],
      [createBooking], [updateBookingStatus], [deleteBooking]) with its
      optimistic updates and rollbacks,
    - the conflict check of [BookingForm.handleSubmit],
    - the schedule projection [bookingsForDateMap] of the grid page.

    Conventions.  A JavaScript string is the list of its UTF-16 code
    units.  Integer-valued JavaScript numbers (ids, periods, time values
    in milliseconds) are [Z].  The React state [bookings] is threaded
    explicitly; every [setBookings] and every call of the remote gateway
    is recorded, in program order, in a trace. *)

From Stdlib Require Import ZArith NArith Ascii String DecimalString DecimalZ.
From stdpp Require Import gmap list.

Local Open Scope Z_scope.

(** ** JavaScript strings *)

Abbreviation jsstring := (list N).

(** Code units of an ASCII literal. *)
Definition js (s : string) : jsstring :=
  (fun a => N_of_ascii a) <$> list_ascii_of_string s.

(** ECMAScript [WhiteSpace] and [LineTerminator] code points, the ones
    [String.prototype.trim] strips. *)
Definition isWhiteSpace (c : N) : bool :=
  ((c =? 9) || (c =? 10) || (c =? 11) || (c =? 12) || (c =? 13) || (c =? 32)
   || (c =? 160) || (c =? 5760) || ((8192 <=? c) && (c <=? 8202))
   || (c =? 8232) || (c =? 8233) || (c =? 8239) || (c =? 8287)
   || (c =? 12288) || (c =? 65279))%N.

Fixpoint trimStart (s : jsstring) : jsstring :=
  match s with
  | [] => []
  | c :: s' => if isWhiteSpace c then trimStart s' else s
  end.

Fixpoint trimEnd (s : jsstring) : jsstring :=
  match s with
  | [] => []
  | c :: s' =>
      match trimEnd s' with
      | [] => if isWhiteSpace c then [] else [c]
      | r => c :: r
      end
  end.

(** [s.trim()] *)
Definition trim (s : jsstring) : jsstring := trimEnd (trimStart s).

(** [s.split(sep)] for a one-unit separator: never the empty array. *)
Fixpoint split (sep : N) (s : jsstring) : list jsstring :=
  match s with
  | [] => [[]]
  | c :: s' =>
      if (c =? sep)%N then [] :: split sep s'
      else match split sep s' with
           | [] => [[c]]
           | w :: ws => (c :: w) :: ws
           end
  end.

(** [s.substring(0, n)] *)
Definition substring0 (n : nat) (s : jsstring) : jsstring := take n s.

(** [a === b] on strings. *)
Definition str_eqb (a b : jsstring) : bool := bool_decide (a = b).

(** [arr.includes(x)] on an array of strings. *)
Definition includes (arr : list jsstring) (x : jsstring) : bool :=
  existsb (str_eqb x) arr.

Definition comma : N := 44%N.
Definition hyphen : N := 45%N.

(** ** Data model ([types.ts]) *)

Inductive Program := ThaiProgramme | EnglishProgramme | Kindergarten.

(** ['จอง'] (book) and ['ยืม'] (borrow). *)
Inductive BookingType := Jong | Yuem.

Inductive BookingStatus := Booked | InUse | AwaitingReturn | Returned | Cancelled.

Record Booking := {
  id : Z;
  teacherName : jsstring;
  program : Program;
  classroom : jsstring;
  period : Z;
  bookingDate : jsstring;
  learningUnitNumber : jsstring;
  learningUnitName : jsstring;
  lessonPlanName : jsstring;
  equipment : list jsstring;
  type : BookingType;
  status : BookingStatus;
  createdAt : jsstring
}.

(** [Omit<Booking, 'id' | 'status' | 'createdAt'>] *)
Record BookingData := {
  d_teacherName : jsstring;
  d_program : Program;
  d_classroom : jsstring;
  d_period : Z;
  d_bookingDate : jsstring;
  d_learningUnitNumber : jsstring;
  d_learningUnitName : jsstring;
  d_lessonPlanName : jsstring;
  d_equipment : list jsstring;
  d_type : BookingType
}.

(** What the remote script may put in the [equipment] field of a record
    (the argument of [sanitizeBooking] is typed [any]): an array, a
    string, or anything else (null, undefined, a number, an object).
    Array items are taken at the declared type [string[]]. *)
Inductive RawEquipment :=
| EqArray (items : list jsstring)
| EqString (s : jsstring)
| EqOther.

(** A booking as received from the gateway. *)
Record RawBooking := {
  r_id : Z;
  r_teacherName : jsstring;
  r_program : Program;
  r_classroom : jsstring;
  r_period : Z;
  r_bookingDate : jsstring;
  r_learningUnitNumber : jsstring;
  r_learningUnitName : jsstring;
  r_lessonPlanName : jsstring;
  r_equipment : RawEquipment;
  r_type : BookingType;
  r_status : BookingStatus;
  r_createdAt : jsstring
}.

#[global] Instance BookingStatus_eq_dec : EqDecision BookingStatus.
Proof. solve_decision. Defined.
#[global] Instance BookingType_eq_dec : EqDecision BookingType.
Proof. solve_decision. Defined.
#[global] Instance Program_eq_dec : EqDecision Program.
Proof. solve_decision. Defined.
#[global] Instance Booking_eq_dec : EqDecision Booking.
Proof. solve_decision. Defined.

(** ** [sanitizeBooking] *)

(** The three branches on [booking.equipment]. *)
Definition sanitizeEquipment (e : RawEquipment) : list jsstring :=
  match e with
  | EqArray items => items
  | EqString s =>
      List.filter (fun e => (0 <? length e)%nat) (trim <$> split comma s)
  | EqOther => []
  end.

(** [{ ...booking, equipment: equipmentArray }] *)
Definition sanitizeBooking (booking : RawBooking) : Booking :=
  {| id := r_id booking;
     teacherName := r_teacherName booking;
     program := r_program booking;
     classroom := r_classroom booking;
     period := r_period booking;
     bookingDate := r_bookingDate booking;
     learningUnitNumber := r_learningUnitNumber booking;
     learningUnitName := r_learningUnitName booking;
     lessonPlanName := r_lessonPlanName booking;
     equipment := sanitizeEquipment (r_equipment booking);
     type := r_type booking;
     status := r_status booking;
     createdAt := r_createdAt booking |}.

(** ** Conflict check of [BookingForm.handleSubmit] *)

Definition activeStatuses : list BookingStatus := [Booked; InUse; AwaitingReturn].

(** [activeStatuses.includes(s)] *)
Definition statusIncludes (l : list BookingStatus) (s : BookingStatus) : bool :=
  existsb (fun x => bool_decide (x = s)) l.

(** The bookings of the cache that pass the filter of [handleSubmit]:
    same first ten code units of the stored date, same period, active. *)
Definition bookingsAtSameTime (bookings : list Booking)
    (date : jsstring) (per : Z) : list Booking :=
  List.filter
    (fun b =>
       let bookingDatePart := substring0 10 (bookingDate b) in
       str_eqb bookingDatePart date
       && (period b =? per)
       && statusIncludes activeStatuses (status b))
    bookings.

Definition isClassroomConflict (sameTime : list Booking) (room : jsstring) : bool :=
  existsb (fun b => str_eqb (classroom b) room) sameTime.

Definition allBookedEquipmentAtTime (sameTime : list Booking) : list jsstring :=
  flat_map (fun b => trim <$> equipment b) sameTime.

Definition isEquipmentConflict (sameTime : list Booking)
    (finalEquipmentList : list jsstring) : bool :=
  existsb (fun reqEq => includes (allBookedEquipmentAtTime sameTime) (trim reqEq))
          finalEquipmentList.

Inductive ConflictResult := ClassroomConflict | EquipmentConflict | NoConflict.

(** The two checks in the order of the source: classroom first. *)
Definition conflictCheck (bookings : list Booking) (date room : jsstring)
    (per : Z) (finalEquipmentList : list jsstring) : ConflictResult :=
  let sameTime := bookingsAtSameTime bookings date per in
  if isClassroomConflict sameTime room then ClassroomConflict
  else if isEquipmentConflict sameTime finalEquipmentList then EquipmentConflict
  else NoConflict.

(** ** The store: state, gateway and effects *)

(** The error of a rejected gateway promise ([fetchFromScript] throws
    [Error] with the transport or script message). *)
Inductive Error := RemoteError (message : jsstring).

(** Settlement of the promise returned by a gateway call. *)
Inductive Reply (A : Type) := Resolved (a : A) | Rejected (e : Error).
Arguments Resolved {A} a.
Arguments Rejected {A} e.

(** How an [async] function of the store completes. *)
Inductive Completion := Return | Throw (e : Error).

Inductive Request :=
| ReqGetBookings
| ReqCreateBooking (bookingData : BookingData)
| ReqUpdateBookingStatus (target : Z) (st : BookingStatus)
| ReqDeleteBooking (target : Z).

(** The [Swal.fire] dialogs of the modelled functions. *)
Inductive Dialog :=
| FormValidationError
| LoadingIndicator
| BookingConflict
| EquipmentConflictDialog
| BookingSuccess
| BookingSaveError
| FetchBookingsError.

Inductive Effect :=
| SetBookings (next : list Booking)
| Call (r : Request)
| ConsoleError
| SwalFire (d : Dialog).

(** A computation over the [bookings] state that logs its effects. *)
Definition Prog (A : Type) : Type :=
  list Booking -> A * list Booking * list Effect.

Definition ret {A} (a : A) : Prog A := fun s => (a, s, []).

Definition bind {A B} (m : Prog A) (k : A -> Prog B) : Prog B :=
  fun s =>
    let '(a, s1, t1) := m s in
    let '(b, s2, t2) := k a s1 in
    (b, s2, t1 ++ t2).

Notation "x <- m ;; k" := (bind m (fun x => k))
  (at level 100, m at next level, right associativity).
Notation "m ;; k" := (bind m (fun _ => k))
  (at level 100, right associativity).

(** [setBookings(prev => f(prev))] *)
Definition setBookings (f : list Booking -> list Booking) : Prog unit :=
  fun s => (tt, f s, [SetBookings (f s)]).

(** Sending a request through [api]. *)
Definition call (r : Request) : Prog unit := fun s => (tt, s, [Call r]).

Definition consoleError : Prog unit := fun s => (tt, s, [ConsoleError]).

Definition swalFire (d : Dialog) : Prog unit := fun s => (tt, s, [SwalFire d]).

Definition finalState {A} (r : A * list Booking * list Effect) : list Booking :=
  snd (fst r).
Definition result {A} (r : A * list Booking * list Effect) : A := fst (fst r).
Definition trace {A} (r : A * list Booking * list Effect) : list Effect := snd r.

(** [Date.now()] and [new Date().toISOString()] at the time of a call. *)
Record Clock := { now : Z; isoNow : jsstring }.

(** ** [createBooking] *)

Definition newStatus (bookingData : BookingData) : BookingStatus :=
  if bool_decide (d_type bookingData = Yuem) then InUse else Booked.

(** [{ id: tempId, status: newStatus, createdAt: ..., ...bookingData }] *)
Definition optimisticBooking (clock : Clock) (bookingData : BookingData) : Booking :=
  {| id := now clock;
     teacherName := d_teacherName bookingData;
     program := d_program bookingData;
     classroom := d_classroom bookingData;
     period := d_period bookingData;
     bookingDate := d_bookingDate bookingData;
     learningUnitNumber := d_learningUnitNumber bookingData;
     learningUnitName := d_learningUnitName bookingData;
     lessonPlanName := d_lessonPlanName bookingData;
     equipment := d_equipment bookingData;
     type := d_type bookingData;
     status := newStatus bookingData;
     createdAt := isoNow clock |}.

(** The three state updaters of [createBooking]. *)
Definition addOptimistic (o : Booking) (prev : list Booking) : list Booking :=
  o :: prev.

Definition replaceTemp (tempId : Z) (processedFinalBooking : Booking)
    (prev : list Booking) : list Booking :=
  map (fun b => if id b =? tempId then processedFinalBooking else b) prev.

Definition removeTemp (tempId : Z) (prev : list Booking) : list Booking :=
  List.filter (fun b => negb (id b =? tempId)) prev.

Definition createBooking (clock : Clock) (bookingData : BookingData)
    (reply : Reply RawBooking) : Prog Completion :=
  let tempId := now clock in
  setBookings (addOptimistic (optimisticBooking clock bookingData)) ;;
  call (ReqCreateBooking bookingData) ;;
  match reply with
  | Resolved finalBooking =>
      let processedFinalBooking := sanitizeBooking finalBooking in
      setBookings (replaceTemp tempId processedFinalBooking) ;;
      ret Return
  | Rejected error =>
      consoleError ;;
      setBookings (removeTemp tempId) ;;
      ret (Throw error)
  end.

(** ** [fetchBookings], [updateBookingStatus], [deleteBooking] *)

Section Store.

(** [data.sort((a, b) => new Date(b.createdAt).getTime() -
    new Date(a.createdAt).getTime())]: the order that
    [Array.prototype.sort] gives depends on the engine's date parser
    (and, when the comparator yields [NaN], on the engine's sort); it
    is left abstract. *)
Variable sortByCreatedAtDesc : list Booking -> list Booking.

(** [fetchBookings(isSilent)] never rejects: a failed request is logged
    and, unless silent, reported in a dialog; the state is not
    touched.  (The [loading] flag is not modelled.) *)
Definition fetchBookings (isSilent : bool)
    (reply : Reply (list RawBooking)) : Prog unit :=
  call ReqGetBookings ;;
  match reply with
  | Resolved data =>
      let sortedData := sortByCreatedAtDesc (map sanitizeBooking data) in
      setBookings (fun _ => sortedData)
  | Rejected error =>
      consoleError ;;
      if negb isSilent then swalFire FetchBookingsError else ret tt
  end.

(** [{ ...b, status }]: a new record; the record [b], which the snapshot
    shares with the cache, is not written to. *)
Definition withStatus (b : Booking) (st : BookingStatus) : Booking :=
  {| id := id b;
     teacherName := teacherName b;
     program := program b;
     classroom := classroom b;
     period := period b;
     bookingDate := bookingDate b;
     learningUnitNumber := learningUnitNumber b;
     learningUnitName := learningUnitName b;
     lessonPlanName := lessonPlanName b;
     equipment := equipment b;
     type := type b;
     status := st;
     createdAt := createdAt b |}.

Definition setStatusOf (target : Z) (st : BookingStatus)
    (prev : list Booking) : list Booking :=
  map (fun b => if id b =? target then withStatus b st else b) prev.

Definition removeId (target : Z) (prev : list Booking) : list Booking :=
  List.filter (fun b => negb (id b =? target)) prev.

(** [bookings] is the state captured by the closure (the rendered
    state); [originalBookings] is a copy of it. *)
Definition updateBookingStatus (bookings : list Booking) (target : Z)
    (st : BookingStatus) (reply : Reply unit)
    (refresh : Reply (list RawBooking)) : Prog Completion :=
  let originalBookings := bookings in
  setBookings (setStatusOf target st) ;;
  call (ReqUpdateBookingStatus target st) ;;
  match reply with
  | Resolved _ =>
      fetchBookings true refresh ;;
      ret Return
  | Rejected error =>
      setBookings (fun _ => originalBookings) ;;
      ret (Throw error)
  end.

Definition deleteBooking (bookings : list Booking) (target : Z)
    (reply : Reply unit) (refresh : Reply (list RawBooking)) : Prog Completion :=
  let originalBookings := bookings in
  setBookings (removeId target) ;;
  call (ReqDeleteBooking target) ;;
  match reply with
  | Resolved _ =>
      fetchBookings true refresh ;;
      ret Return
  | Rejected error =>
      setBookings (fun _ => originalBookings) ;;
      ret (Throw error)
  end.

End Store.

(** ** [BookingForm.handleSubmit] *)

(** The state of the form.  [None] stands for the empty selection [''] of
    the program and period controls. *)
Record FormState := {
  f_type : BookingType;
  f_teacherName : jsstring;
  f_program : option Program;
  f_classroom : jsstring;
  f_period : option Z;
  f_bookingDate : jsstring;
  f_learningUnitNumber : jsstring;
  f_learningUnitName : jsstring;
  f_lessonPlanName : jsstring;
  f_selectedEquipment : list jsstring;
  f_otherEquipment : jsstring
}.

(** [!s] on a string. *)
Definition emptyStr (s : jsstring) : bool := bool_decide (s = []).

(** [Number(period)] on [number | '']. *)
Definition Number (p : option Z) : Z := default 0 p.

(** The guard at the head of [handleSubmit]. *)
Definition formIncomplete (f : FormState) : bool :=
  emptyStr (f_teacherName f)
  || bool_decide (f_program f = None)
  || emptyStr (f_classroom f)
  || (Number (f_period f) =? 0)
  || emptyStr (f_bookingDate f)
  || emptyStr (f_learningUnitNumber f)
  || emptyStr (f_learningUnitName f)
  || emptyStr (f_lessonPlanName f)
  || ((length (f_selectedEquipment f) =? 0)%nat
      && emptyStr (trim (f_otherEquipment f))).

Definition finalEquipmentList (f : FormState) : list jsstring :=
  (trim <$> f_selectedEquipment f)
  ++ (if emptyStr (trim (f_otherEquipment f)) then []
      else [trim (f_otherEquipment f)]).

(** The argument of the [createBooking] call.  The program is present
    once the guard has passed. *)
Definition bookingDataOf (f : FormState) : BookingData :=
  {| d_teacherName := f_teacherName f;
     d_program := default ThaiProgramme (f_program f);
     d_classroom := f_classroom f;
     d_period := Number (f_period f);
     d_bookingDate := f_bookingDate f;
     d_learningUnitNumber := f_learningUnitNumber f;
     d_learningUnitName := f_learningUnitName f;
     d_lessonPlanName := f_lessonPlanName f;
     d_equipment := finalEquipmentList f;
     d_type := f_type f |}.

(** [bookings] is the cache as the form component captured it. *)
Definition handleSubmit (f : FormState) (bookings : list Booking)
    (clock : Clock) (reply : Reply RawBooking) : Prog unit :=
  if formIncomplete f then swalFire FormValidationError
  else
    swalFire LoadingIndicator ;;
    match conflictCheck bookings (f_bookingDate f) (f_classroom f)
                        (Number (f_period f)) (finalEquipmentList f) with
    | ClassroomConflict => swalFire BookingConflict
    | EquipmentConflict => swalFire EquipmentConflictDialog
    | NoConflict =>
        r <- createBooking clock (bookingDataOf f) reply ;;
        match r with
        | Return => swalFire BookingSuccess
        | Throw error => consoleError ;; swalFire BookingSaveError
        end
    end.

(** ** Dates: time values, the Asia/Bangkok calendar day, the [en-CA] form *)

Definition msPerDay : Z := 86400000.

(** Largest magnitude of a time value ([TimeClip]). *)
Definition maxTimeValue : Z := 8640000000000000.

(** Year, month and day of the proleptic Gregorian calendar for a day
    number counted from 1970-01-01. *)
Definition civilFromDays (z : Z) : Z * Z * Z :=
  let z := z + 719468 in
  let era := z / 146097 in
  let doe := z - era * 146097 in
  let yoe := (doe - doe / 1460 + doe / 36524 - doe / 146096) / 365 in
  let y := yoe + era * 400 in
  let doy := doe - (365 * yoe + yoe / 4 - yoe / 100) in
  let mp := (5 * doy + 2) / 153 in
  let d := doy - (153 * mp + 2) / 5 + 1 in
  let m := if mp <? 10 then mp + 3 else mp - 9 in
  (if m <=? 2 then y + 1 else y, m, d).

(** Day number of a calendar date. *)
Definition daysFromCivil (y m d : Z) : Z :=
  let y := if m <=? 2 then y - 1 else y in
  let era := y / 400 in
  let yoe := y - era * 400 in
  let doy := (153 * (if 2 <? m then m - 3 else m + 9) + 2) / 5 + d - 1 in
  let doe := yoe * 365 + yoe / 4 - yoe / 100 + doy in
  era * 146097 + doe - 719468.

(** Offset of the zone [Asia/Bangkok] from UTC, in milliseconds, at the
    time value [t]: +07:00 since 1920-04-01 00:00 local time, the local
    mean time +06:42:04 before. *)
Definition bangkokSwitch : Z := -1570084924000.

Definition bangkokOffset (t : Z) : Z :=
  if t <? bangkokSwitch then 24124000 else 25200000.

(** Decimal digits of a number ([Number::toString] on an integer below
    10^21, a minus sign first when negative). *)
Definition numberToString (z : Z) : jsstring :=
  js (NilEmpty.string_of_int (Z.to_int z)).

(** Two-digit field of a date pattern. *)
Definition pad2 (z : Z) : jsstring :=
  if z <? 10 then js "0" ++ numberToString z else numberToString z.

(** The text [y-MM-dd] of a calendar date, the short date of the [en-CA]
    locale the source relies on; [y] is the year of the era. *)
Definition enCA (ymd : Z * Z * Z) : jsstring :=
  let '(y, m, d) := ymd in
  let yearOfEra := if 1 <=? y then y else 1 - y in
  numberToString yearOfEra ++ [hyphen] ++ pad2 m ++ [hyphen] ++ pad2 d.

(** A computation that may throw [RangeError]. *)
Inductive Except (A : Type) := Value (a : A) | RangeError.
Arguments Value {A} a.
Arguments RangeError {A}.

(** [new Intl.DateTimeFormat('en-CA', { timeZone: 'Asia/Bangkok' })
    .format(date)], where [date] holds the time value [t], or is an
    Invalid Date ([None]): formatting an Invalid Date throws. *)
Definition formatBangkok (date : option Z) : Except jsstring :=
  match date with
  | None => RangeError
  | Some t => Value (enCA (civilFromDays ((t + bangkokOffset t) / msPerDay)))
  end.

(** [new Date(s)] from the engine's [Date.parse]: the time value is
    clipped, and out of range it is [NaN]. *)
Definition newDate (Date_parse : jsstring -> option Z) (s : jsstring) : option Z :=
  match Date_parse s with
  | Some t => if Z.abs t <=? maxTimeValue then Some t else None
  | None => None
  end.

(** *** A date parser for the ISO forms [YYYY-MM-DD] and
    [YYYY-MM-DDTHH:mm:ss.sssZ]

    These are the two forms of the ECMAScript date-time string format
    that appear in the source's own documentation (["2024-07-23"],
    ["2024-07-22T17:00:00.000Z"]); both denote UTC.  Every other string
    is rejected here; engines differ on them.  A day that its month
    does not have (2024-02-30) is rejected here as well, where an engine
    may count on into the next month: the parser stands for the engine
    on dates of the calendar only. *)

Definition digitValue (c : N) : option Z :=
  if ((48 <=? c) && (c <=? 57))%N then Some (Z.of_N c - 48) else None.

Fixpoint digitsValue (acc : Z) (s : jsstring) : option Z :=
  match s with
  | [] => Some acc
  | c :: s' =>
      match digitValue c with
      | Some v => digitsValue (10 * acc + v) s'
      | None => None
      end
  end.

(** [s.slice(i, j)] read as a decimal field. *)
Definition field (i j : nat) (s : jsstring) : option Z :=
  digitsValue 0 (take (j - i) (drop i s)).

Definition unitAt (i : nat) (s : jsstring) (c : string) : bool :=
  bool_decide (take 1 (drop i s) = js c).

Definition isLeapYear (y : Z) : bool :=
  ((y mod 4 =? 0) && negb (y mod 100 =? 0)) || (y mod 400 =? 0).

Definition daysInMonth (y m : Z) : Z :=
  if m =? 2 then (if isLeapYear y then 29 else 28)
  else if (m =? 4) || (m =? 6) || (m =? 9) || (m =? 11) then 30 else 31.

Definition isoDay (s : jsstring) : option Z :=
  match field 0 4 s, field 5 7 s, field 8 10 s with
  | Some y, Some m, Some d =>
      if unitAt 4 s "-" && unitAt 7 s "-"
         && (1 <=? m) && (m <=? 12) && (1 <=? d) && (d <=? daysInMonth y m)
      then Some (daysFromCivil y m d) else None
  | _, _, _ => None
  end.

Definition isoTimeOfDay (s : jsstring) : option Z :=
  match field 11 13 s, field 14 16 s, field 17 19 s, field 20 23 s with
  | Some h, Some mi, Some sec, Some ms =>
      if unitAt 10 s "T" && unitAt 13 s ":" && unitAt 16 s ":"
         && unitAt 19 s "." && unitAt 23 s "Z"
         && (h <=? 23) && (mi <=? 59) && (sec <=? 59)
      then Some (((h * 60 + mi) * 60 + sec) * 1000 + ms) else None
  | _, _, _, _ => None
  end.

Definition isoDateParse (s : jsstring) : option Z :=
  if (length s =? 10)%nat then
    match isoDay s with
    | Some day => Some (day * msPerDay)
    | None => None
    end
  else if (length s =? 24)%nat then
    match isoDay s, isoTimeOfDay s with
    | Some day, Some ms => Some (day * msPerDay + ms)
    | _, _ => None
    end
  else None.

(** ** Schedule projection [bookingsForDateMap] *)

(** The key [`${classroom}-${period}`] of a grid cell. *)
Definition slotKey (room : jsstring) (per : Z) : jsstring :=
  room ++ [hyphen] ++ numberToString per.

(** [bookings.filter(p)] for a predicate that may throw: the first throw
    aborts the whole filter. *)
Fixpoint filterExcept (p : Booking -> Except bool) (l : list Booking)
  : Except (list Booking) :=
  match l with
  | [] => Value []
  | b :: l' =>
      match p b with
      | RangeError => RangeError
      | Value keep =>
          match filterExcept p l' with
          | RangeError => RangeError
          | Value rest => Value (if keep then b :: rest else rest)
          end
      end
  end.

Section Schedule.

(** The engine's [Date.parse]; [None] is [NaN]. *)
Variable Date_parse : jsstring -> option Z.

Definition bookingDateInBangkok (b : Booking) : Except jsstring :=
  formatBangkok (newDate Date_parse (bookingDate b)).

(** The predicate of the filter: the date is formatted first, then the
    status is tested. *)
Definition onSelectedDate (selectedDate : jsstring) (b : Booking) : Except bool :=
  match bookingDateInBangkok b with
  | RangeError => RangeError
  | Value day =>
      Value (str_eqb day selectedDate
             && statusIncludes activeStatuses (status b))
  end.

(** [map.set(key, b)] for each kept booking, in cache order: a later
    booking replaces an earlier one under the same key. *)
Definition setAll (kept : list Booking) : gmap jsstring Booking :=
  foldl (fun m b => <[slotKey (classroom b) (period b) := b]> m) ∅ kept.

Definition bookingsForDateMap (bookings : list Booking)
    (selectedDate : jsstring) : Except (gmap jsstring Booking) :=
  match filterExcept (onSelectedDate selectedDate) bookings with
  | RangeError => RangeError
  | Value kept => Value (setAll kept)
  end.

End Schedule.


(** ** Sample data *)

Definition sampleBooking (ident : Z) (room : string) (per : Z) (date : string)
    (items : list jsstring) (st : BookingStatus) : Booking :=
  {| id := ident;
     teacherName := js "Kru A";
     program := ThaiProgramme;
     classroom := js room;
     period := per;
     bookingDate := js date;
     learningUnitNumber := js "1";
     learningUnitName := js "Unit";
     lessonPlanName := js "Plan";
     equipment := items;
     type := Jong;
     status := st;
     createdAt := js "2024-07-20T01:00:00.000Z" |}.

Definition sampleRaw (ident : Z) (e : RawEquipment) : RawBooking :=
  {| r_id := ident;
     r_teacherName := js "Kru A";
     r_program := ThaiProgramme;
     r_classroom := js "P.1A TP";
     r_period := 3;
     r_bookingDate := js "2024-07-22";
     r_learningUnitNumber := js "1";
     r_learningUnitName := js "Unit";
     r_lessonPlanName := js "Plan";
     r_equipment := e;
     r_type := Jong;
     r_status := Booked;
     r_createdAt := js "2024-07-20T01:00:00.000Z" |}.

Definition sampleForm (room : string) (per : Z) (date : string)
    (items : list jsstring) : FormState :=
  {| f_type := Jong;
     f_teacherName := js "Kru B";
     f_program := Some ThaiProgramme;
     f_classroom := js room;
     f_period := Some per;
     f_bookingDate := js date;
     f_learningUnitNumber := js "2";
     f_learningUnitName := js "Unit";
     f_lessonPlanName := js "Plan";
     f_selectedEquipment := items;
     f_otherEquipment := [] |}.

(** [arr.join(sep)], used to state what [split] returns. *)
Fixpoint joinWith (sep : N) (l : list jsstring) : jsstring :=
  match l with
  | [] => []
  | [w] => w
  | w :: ws => w ++ sep :: joinWith sep ws
  end.

(** ** Vocabulary of the statements *)

(** Active status: one of Booked, In Use, Awaiting Return. *)
Definition isActive (b : Booking) : Prop :=
  status b = Booked \/ status b = InUse \/ status b = AwaitingReturn.

(** [b] is an active booking whose stored date starts with the ten code
    units of [date] and whose period is [per]. *)
Definition sameSlot (b : Booking) (date : jsstring) (per : Z) : Prop :=
  isActive b /\ substring0 10 (bookingDate b) = date /\ period b = per.

(** Some active booking of the slot has exactly this classroom string. *)
Definition classroomTaken (bookings : list Booking) (date : jsstring) (per : Z)
    (room : jsstring) : Prop :=
  exists b, In b bookings /\ sameSlot b date per /\ classroom b = room.

(** Some active booking of the slot holds an item equal, after trimming
    both, to a requested item. *)
Definition equipmentTaken (bookings : list Booking) (date : jsstring) (per : Z)
    (requested : list jsstring) : Prop :=
  exists b e r, In b bookings /\ sameSlot b date per
                /\ In e (equipment b) /\ In r requested /\ trim e = trim r.

Definition sampleClock : Clock :=
  {| now := 1721640000000; isoNow := js "2024-07-22T09:20:00.000Z" |}.

Definition sampleData (room : string) (per : Z) (kind : BookingType) : BookingData :=
  {| d_teacherName := js "Kru B";
     d_program := ThaiProgramme;
     d_classroom := js room;
     d_period := per;
     d_bookingDate := js "2024-07-22";
     d_learningUnitNumber := js "2";
     d_learningUnitName := js "Unit";
     d_lessonPlanName := js "Plan";
     d_equipment := [js "tv"];
     d_type := kind |}.

Definition gatewayDown : Error := RemoteError (js "Failed to fetch").

(** The bookings a throwing filter predicate keeps. *)
Definition keeps (p : Booking -> Except bool) (b : Booking) : bool :=
  match p b with
  | Value true => true
  | _ => false
  end.

(** The bookings of a list stored under a key, in list order. *)
Definition underKey (k : jsstring) (kept : list Booking) : list Booking :=
  List.filter (fun b => str_eqb (slotKey (classroom b) (period b)) k) kept.

Definition eveningBooking : Booking :=
  sampleBooking 1 "P.1A TP" 3 "2024-07-22T17:00:00.000Z" [js "tv"] Booked.

Definition lateBooking : Booking :=
  sampleBooking 2 "P.2A TP" 4 "2024-07-22T23:59:59.999Z" [js "hdmi"] InUse.

Definition cancelledBooking : Booking :=
  sampleBooking 3 "P.1A TP" 3 "2024-07-23" [js "tv"] Cancelled.


(** ** Further functions of the pages *)

(** [arr.join(sep)] *)
Fixpoint join (sep : jsstring) (l : list jsstring) : jsstring :=
  match l with
  | [] => []
  | [w] => w
  | w :: ws => w ++ sep ++ join sep ws
  end.

(** The equipment cell of an exported row: [b.equipment.join(', ')]
    ([ReportsPage.handleExport]). *)
Definition exportEquipment (b : Booking) : jsstring :=
  join (js ", ") (equipment b).

(** [BookingForm.handleEquipmentChange]: a ticked box appends its value,
    an unticked one removes every occurrence of it. *)
Definition handleEquipmentChange (value : jsstring) (checked : bool)
    (prev : list jsstring) : list jsstring :=
  if checked then prev ++ [value]
  else List.filter (fun item => negb (str_eqb item value)) prev.

(** *** Confirmed status changes of the dashboard and of the schedule *)


Section Handlers.

Variable sortByCreatedAtDesc : list Booking -> list Booking.




End Handlers.

(** *** Users and the cancel button of a schedule cell *)

Inductive UserRole := admin | teacher.

(** [User] of [types.ts] (the optional password is not kept). *)
Record User := {
  u_id : Z;
  u_name : jsstring;
  u_username : jsstring;
  u_role : UserRole
}.

#[global] Instance UserRole_eq_dec : EqDecision UserRole.
Proof. solve_decision. Defined.

(** [canCancel] of [BookedSlotInfo]. *)
Definition canCancel (currentUser : option User) (booking : Booking) : bool :=
  match currentUser with
  | None => false
  | Some u =>
      (bool_decide (u_role u = admin) || str_eqb (u_name u) (teacherName booking))
      && negb (bool_decide (status booking = Returned))
      && negb (bool_decide (status booking = Cancelled))
  end.

(** *** The report filter and the dashboard list *)

(** [s.startsWith(p)] and [s.includes(sub)] on code units. *)
Fixpoint isPrefixOf (p s : jsstring) : bool :=
  match p, s with
  | [], _ => true
  | _ :: _, [] => false
  | a :: p', b :: s' => (a =? b)%N && isPrefixOf p' s'
  end.

Fixpoint strIncludes (s sub : jsstring) : bool :=
  isPrefixOf sub s
  || match s with
     | [] => false
     | _ :: s' => strIncludes s' sub
     end.

(** [date.setUTCHours(0, 0, 0, 0)]: the time value of the start of the
    UTC day; an Invalid Date stays invalid. *)
Definition setUTCMidnight (date : option Z) : option Z :=
  match date with
  | Some t => Some (t / msPerDay * msPerDay)
  | None => None
  end.

(** [a >= b] and [a <= b] on two dates: false when either is invalid. *)
Definition dateGe (a b : option Z) : bool :=
  match a, b with
  | Some x, Some y => y <=? x
  | _, _ => false
  end.

Definition dateLe (a b : option Z) : bool :=
  match a, b with
  | Some x, Some y => x <=? y
  | _, _ => false
  end.

Section Lists.

(** The engine's [Date.parse] and [String.prototype.toLowerCase] (the
    case mapping of Unicode is left to the engine). *)
Variable Date_parse : jsstring -> option Z.
Variable toLowerCase : jsstring -> jsstring.

(** The status filter of [ReportsPage.displayedBookings]; [None] is the
    empty selection. *)
Definition statusFilter (selectedStatus : option BookingStatus) (b : Booking) : bool :=
  match selectedStatus with
  | None => true
  | Some st => bool_decide (status b = st)
  end.

(** The date filter. *)
Definition dateFilter (startDate endDate : jsstring) (b : Booking) : bool :=
  if emptyStr startDate && emptyStr endDate then true
  else
    let bookingDay := setUTCMidnight (newDate Date_parse (bookingDate b)) in
    let isAfterStart :=
      if emptyStr startDate then true
      else dateGe bookingDay (setUTCMidnight (newDate Date_parse startDate)) in
    let isBeforeEnd :=
      if emptyStr endDate then true
      else dateLe bookingDay (setUTCMidnight (newDate Date_parse endDate)) in
    isAfterStart && isBeforeEnd.

(** The search filter of the report: teacher, equipment, classroom and
    lesson plan. *)
Definition reportSearchFilter (searchQuery : jsstring) (b : Booking) : bool :=
  if emptyStr searchQuery then true
  else
    let lowerQuery := toLowerCase searchQuery in
    strIncludes (toLowerCase (teacherName b)) lowerQuery
    || existsb (fun eq => strIncludes (toLowerCase eq) lowerQuery) (equipment b)
    || strIncludes (toLowerCase (classroom b)) lowerQuery
    || strIncludes (toLowerCase (lessonPlanName b)) lowerQuery.

Definition displayedBookings (bookings : list Booking)
    (selectedStatus : option BookingStatus) (startDate endDate : jsstring)
    (searchQuery : jsstring) : list Booking :=
  List.filter (reportSearchFilter searchQuery)
    (List.filter (dateFilter startDate endDate)
       (List.filter (statusFilter selectedStatus) bookings)).

(** The search filter of the dashboard: teacher, equipment, classroom. *)
Definition dashboardSearchFilter (searchQuery : jsstring) (b : Booking) : bool :=
  if emptyStr searchQuery then true
  else
    let lowerQuery := toLowerCase searchQuery in
    strIncludes (toLowerCase (teacherName b)) lowerQuery
    || existsb (fun eq => strIncludes (toLowerCase eq) lowerQuery) (equipment b)
    || strIncludes (toLowerCase (classroom b)) lowerQuery.

(** [.sort(...)] of the dashboard, by date then period, latest first:
    the comparator yields [NaN] on an Invalid Date, and the order is
    then the engine's; the sort is left abstract. *)
Variable sortByDateThenPeriod : list Booking -> list Booking.

(** [DashboardPage.activeBookings] *)
Definition activeBookings (bookings : list Booking) (searchQuery : jsstring)
  : list Booking :=
  sortByDateThenPeriod
    (List.filter (dashboardSearchFilter searchQuery)
       (List.filter (fun b => statusIncludes activeStatuses (status b)) bookings)).

End Lists.

(** *** The session ([AuthProvider]) *)

(** What [localStorage.getItem('currentUser')] can hold: a text that
    [JSON.parse] reads as a user or as [null], the empty text, or a text
    that [JSON.parse] rejects. *)
Inductive StoredItem :=
| ItemJson (value : option User)
| ItemEmpty
| ItemCorrupt.

Record AuthState := {
  user : option User;
  currentUserItem : option StoredItem;
  isLoading : bool
}.

(** The state of a freshly loaded page over a given storage. *)
Definition initialAuth (item : option StoredItem) : AuthState :=
  {| user := None; currentUserItem := item; isLoading := true |}.

(** The mount effect of [AuthProvider]. *)
Definition restoreSession (st : AuthState) : AuthState :=
  match currentUserItem st with
  | Some (ItemJson value) =>
      {| user := value; currentUserItem := currentUserItem st; isLoading := false |}
  | Some ItemCorrupt =>
      {| user := user st; currentUserItem := None; isLoading := false |}
  | _ =>
      {| user := user st; currentUserItem := currentUserItem st; isLoading := false |}
  end.

(** [login]: [reply] is the settlement of [api.login]. *)
Definition login (reply : Reply (option User)) (st : AuthState) : bool * AuthState :=
  match reply with
  | Resolved (Some loggedInUser) =>
      (true, {| user := Some loggedInUser;
                currentUserItem := Some (ItemJson (Some loggedInUser));
                isLoading := false |})
  | Resolved None =>
      (false, {| user := None; currentUserItem := None; isLoading := false |})
  | Rejected error =>
      (false, {| user := None; currentUserItem := None; isLoading := false |})
  end.

Definition logout (st : AuthState) : AuthState :=
  {| user := None; currentUserItem := None; isLoading := isLoading st |}.

Inductive AuthAction :=
| DoLogin (reply : Reply (option User))
| DoLogout.

Definition authStep (st : AuthState) (a : AuthAction) : AuthState :=
  match a with
  | DoLogin reply => snd (login reply st)
  | DoLogout => logout st
  end.

(** A page load followed by a series of logins and logouts. *)
Definition session (item : option StoredItem) (actions : list AuthAction) : AuthState :=
  foldl authStep (restoreSession (initialAuth item)) actions.

(** *** Routes ([ProtectedRoute], [AppContent]) *)

Inductive Page :=
| LoginPage
| DashboardPage
| BookingSchedulePage
| BookingPage
| AdminBorrowPage
| ReportsPage
| UserManagementPage
| SpinnerScreen.

Inductive Rendered :=
| Display (page : Page)
| Navigate (to : jsstring).

Definition ProtectedRoute (auth : AuthState) (adminOnly : bool) (children : Page)
  : Rendered :=
  if isLoading auth then Display SpinnerScreen
  else match user auth with
       | None => Navigate (js "/login")
       | Some u =>
           if adminOnly && negb (bool_decide (u_role u = admin))
           then Navigate (js "/")
           else Display children
       end.

Section Routes.

(** Whether a route path matches a location (the router's matcher). *)
Variable matchPath : jsstring -> jsstring -> bool.

Definition AppContent (auth : AuthState) (location : jsstring) : Rendered :=
  match user auth with
  | None =>
      if matchPath (js "/login") location then Display LoginPage
      else Navigate (js "/login")
  | Some _ =>
      if matchPath (js "/") location then
        ProtectedRoute auth false DashboardPage
      else if matchPath (js "/schedule") location then
        ProtectedRoute auth false BookingSchedulePage
      else if matchPath (js "/book") location then
        ProtectedRoute auth false BookingPage
      else if matchPath (js "/admin-borrow") location then
        ProtectedRoute auth true AdminBorrowPage
      else if matchPath (js "/reports") location then
        ProtectedRoute auth true ReportsPage
      else if matchPath (js "/users") location then
        ProtectedRoute auth true UserManagementPage
      else Navigate (js "/")
  end.

End Routes.

(** *** The gateway ([fetchFromScript] of [api.ts]) *)

(** What [response.json()] gives: a rejection on a body that is not
    JSON, [null], or an object with its [status], [data] and [message]
    (absent fields are [None]; [data] is taken at the type the caller
    expects). *)
Inductive Json (A : Type) :=
| JsonInvalid
| JsonNull
| JsonObject (status : option jsstring) (data : A) (message : option jsstring).
Arguments JsonInvalid {A}.
Arguments JsonNull {A}.
Arguments JsonObject {A} status data message.

Record HttpResponse (A : Type) := {
  ok : bool;
  httpStatus : Z;
  statusText : jsstring;
  text : jsstring;
  json : Json A
}.
Arguments ok {A} _.
Arguments httpStatus {A} _.
Arguments statusText {A} _.
Arguments text {A} _.
Arguments json {A} _.

(** [a || b] on strings. *)
Definition orElse (a b : jsstring) : jsstring := if emptyStr a then b else a.

Definition unknownApiError : jsstring :=
  js "An unknown error occurred with the API script.".

(** [response] is the settlement of [fetch]; [syntaxError] and
    [typeError] are what the engine throws on a body that is not JSON and
    on reading [status] of [null]. *)
Definition fetchFromScript {A : Type} (response : Reply (HttpResponse A))
    (syntaxError typeError : Error) : Reply A :=
  match response with
  | Rejected networkError => Rejected networkError
  | Resolved r =>
      if negb (ok r) then
        Rejected (RemoteError
                    (js "API request failed with status "
                     ++ numberToString (httpStatus r) ++ js ": "
                     ++ orElse (text r) (statusText r)))
      else
        match json r with
        | JsonInvalid => Rejected syntaxError
        | JsonNull => Rejected typeError
        | JsonObject st data message =>
            if bool_decide (st = Some (js "success")) then Resolved data
            else Rejected (RemoteError
                             (orElse (default [] message) unknownApiError))
        end
  end.

(** What a reload of the page would restore from the storage. *)
Definition storedUser (st : AuthState) : option User :=
  match currentUserItem st with
  | Some (ItemJson value) => value
  | _ => None
  end.

(** *** Checks by enumeration, used for the calendar and for decimal fields *)

(** The integers [0 .. n-1]. *)
Definition upto (n : nat) : list Z := (fun k => Z.of_nat k) <$> seq 0 n.

(** Day of the 400-year era for a year of the era (counted from March),
    a month and a day: the inner part of [daysFromCivil]. *)
Definition dayOfEra (yoe m d : Z) : Z :=
  let doy := (153 * (if 2 <? m then m - 3 else m + 9) + 2) / 5 + d - 1 in
  yoe * 365 + yoe / 4 - yoe / 100 + doy.

(** Year of the era (January and February count for the next year),
    month and day for a day of the era: the inner part of
    [civilFromDays]. *)
Definition dateOfEraDay (doe : Z) : Z * Z * Z :=
  let yoe := (doe - doe / 1460 + doe / 36524 - doe / 146096) / 365 in
  let doy := doe - (365 * yoe + yoe / 4 - yoe / 100) in
  let mp := (5 * doy + 2) / 153 in
  let d := doy - (153 * mp + 2) / 5 + 1 in
  let m := if mp <? 10 then mp + 3 else mp - 9 in
  (if m <=? 2 then yoe + 1 else yoe, m, d).

(** For a year of an era, a month and a day of that month (both counted
    from 0 here), the day of the era is in range and gives the date
    back. *)
Definition calendarCell (yoe m0 d0 : Z) : bool :=
  let m := m0 + 1 in
  let d := d0 + 1 in
  let y := if m <=? 2 then yoe + 1 else yoe in
  if d <=? daysInMonth y m then
    let doe := dayOfEra yoe m d in
    (0 <=? doe) && (doe <? 146097)
    && bool_decide (dateOfEraDay doe = (y, m, d))
  else true.

Definition calendarMonth (yoe m0 : Z) : bool :=
  forallb (calendarCell yoe m0) (upto 31).

Definition calendarYear (yoe : Z) : bool :=
  forallb (calendarMonth yoe) (upto 12).

(** The code units of the digits. *)
Definition digitCodes : list N := [48; 49; 50; 51; 52; 53; 54; 55; 56; 57]%N.

Definition digitOf (c : N) : Z := Z.of_N c - 48.

(** A year of four digits that does not start with 0 prints as its
    digits. *)
Definition yearCell (c0 c1 c2 c3 : N) : bool :=
  (c0 =? 48)%N
  || bool_decide
       (numberToString
          (10 * (10 * (10 * (10 * 0 + digitOf c0) + digitOf c1) + digitOf c2)
           + digitOf c3)
        = [c0; c1; c2; c3]).

Definition yearRow2 (c0 c1 c2 : N) : bool := forallb (yearCell c0 c1 c2) digitCodes.
Definition yearRow1 (c0 c1 : N) : bool := forallb (yearRow2 c0 c1) digitCodes.
Definition yearRow0 (c0 : N) : bool := forallb (yearRow1 c0) digitCodes.

(** A field of two digits prints, padded, as its digits. *)
Definition pad2Cell (c0 c1 : N) : bool :=
  bool_decide (pad2 (10 * (10 * 0 + digitOf c0) + digitOf c1) = [c0; c1]).

Definition pad2Row (c0 : N) : bool := forallb (pad2Cell c0) digitCodes.

(** A date of the calendar written [YYYY-MM-DD], with a year from 1000
    on: ten code units that [isoDateParse] reads (so the month is 01 to
    12 and the day is a day of that month in that year), the first of
    them not the digit 0.  A day past the end of its month, such as
    2024-02-30, is not among them. *)
Definition isDateOnly (s : jsstring) : Prop :=
  length s = 10%nat /\ isoDateParse s <> None /\ head s <> Some 48%N.

(** *** [createBooking] around its [await] *)

(** What [createBooking] does before it waits for the gateway. *)
Definition createBooking_begin (clock : Clock) (bookingData : BookingData)
  : Prog unit :=
  setBookings (addOptimistic (optimisticBooking clock bookingData)) ;;
  call (ReqCreateBooking bookingData).

(** What it does once the request has settled. *)
Definition createBooking_settle (clock : Clock) (reply : Reply RawBooking)
  : Prog Completion :=
  match reply with
  | Resolved finalBooking =>
      setBookings (replaceTemp (now clock) (sanitizeBooking finalBooking)) ;;
      ret Return
  | Rejected error =>
      consoleError ;;
      setBookings (removeTemp (now clock)) ;;
      ret (Throw error)
  end.

(** *** [getThaiTime] *)

(** [getThaiTime().dateString]: the calendar day of the present time in
    the zone Asia/Bangkok, in the [en-CA] form.  The time value of
    [new Date()] is always valid, so formatting does not throw.  The
    other field of the result, [now], is read nowhere in the source and
    is left out. *)
Definition getThaiTime (clock : Clock) : jsstring :=
  enCA (civilFromDays ((now clock + bangkokOffset (now clock)) / msPerDay)).

(** Every day of a 400-year era is the day of a date of the calendar:
    checked for the days [1000 * hi + lo]. *)
Definition eraDayCell (hi lo : Z) : bool :=
  let doe := 1000 * hi + lo in
  if doe <? 146097 then
    let '(y, m, d) := dateOfEraDay doe in
    let yoe := if m <=? 2 then y - 1 else y in
    (1 <=? m) && (m <=? 12) && (1 <=? d) && (d <=? daysInMonth y m)
    && (0 <=? yoe) && (yoe <? 400) && (dayOfEra yoe m d =? doe)
  else true.

Definition eraDayRow (hi : Z) : bool := forallb (eraDayCell hi) (upto 1000).

(** * Properties *)

(** ** Strings *)

Lemma split_nonempty sep s : split sep s <> [].
Proof.
  destruct s as [|c s]; simpl; [discriminate|].
  destruct (c =? sep)%N; [discriminate|].
  destruct (split sep s); discriminate.
Qed.

Lemma split_join sep s : joinWith sep (split sep s) = s.
Proof.
  induction s as [|c s IH]; simpl; [reflexivity|].
  destruct (N.eqb_spec c sep) as [->|Hne].
  - pose proof (split_nonempty sep s) as Hn.
    destruct (split sep s) as [|w ws]; [contradiction|].
    simpl. f_equal. exact IH.
  - pose proof (split_nonempty sep s) as Hn.
    destruct (split sep s) as [|w ws]; [contradiction|].
    destruct ws as [|w' ws]; simpl in *; rewrite <- IH; reflexivity.
Qed.

Lemma split_no_sep sep s : Forall (fun w => ~ In sep w) (split sep s).
Proof.
  induction s as [|c s IH]; simpl.
  - constructor; [intros []|constructor].
  - destruct (N.eqb_spec c sep) as [->|Hne].
    + constructor; [intros []|exact IH].
    + destruct (split sep s) as [|w ws].
      * constructor; [|constructor]. intros [H|[]]. congruence.
      * inversion IH as [|? ? Hw Hws]; subst.
        constructor; [|exact Hws].
        intros [H|H]; [congruence|contradiction].
Qed.

Lemma trimStart_head s c r : trimStart s = c :: r -> isWhiteSpace c = false.
Proof.
  induction s as [|x s IH]; simpl; [discriminate|].
  destruct (isWhiteSpace x) eqn:Hx; [exact IH|].
  intros [= <- _]. exact Hx.
Qed.

Lemma trimStart_fix s c r :
  s = c :: r -> isWhiteSpace c = false -> trimStart s = s.
Proof. intros -> H. simpl. rewrite H. reflexivity. Qed.

Lemma trimEnd_cons c s :
  trimEnd (c :: s) = [] \/ exists r, trimEnd (c :: s) = c :: r.
Proof.
  simpl. destruct (trimEnd s) as [|y r].
  - destruct (isWhiteSpace c); [left|right; exists []]; reflexivity.
  - right. eexists. reflexivity.
Qed.

Lemma trimEnd_last s c : last (trimEnd s) = Some c -> isWhiteSpace c = false.
Proof.
  induction s as [|x s IH]; simpl; [discriminate|].
  destruct (trimEnd s) as [|y r] eqn:E.
  - destruct (isWhiteSpace x) eqn:Hx; simpl; [discriminate|].
    intros [= <-]. exact Hx.
  - intros H. apply IH. exact H.
Qed.

Lemma trimEnd_idempotent s : trimEnd (trimEnd s) = trimEnd s.
Proof.
  induction s as [|x s IH]; simpl; [reflexivity|].
  destruct (trimEnd s) as [|y r] eqn:E.
  - destruct (isWhiteSpace x) eqn:Hx; simpl; [reflexivity|].
    rewrite Hx. reflexivity.
  - change (trimEnd (x :: y :: r)) with
      (match trimEnd (y :: r) with
       | [] => if isWhiteSpace x then [] else [x]
       | r' => x :: r'
       end).
    rewrite IH. reflexivity.
Qed.

Lemma trim_head s c r : trim s = c :: r -> isWhiteSpace c = false.
Proof.
  unfold trim. intros H.
  destruct (trimStart s) as [|x t] eqn:E; [discriminate|].
  destruct (trimEnd_cons x t) as [H0|[r' H1]]; [congruence|].
  rewrite H1 in H. injection H as <- _.
  eapply trimStart_head. exact E.
Qed.

Lemma trim_last s c : last (trim s) = Some c -> isWhiteSpace c = false.
Proof. apply trimEnd_last. Qed.

Lemma trim_idempotent s : trim (trim s) = trim s.
Proof.
  destruct (trim s) as [|c r] eqn:E; [reflexivity|].
  pose proof (trim_head _ _ _ E) as Hc.
  unfold trim at 1. rewrite (trimStart_fix _ c r eq_refl Hc).
  rewrite <- E. unfold trim. apply trimEnd_idempotent.
Qed.

Lemma str_eqb_eq a b : str_eqb a b = true <-> a = b.
Proof. unfold str_eqb. apply bool_decide_eq_true. Qed.

Lemma includes_In arr x : includes arr x = true <-> In x arr.
Proof.
  unfold includes. rewrite existsb_exists. split.
  - intros [y [Hy He]]. apply str_eqb_eq in He. subst. exact Hy.
  - intros H. exists x. split; [exact H|]. apply str_eqb_eq. reflexivity.
Qed.

(** ** Normalisation of the equipment field *)

Example sanitize_comma_string :
  sanitizeEquipment (EqString (js " tv , ,remote,,  ")) = [js "tv"; js "remote"].
Proof. reflexivity. Qed.

Example sanitize_empty_string : sanitizeEquipment (EqString []) = [].
Proof. reflexivity. Qed.

Lemma sanitizeBooking_other_fields booking :
  id (sanitizeBooking booking) = r_id booking
  /\ classroom (sanitizeBooking booking) = r_classroom booking
  /\ period (sanitizeBooking booking) = r_period booking
  /\ bookingDate (sanitizeBooking booking) = r_bookingDate booking
  /\ status (sanitizeBooking booking) = r_status booking.
Proof. repeat split. Qed.

(** C3, counterexample.  An array is passed through as it is: when the
    source array holds an empty string, so does the normalised
    equipment list, which is then not a list of non-empty strings. *)
Lemma sanitizeBooking_array_keeps_empty_item :
  ~ Forall (fun e => e <> [])
      (equipment (sanitizeBooking (sampleRaw 7 (EqArray [js "tv"; []; js " hdmi "])))).
Proof.
  intros H. simpl in H.
  apply Forall_cons_1 in H as [_ H].
  apply Forall_cons_1 in H as [H _].
  apply H. reflexivity.
Qed.

(** C3, amended.  After [sanitizeBooking] the equipment field is an
    ordered list of strings: an array is passed through unchanged (its
    items are neither trimmed nor filtered); a string is cut at its
    commas (the pieces joined by commas give the string back), each
    piece is trimmed and the empty results are dropped, so every item
    is a non-empty trimmed piece, in the order of the string; any other
    shape gives the empty list. *)
Theorem sanitizeBooking_equipment (booking : RawBooking) :
  match r_equipment booking with
  | EqArray items => equipment (sanitizeBooking booking) = items
  | EqString s =>
      equipment (sanitizeBooking booking)
      = List.filter (fun e => negb (emptyStr e)) (trim <$> split comma s)
      /\ joinWith comma (split comma s) = s
      /\ Forall (fun e => e <> [] /\ trim e = e
                          /\ exists piece, In piece (split comma s) /\ e = trim piece)
                (equipment (sanitizeBooking booking))
  | EqOther => equipment (sanitizeBooking booking) = []
  end.
Proof.
  destruct (r_equipment booking) as [items|s|] eqn:E; simpl; rewrite E; simpl;
    [reflexivity| |reflexivity].
  split; [|split].
  - apply filter_ext. intros [|c e]; reflexivity.
  - apply split_join.
  - apply List.Forall_forall. intros e He.
    apply filter_In in He as [He Hlen].
    apply in_map_iff in He as [piece [<- Hp]].
    split; [|split].
    + destruct (trim piece); [discriminate|discriminate].
    + apply trim_idempotent.
    + exists piece. split; [exact Hp|reflexivity].
Qed.

(** ** The conflict check *)

Lemma statusIncludes_active st :
  statusIncludes activeStatuses st = true
  <-> st = Booked \/ st = InUse \/ st = AwaitingReturn.
Proof.
  destruct st; vm_compute; split; intros H;
    try discriminate; try reflexivity; auto;
    destruct H as [H|[H|H]]; discriminate.
Qed.

Lemma bookingsAtSameTime_In bookings date per b :
  In b (bookingsAtSameTime bookings date per) <-> In b bookings /\ sameSlot b date per.
Proof.
  unfold bookingsAtSameTime, sameSlot, isActive. rewrite filter_In.
  rewrite !andb_true_iff, str_eqb_eq, Z.eqb_eq, statusIncludes_active.
  tauto.
Qed.

Lemma isClassroomConflict_iff bookings date per room :
  isClassroomConflict (bookingsAtSameTime bookings date per) room = true
  <-> classroomTaken bookings date per room.
Proof.
  unfold isClassroomConflict, classroomTaken. rewrite existsb_exists.
  split; intros [b H]; exists b;
    rewrite bookingsAtSameTime_In, str_eqb_eq in *; tauto.
Qed.

Lemma allBookedEquipmentAtTime_In sameTime x :
  In x (allBookedEquipmentAtTime sameTime)
  <-> exists b e, In b sameTime /\ In e (equipment b) /\ x = trim e.
Proof.
  unfold allBookedEquipmentAtTime. rewrite in_flat_map. split.
  - intros [b [Hb Hx]]. apply in_map_iff in Hx as [e [<- He]]. eauto.
  - intros [b [e [Hb [He ->]]]]. exists b. split; [exact Hb|].
    apply in_map_iff. eauto.
Qed.

Lemma isEquipmentConflict_iff bookings date per requested :
  isEquipmentConflict (bookingsAtSameTime bookings date per) requested = true
  <-> equipmentTaken bookings date per requested.
Proof.
  unfold isEquipmentConflict, equipmentTaken. rewrite existsb_exists. split.
  - intros [r [Hr Hi]]. apply includes_In in Hi.
    apply allBookedEquipmentAtTime_In in Hi as [b [e [Hb [He Heq]]]].
    apply bookingsAtSameTime_In in Hb as [Hb Hs].
    exists b, e, r. auto.
  - intros [b [e [r [Hb [Hs [He [Hr Heq]]]]]]]. exists r. split; [exact Hr|].
    apply includes_In, allBookedEquipmentAtTime_In. exists b, e.
    rewrite bookingsAtSameTime_In. auto.
Qed.

Lemma conflictCheck_cases bookings date room per requested :
  (conflictCheck bookings date room per requested = ClassroomConflict
   <-> classroomTaken bookings date per room)
  /\ (conflictCheck bookings date room per requested = EquipmentConflict
      <-> ~ classroomTaken bookings date per room
          /\ equipmentTaken bookings date per requested)
  /\ (conflictCheck bookings date room per requested = NoConflict
      <-> ~ classroomTaken bookings date per room
          /\ ~ equipmentTaken bookings date per requested).
Proof.
  unfold conflictCheck.
  rewrite <- isClassroomConflict_iff, <- isEquipmentConflict_iff.
  destruct (isClassroomConflict _ room); destruct (isEquipmentConflict _ requested);
    intuition congruence.
Qed.

Lemma substring0_prefix (day rest : jsstring) :
  length day = 10%nat -> substring0 10 (day ++ rest) = day.
Proof.
  intros H. unfold substring0. rewrite <- H. apply take_app_length.
Qed.

Lemma handleSubmit_conflict f bookings clock reply s :
  formIncomplete f = false ->
  handleSubmit f bookings clock reply s =
  match conflictCheck bookings (f_bookingDate f) (f_classroom f)
                      (Number (f_period f)) (finalEquipmentList f) with
  | ClassroomConflict => (tt, s, [SwalFire LoadingIndicator; SwalFire BookingConflict])
  | EquipmentConflict =>
      (tt, s, [SwalFire LoadingIndicator; SwalFire EquipmentConflictDialog])
  | NoConflict =>
      (swalFire LoadingIndicator ;;
       r <- createBooking clock (bookingDataOf f) reply ;;
       match r with
       | Return => swalFire BookingSuccess
       | Throw error => consoleError ;; swalFire BookingSaveError
       end) s
  end.
Proof.
  intros Hf. unfold handleSubmit. rewrite Hf.
  destruct (conflictCheck _ _ _ _ _); reflexivity.
Qed.

(** Scenarios 7, 8 and 9 of the specification. *)
Example scenario_classroom_conflict :
  conflictCheck [sampleBooking 1 "P.1A TP" 3 "2024-07-22" [js "tv"] Booked]
    (js "2024-07-22") (js "P.1A TP") 3 [js "remote"] = ClassroomConflict.
Proof. reflexivity. Qed.

Example scenario_equipment_conflict :
  conflictCheck [sampleBooking 1 "P.1A TP" 3 "2024-07-22" [js "tv"] Booked]
    (js "2024-07-22") (js "P.2A TP") 3 [js "tv"] = EquipmentConflict.
Proof. reflexivity. Qed.

Example scenario_other_period :
  conflictCheck [sampleBooking 1 "P.1A TP" 3 "2024-07-22" [js "tv"] Booked]
    (js "2024-07-22") (js "P.2A TP") 4 [js "tv"] = NoConflict.
Proof. reflexivity. Qed.

(** The comparison of classrooms is sensitive to case. *)
Example classroom_case_sensitive :
  conflictCheck [sampleBooking 1 "P.1A TP" 3 "2024-07-22" [js "tv"] Booked]
    (js "2024-07-22") (js "p.1a tp") 3 [js "remote"] = NoConflict.
Proof. reflexivity. Qed.

(** C1, counterexample.  The classroom strings are compared as they are,
    without trimming: a stored classroom with a trailing space does not
    conflict with the same classroom without it, although the two are
    equal after trimming. *)
Lemma classroom_compared_untrimmed :
  ~ (forall bookings date room per requested b,
        In b bookings -> sameSlot b date per ->
        trim (classroom b) = trim room ->
        conflictCheck bookings date room per requested = ClassroomConflict).
Proof.
  intros H.
  specialize (H [sampleBooking 1 "P.1A TP " 3 "2024-07-22" [js "tv"] Booked]
                (js "2024-07-22") (js "P.1A TP") 3 [js "remote"]
                (sampleBooking 1 "P.1A TP " 3 "2024-07-22" [js "tv"] Booked)).
  assert (E : conflictCheck
                [sampleBooking 1 "P.1A TP " 3 "2024-07-22" [js "tv"] Booked]
                (js "2024-07-22") (js "P.1A TP") 3 [js "remote"] = NoConflict)
    by reflexivity.
  rewrite E in H. discriminate H.
  - left. reflexivity.
  - repeat split. left. reflexivity.
  - reflexivity.
Qed.

(** C1, amended.  The conflict check answers [ClassroomConflict] exactly
    when some active booking (Booked, In Use, Awaiting Return) whose
    stored date starts with the proposal's date, with the proposal's
    period, has the very same classroom string (no trimming, no case
    folding).  In that case a complete form is rejected with the booking
    conflict dialog: the cache is untouched and no request is sent.  Only
    the first ten code units of the stored date count, so a time of day
    after the calendar date is ignored. *)
Theorem classroom_conflict_rejects :
  (forall bookings date room per requested,
      conflictCheck bookings date room per requested = ClassroomConflict
      <-> classroomTaken bookings date per room)
  /\ (forall f bookings clock reply s,
         formIncomplete f = false ->
         classroomTaken bookings (f_bookingDate f) (Number (f_period f))
                        (f_classroom f) ->
         handleSubmit f bookings clock reply s
         = (tt, s, [SwalFire LoadingIndicator; SwalFire BookingConflict]))
  /\ (forall b day rest date per,
         bookingDate b = day ++ rest -> length day = 10%nat ->
         (sameSlot b date per <-> isActive b /\ day = date /\ period b = per)).
Proof.
  split; [|split].
  - intros bookings date room per requested.
    apply (conflictCheck_cases bookings date room per requested).
  - intros f bookings clock reply s Hf Ht.
    rewrite handleSubmit_conflict by exact Hf.
    destruct (conflictCheck_cases bookings (f_bookingDate f) (f_classroom f)
                (Number (f_period f)) (finalEquipmentList f)) as [[_ Hc] _].
    rewrite (Hc Ht). reflexivity.
  - intros b day rest date per Hd Hl. unfold sameSlot.
    rewrite Hd, substring0_prefix by exact Hl. tauto.
Qed.

Lemma classroom_conflict_rejects_witness :
  handleSubmit (sampleForm "P.1A TP" 3 "2024-07-22" [js "remote"])
    [sampleBooking 1 "P.1A TP" 3 "2024-07-22T00:00:00.000Z" [js "tv"] InUse]
    sampleClock (Resolved (sampleRaw 2 EqOther))
    [sampleBooking 1 "P.1A TP" 3 "2024-07-22T00:00:00.000Z" [js "tv"] InUse]
  = (tt, [sampleBooking 1 "P.1A TP" 3 "2024-07-22T00:00:00.000Z" [js "tv"] InUse],
     [SwalFire LoadingIndicator; SwalFire BookingConflict]).
Proof.
  apply (proj1 (proj2 classroom_conflict_rejects)).
  - reflexivity.
  - exists (sampleBooking 1 "P.1A TP" 3 "2024-07-22T00:00:00.000Z" [js "tv"] InUse).
    split; [left; reflexivity|].
    split; [|reflexivity].
    split; [right; left; reflexivity|].
    split; reflexivity.
Defined.

(** C2.  When no classroom conflict applies, the conflict check answers
    [EquipmentConflict] exactly when some active booking of the same
    date and period holds an item equal, after trimming both sides, to a
    requested item; a classroom conflict is reported first; with neither
    the answer is [NoConflict].  For a complete form the equipment
    conflict ends the submission with its dialog and no request, and
    without conflict the creation request for the form's data is
    sent. *)
Theorem equipment_conflict_rejects :
  (forall bookings date room per requested,
      (classroomTaken bookings date per room ->
       conflictCheck bookings date room per requested = ClassroomConflict)
      /\ (conflictCheck bookings date room per requested = EquipmentConflict
          <-> ~ classroomTaken bookings date per room
              /\ equipmentTaken bookings date per requested)
      /\ (conflictCheck bookings date room per requested = NoConflict
          <-> ~ classroomTaken bookings date per room
              /\ ~ equipmentTaken bookings date per requested))
  /\ (forall f bookings clock reply s,
         formIncomplete f = false ->
         ~ classroomTaken bookings (f_bookingDate f) (Number (f_period f))
                          (f_classroom f) ->
         equipmentTaken bookings (f_bookingDate f) (Number (f_period f))
                        (finalEquipmentList f) ->
         handleSubmit f bookings clock reply s
         = (tt, s, [SwalFire LoadingIndicator; SwalFire EquipmentConflictDialog]))
  /\ (forall f bookings clock reply s,
         formIncomplete f = false ->
         ~ classroomTaken bookings (f_bookingDate f) (Number (f_period f))
                          (f_classroom f) ->
         ~ equipmentTaken bookings (f_bookingDate f) (Number (f_period f))
                          (finalEquipmentList f) ->
         exists rest,
           trace (handleSubmit f bookings clock reply s)
           = SwalFire LoadingIndicator
             :: SetBookings (optimisticBooking clock (bookingDataOf f) :: s)
             :: Call (ReqCreateBooking (bookingDataOf f)) :: rest).
Proof.
  split; [|split].
  - intros. pose proof (conflictCheck_cases bookings date room per requested).
    tauto.
  - intros f bookings clock reply s Hf Hc He.
    rewrite handleSubmit_conflict by exact Hf.
    assert (E : conflictCheck bookings (f_bookingDate f) (f_classroom f)
                  (Number (f_period f)) (finalEquipmentList f) = EquipmentConflict)
      by (apply (conflictCheck_cases bookings (f_bookingDate f) (f_classroom f)
                   (Number (f_period f)) (finalEquipmentList f)); auto).
    rewrite E. reflexivity.
  - intros f bookings clock reply s Hf Hc He.
    rewrite handleSubmit_conflict by exact Hf.
    assert (E : conflictCheck bookings (f_bookingDate f) (f_classroom f)
                  (Number (f_period f)) (finalEquipmentList f) = NoConflict)
      by (apply (conflictCheck_cases bookings (f_bookingDate f) (f_classroom f)
                   (Number (f_period f)) (finalEquipmentList f)); auto).
    rewrite E. destruct reply; eexists; reflexivity.
Qed.

Lemma equipment_conflict_rejects_witness :
  handleSubmit (sampleForm "P.2A TP" 3 "2024-07-22" [js " tv"])
    [sampleBooking 1 "P.1A TP" 3 "2024-07-22" [js "tv "] Booked]
    sampleClock (Resolved (sampleRaw 2 EqOther))
    [sampleBooking 1 "P.1A TP" 3 "2024-07-22" [js "tv "] Booked]
  = (tt, [sampleBooking 1 "P.1A TP" 3 "2024-07-22" [js "tv "] Booked],
     [SwalFire LoadingIndicator; SwalFire EquipmentConflictDialog]).
Proof.
  apply (proj1 (proj2 equipment_conflict_rejects)).
  - reflexivity.
  - intros [b [Hin [_ Hroom]]].
    destruct Hin as [<-|[]]. vm_compute in Hroom. discriminate Hroom.
  - exists (sampleBooking 1 "P.1A TP" 3 "2024-07-22" [js "tv "] Booked),
           (js "tv "), (js "tv").
    split; [left; reflexivity|].
    split; [split; [left; reflexivity|split; reflexivity]|].
    split; [left; reflexivity|].
    split; [left; reflexivity|reflexivity].
Defined.

(** A submission without conflict: the placeholder is put at the head of
    the cache, the request is sent, the server's record takes the
    placeholder's place. *)
Example submission_accepted :
  handleSubmit (sampleForm "P.2A TP" 4 "2024-07-22" [js "tv"])
    [sampleBooking 1 "P.1A TP" 3 "2024-07-22" [js "tv"] Booked]
    sampleClock (Resolved (sampleRaw 2 (EqString (js "tv"))))
    [sampleBooking 1 "P.1A TP" 3 "2024-07-22" [js "tv"] Booked]
  = (tt,
     [sanitizeBooking (sampleRaw 2 (EqString (js "tv")));
      sampleBooking 1 "P.1A TP" 3 "2024-07-22" [js "tv"] Booked],
     [SwalFire LoadingIndicator;
      SetBookings
        [optimisticBooking sampleClock
           (bookingDataOf (sampleForm "P.2A TP" 4 "2024-07-22" [js "tv"]));
         sampleBooking 1 "P.1A TP" 3 "2024-07-22" [js "tv"] Booked];
      Call (ReqCreateBooking
              (bookingDataOf (sampleForm "P.2A TP" 4 "2024-07-22" [js "tv"])));
      SetBookings
        [sanitizeBooking (sampleRaw 2 (EqString (js "tv")));
         sampleBooking 1 "P.1A TP" 3 "2024-07-22" [js "tv"] Booked];
      SwalFire BookingSuccess]).
Proof. reflexivity. Qed.

(** An incomplete form is turned down before the conflict check. *)
Example incomplete_form_warned :
  handleSubmit (sampleForm "P.1A TP" 3 "2024-07-22" [])
    [sampleBooking 1 "P.1A TP" 3 "2024-07-22" [js "tv"] Booked]
    sampleClock (Resolved (sampleRaw 2 EqOther)) []
  = (tt, [], [SwalFire FormValidationError]).
Proof. reflexivity. Qed.

(** ** [createBooking] *)

Lemma replaceTemp_length tempId final prev :
  length (replaceTemp tempId final prev) = length prev.
Proof. unfold replaceTemp. apply length_map. Qed.

Lemma replaceTemp_lookup tempId final (prev : list Booking) (i : nat) b :
  prev !! i = Some b ->
  replaceTemp tempId final prev !! i
  = Some (if id b =? tempId then final else b).
Proof.
  intros H. unfold replaceTemp.
  change (map ?f prev) with (f <$> prev).
  rewrite list_lookup_fmap, H. reflexivity.
Qed.

Lemma replaceTemp_fresh tempId final prev :
  Forall (fun b => id b <> tempId) prev -> replaceTemp tempId final prev = prev.
Proof.
  induction 1 as [|b prev Hb _ IH]; simpl; [reflexivity|].
  rewrite IH. destruct (Z.eqb_spec (id b) tempId); [contradiction|reflexivity].
Qed.

Lemma removeTemp_fresh tempId prev :
  removeTemp tempId prev = prev <-> Forall (fun b => id b <> tempId) prev.
Proof.
  unfold removeTemp. split.
  - intros H. apply List.Forall_forall. intros b Hb.
    rewrite <- H in Hb. apply filter_In in Hb as [_ Hb].
    apply negb_true_iff, Z.eqb_neq in Hb. exact Hb.
  - induction 1 as [|b prev Hb _ IH]; simpl; [reflexivity|].
    destruct (Z.eqb_spec (id b) tempId); [contradiction|]. simpl.
    rewrite IH. reflexivity.
Qed.

Lemma removeTemp_none tempId prev b :
  In b (removeTemp tempId prev) -> id b <> tempId.
Proof.
  unfold removeTemp. intros H. apply filter_In in H as [_ H].
  apply negb_true_iff, Z.eqb_neq in H. exact H.
Qed.

Lemma createBooking_resolved clock bookingData finalBooking s :
  createBooking clock bookingData (Resolved finalBooking) s
  = (Return,
     replaceTemp (now clock) (sanitizeBooking finalBooking)
       (optimisticBooking clock bookingData :: s),
     [SetBookings (optimisticBooking clock bookingData :: s);
      Call (ReqCreateBooking bookingData);
      SetBookings (replaceTemp (now clock) (sanitizeBooking finalBooking)
                     (optimisticBooking clock bookingData :: s))]).
Proof. reflexivity. Qed.

Lemma createBooking_rejected clock bookingData error s :
  createBooking clock bookingData (Rejected error) s
  = (Throw error,
     removeTemp (now clock) (optimisticBooking clock bookingData :: s),
     [SetBookings (optimisticBooking clock bookingData :: s);
      Call (ReqCreateBooking bookingData);
      ConsoleError;
      SetBookings (removeTemp (now clock)
                     (optimisticBooking clock bookingData :: s))]).
Proof. reflexivity. Qed.

Lemma removeTemp_placeholder clock bookingData s :
  removeTemp (now clock) (optimisticBooking clock bookingData :: s)
  = removeTemp (now clock) s.
Proof. unfold removeTemp. simpl. rewrite Z.eqb_refl. reflexivity. Qed.

Lemma replaceTemp_placeholder clock bookingData final s :
  replaceTemp (now clock) final (optimisticBooking clock bookingData :: s)
  = final :: replaceTemp (now clock) final s.
Proof. unfold replaceTemp. simpl. rewrite Z.eqb_refl. reflexivity. Qed.

(** Replacing by id gives the list back exactly when every record that
    carries the id is already the replacement. *)
Lemma replaceTemp_same_iff tempId final prev :
  replaceTemp tempId final prev = prev
  <-> Forall (fun b => id b = tempId -> b = final) prev.
Proof.
  unfold replaceTemp. induction prev as [|b prev IH]; simpl.
  - split; [constructor|reflexivity].
  - split.
    + intros [= Hb Hrest]. constructor; [|apply IH; exact Hrest].
      intros E. apply Z.eqb_eq in E. rewrite E in Hb. symmetry. exact Hb.
    + intros H. apply Forall_cons_1 in H as [Hb Hrest].
      apply IH in Hrest. rewrite Hrest. f_equal.
      destruct (Z.eqb_spec (id b) tempId) as [E|_]; [|reflexivity].
      symmetry. apply Hb. exact E.
Qed.

(** C7.  The status of the optimistic record comes from the kind of
    booking (borrow gives In Use, book gives Booked).  The first effect
    of [createBooking] puts that record at the head of the cache, the
    creation request comes after it, and it is the only request.  When
    the request succeeds the function returns and the head of the cache
    is the server's record with its equipment made a list (an array as
    it is, a string split at commas, trimmed and without empty items,
    anything else the empty list) and its other fields as sent.  The
    length of the cache is kept, but the records are matched by id:
    every record that carries the placeholder's id, the millisecond of
    the call, is overwritten by the server's record too.  The other
    records are all kept only when no record differing from the
    server's carries that id.  At the failing input the cache holds a
    record of another booking whose id is that millisecond: after the
    success it is gone, and the server's record is in the cache
    twice. *)
Theorem createBooking_success_overwrites_colliding_record :
  (forall (clock : Clock) (bookingData : BookingData) (reply : Reply RawBooking)
          (s : list Booking),
      status (optimisticBooking clock bookingData)
      = match d_type bookingData with Yuem => InUse | Jong => Booked end
      /\ (exists rest,
             trace (createBooking clock bookingData reply s)
             = SetBookings (optimisticBooking clock bookingData :: s)
               :: Call (ReqCreateBooking bookingData) :: rest
             /\ forall r, ~ In (Call r) rest)
      /\ (forall finalBooking,
             reply = Resolved finalBooking ->
             let after := finalState (createBooking clock bookingData reply s) in
             exists final,
               result (createBooking clock bookingData reply s) = Return
               /\ after !! 0%nat = Some final
               /\ (id final, teacherName final, program final, classroom final,
                   period final, bookingDate final)
                  = (r_id finalBooking, r_teacherName finalBooking,
                     r_program finalBooking, r_classroom finalBooking,
                     r_period finalBooking, r_bookingDate finalBooking)
               /\ (learningUnitNumber final, learningUnitName final,
                   lessonPlanName final, type final, status final,
                   createdAt final)
                  = (r_learningUnitNumber finalBooking,
                     r_learningUnitName finalBooking,
                     r_lessonPlanName finalBooking, r_type finalBooking,
                     r_status finalBooking, r_createdAt finalBooking)
               /\ equipment final
                  = match r_equipment finalBooking with
                    | EqArray items => items
                    | EqString str =>
                        List.filter (fun e => (0 <? length e)%nat)
                                    (trim <$> split comma str)
                    | EqOther => []
                    end
               /\ length after = S (length s)
               /\ (forall (i : nat) b, s !! i = Some b ->
                      after !! S i
                      = Some (if id b =? now clock then final else b))
               /\ (after = final :: s
                   <-> Forall (fun b => id b = now clock -> b = final) s)))
  /\ (let existing :=
        sampleBooking (now sampleClock) "P.3A TP" 5 "2024-07-22" [js "hdmi"]
                      Booked in
      let other := sampleBooking 1 "P.1A TP" 3 "2024-07-21" [js "tv"] Booked in
      let server := sampleRaw 12 (EqString (js " tv, remote,, ")) in
      let final :=
        sampleBooking 12 "P.1A TP" 3 "2024-07-22" [js "tv"; js "remote"] Booked in
      let run :=
        createBooking sampleClock (sampleData "P.2A TP" 4 Jong)
                      (Resolved server) [other; existing] in
      result run = Return
      /\ finalState run = [final; other; final]
      /\ finalState run <> [final; other; existing]
      /\ ~ In existing (finalState run)).
Proof.
  split.
  - intros clock bookingData reply s. split; [|split].
    + unfold optimisticBooking, newStatus. simpl.
      destruct (d_type bookingData); reflexivity.
    + destruct reply as [finalBooking|error].
      * rewrite createBooking_resolved. eexists. split; [reflexivity|].
        intros r [H|[]]. discriminate H.
      * rewrite createBooking_rejected. eexists. split; [reflexivity|].
        intros r [H|[H|[]]]; discriminate H.
    + intros finalBooking ->. cbv zeta. exists (sanitizeBooking finalBooking).
      rewrite createBooking_resolved.
      unfold finalState, result. cbn [fst snd].
      rewrite replaceTemp_placeholder.
      split; [reflexivity|]. split; [reflexivity|]. split; [reflexivity|].
      split; [reflexivity|].
      split; [unfold sanitizeBooking, sanitizeEquipment; cbn [equipment];
              destruct (r_equipment finalBooking); reflexivity|].
      split; [simpl; rewrite replaceTemp_length; reflexivity|].
      split.
      * intros i b Hi. simpl. apply replaceTemp_lookup. exact Hi.
      * rewrite <- replaceTemp_same_iff. split.
        -- intros [= H]. exact H.
        -- intros H. rewrite H. reflexivity.
  - cbv zeta. split; [reflexivity|]. split; [vm_compute; reflexivity|].
    split; [vm_compute; discriminate|].
    vm_compute. intros [H|[H|[H|[]]]]; discriminate H.
Qed.

(** After a failed creation the cache is the earlier one without the
    records that carry the placeholder's id: it is the earlier cache
    exactly when no record of it carries that id. *)
Lemma createBooking_failure_restores_iff clock bookingData error s :
  result (createBooking clock bookingData (Rejected error) s) = Throw error
  /\ finalState (createBooking clock bookingData (Rejected error) s)
     = removeTemp (now clock) s
  /\ (finalState (createBooking clock bookingData (Rejected error) s) = s
      <-> Forall (fun b => id b <> now clock) s).
Proof.
  rewrite createBooking_rejected. unfold result, finalState. cbn [fst snd].
  rewrite removeTemp_placeholder.
  split; [reflexivity|]. split; [reflexivity|]. apply removeTemp_fresh.
Qed.

(** No record with the placeholder's id is left after a failure; after a
    success every record with that id is the server's record. *)
Lemma createBooking_no_stray_placeholder clock bookingData reply s b :
  In b (finalState (createBooking clock bookingData reply s)) ->
  id b = now clock ->
  exists finalBooking, reply = Resolved finalBooking /\ b = sanitizeBooking finalBooking.
Proof.
  destruct reply as [finalBooking|error].
  - rewrite createBooking_resolved. unfold finalState. cbn [fst snd].
    unfold replaceTemp. intros Hin Hid. apply in_map_iff in Hin as [x [Hx _]].
    exists finalBooking. split; [reflexivity|].
    destruct (Z.eqb_spec (id x) (now clock)); congruence.
  - rewrite createBooking_rejected. unfold finalState. cbn [fst snd].
    intros Hin Hid. apply removeTemp_none in Hin. contradiction.
Qed.

(** With a placeholder id that no cached record carries, and distinct ids
    in the cache, the ids stay distinct while the creation is pending,
    the failure path gives the earlier cache back and the success path
    changes the head only. *)
Lemma createBooking_fresh_id clock bookingData s :
  Forall (fun b => id b <> now clock) s ->
  NoDup (id <$> s) ->
  NoDup (id <$> addOptimistic (optimisticBooking clock bookingData) s)
  /\ (forall error,
         finalState (createBooking clock bookingData (Rejected error) s) = s)
  /\ (forall finalBooking,
         finalState (createBooking clock bookingData (Resolved finalBooking) s)
         = sanitizeBooking finalBooking :: s).
Proof.
  intros Hfresh Hnd. split; [|split].
  - unfold addOptimistic. simpl. constructor; [|exact Hnd].
    intros Hin. apply list_elem_of_fmap in Hin as [b [Hb Hin]].
    apply list_elem_of_In in Hin.
    rewrite List.Forall_forall in Hfresh. apply (Hfresh b Hin). symmetry. exact Hb.
  - intros error.
    apply (createBooking_failure_restores_iff clock bookingData error s).
    exact Hfresh.
  - intros finalBooking. rewrite createBooking_resolved.
    unfold finalState. cbn [fst snd].
    rewrite replaceTemp_placeholder, replaceTemp_fresh by exact Hfresh.
    reflexivity.
Qed.

(** C4, at the failing input.  The cache holds one record whose id is
    the millisecond at which [createBooking] is called; the request
    fails.  The rollback removes every record with the placeholder's id:
    the record that was in the cache before the call is removed with the
    placeholder, and the cache is not the one before the call. *)
Theorem createBooking_failure_drops_colliding_record :
  let existing :=
    sampleBooking (now sampleClock) "P.1A TP" 3 "2024-07-22" [js "tv"] Booked in
  let run :=
    createBooking sampleClock (sampleData "P.2A TP" 4 Jong)
                  (Rejected gatewayDown) [existing] in
  result run = Throw gatewayDown
  /\ finalState run = []
  /\ finalState run <> [existing].
Proof. cbv zeta. split; [reflexivity|]. split; [reflexivity|discriminate]. Qed.

(** C9, at the failing input.  Two creations are started in the same
    millisecond: the second placeholder gets the id of the first, which
    is still pending.  The ids of the cache are no longer distinct; when
    the second request fails both placeholders are removed, and when it
    succeeds both are replaced by the one server record. *)
Theorem createBooking_placeholder_id_collides :
  let first := optimisticBooking sampleClock (sampleData "P.1A TP" 3 Jong) in
  let second := optimisticBooking sampleClock (sampleData "P.2A TP" 4 Jong) in
  let pending := addOptimistic first [] in
  let server := sampleRaw 12 (EqArray [js "tv"]) in
  first <> second
  /\ id second = id first
  /\ ~ NoDup (id <$> addOptimistic second pending)
  /\ finalState (createBooking sampleClock (sampleData "P.2A TP" 4 Jong)
                   (Rejected gatewayDown) pending) = []
  /\ finalState (createBooking sampleClock (sampleData "P.2A TP" 4 Jong)
                   (Resolved server) pending)
     = [sanitizeBooking server; sanitizeBooking server].
Proof.
  cbv zeta. split; [discriminate|]. split; [reflexivity|].
  split; [|split; reflexivity].
  intros H. apply NoDup_cons_1_1 in H. apply H. left.
Qed.

(** ** [updateBookingStatus] and [deleteBooking] *)

Section StoreRollback.

Variable sortByCreatedAtDesc : list Booking -> list Booking.

Lemma setStatusOf_length target st prev :
  length (setStatusOf target st prev) = length prev.
Proof. unfold setStatusOf. apply length_map. Qed.

Lemma setStatusOf_lookup target st (prev : list Booking) (i : nat) b :
  prev !! i = Some b ->
  setStatusOf target st prev !! i
  = Some (if id b =? target then withStatus b st else b).
Proof.
  intros H. unfold setStatusOf.
  change (map ?f prev) with (f <$> prev).
  rewrite list_lookup_fmap, H. reflexivity.
Qed.

Lemma removeId_In target prev b :
  In b (removeId target prev) <-> In b prev /\ id b <> target.
Proof.
  unfold removeId. rewrite filter_In, negb_true_iff, Z.eqb_neq. reflexivity.
Qed.

(** C5.  When the gateway rejects the status update, or the delete
    request, the state set last is the snapshot [originalBookings] taken
    before the optimistic change, whatever that change did, and the
    function throws the gateway's error.  The optimistic change was the
    only one made, so called on the rendered cache the function leaves
    the cache as it was before the call. *)
Theorem mutation_failure_restores_snapshot
    (bookings prev : list Booking) (target : Z) (st : BookingStatus)
    (error : Error) (refresh : Reply (list RawBooking)) :
  updateBookingStatus sortByCreatedAtDesc bookings target st
                      (Rejected error) refresh prev
  = (Throw error, bookings,
     [SetBookings (setStatusOf target st prev);
      Call (ReqUpdateBookingStatus target st);
      SetBookings bookings])
  /\ deleteBooking sortByCreatedAtDesc bookings target
                   (Rejected error) refresh prev
     = (Throw error, bookings,
        [SetBookings (removeId target prev);
         Call (ReqDeleteBooking target);
         SetBookings bookings])
  /\ finalState (updateBookingStatus sortByCreatedAtDesc bookings target st
                                     (Rejected error) refresh bookings)
     = bookings
  /\ finalState (deleteBooking sortByCreatedAtDesc bookings target
                               (Rejected error) refresh bookings)
     = bookings.
Proof. repeat split. Qed.

(** When the mutation request succeeds and the refresh that follows
    fails, [fetchBookings] keeps the error to itself: the optimistic
    state stays and the function returns normally. *)
Lemma mutation_refresh_failure_keeps_optimistic_state
    (bookings prev : list Booking) (target : Z) (st : BookingStatus)
    (error : Error) :
  updateBookingStatus sortByCreatedAtDesc bookings target st
                      (Resolved tt) (Rejected error) prev
  = (Return, setStatusOf target st prev,
     [SetBookings (setStatusOf target st prev);
      Call (ReqUpdateBookingStatus target st);
      Call ReqGetBookings;
      ConsoleError])
  /\ deleteBooking sortByCreatedAtDesc bookings target
                   (Resolved tt) (Rejected error) prev
     = (Return, removeId target prev,
        [SetBookings (removeId target prev);
         Call (ReqDeleteBooking target);
         Call ReqGetBookings;
         ConsoleError]).
Proof. split; reflexivity. Qed.

(** A refresh replaces the cache by the sanitized and sorted records,
    and leaves it alone when the request fails. *)
Lemma fetchBookings_outcomes (isSilent : bool) (s : list Booking) :
  (forall data,
      finalState (fetchBookings sortByCreatedAtDesc isSilent (Resolved data) s)
      = sortByCreatedAtDesc (map sanitizeBooking data))
  /\ (forall error,
         finalState (fetchBookings sortByCreatedAtDesc isSilent (Rejected error) s)
         = s).
Proof. split; intros; destruct isSilent; reflexivity. Qed.

End StoreRollback.

(** ** Keys of the schedule grid *)

Lemma js_inj s1 s2 : js s1 = js s2 -> s1 = s2.
Proof.
  unfold js. intros H.
  rewrite <- (string_of_list_ascii_of_string s1),
          <- (string_of_list_ascii_of_string s2).
  f_equal. revert H.
  generalize (list_ascii_of_string s1) (list_ascii_of_string s2).
  induction l as [|a l IH]; intros [|a' l'] H; simpl in H;
    try discriminate; [reflexivity|].
  injection H as Ha Hl. f_equal.
  - rewrite <- (ascii_N_embedding a), <- (ascii_N_embedding a'), Ha. reflexivity.
  - apply IH. exact Hl.
Qed.

Lemma numberToString_inj p1 p2 : numberToString p1 = numberToString p2 -> p1 = p2.
Proof.
  unfold numberToString. intros H. apply js_inj in H.
  apply to_int_inj.
  assert (E : Some (Z.to_int p1) = Some (Z.to_int p2))
    by (rewrite <- !NilEmpty.isi, H; reflexivity).
  injection E as E. exact E.
Qed.

Lemma digits_no_hyphen (d : Decimal.uint) :
  ~ In hyphen (js (NilEmpty.string_of_uint d)).
Proof.
  induction d; simpl; intros H;
    try (destruct H as [H|H]; [discriminate H|]); auto.
Qed.

Lemma numberToString_no_hyphen p : 0 <= p -> ~ In hyphen (numberToString p).
Proof.
  intros Hp. unfold numberToString.
  destruct p as [|q|q]; [| |lia]; apply digits_no_hyphen.
Qed.

Lemma app_sep_inj (sep : N) (c1 c2 d1 d2 : jsstring) :
  ~ In sep d1 -> ~ In sep d2 ->
  c1 ++ sep :: d1 = c2 ++ sep :: d2 -> c1 = c2 /\ d1 = d2.
Proof.
  revert c2. induction c1 as [|x c1 IH]; intros [|y c2] H1 H2 H; simpl in H.
  - injection H as H. auto.
  - injection H as Hx H. subst. exfalso. apply H1.
    apply in_or_app. right. left. reflexivity.
  - injection H as Hx H. subst. exfalso. apply H2.
    apply in_or_app. right. left. reflexivity.
  - injection H as Hx H. subst.
    destruct (IH c2 H1 H2 H) as [-> ->]. auto.
Qed.

(** The key determines the classroom and the period, for periods that
    are not negative. *)
Lemma slotKey_inj room1 room2 per1 per2 :
  0 <= per1 -> 0 <= per2 ->
  slotKey room1 per1 = slotKey room2 per2 -> room1 = room2 /\ per1 = per2.
Proof.
  intros H1 H2 H. unfold slotKey in H. simpl in H.
  apply app_sep_inj in H as [Hr Hp];
    [|apply numberToString_no_hyphen; assumption
     |apply numberToString_no_hyphen; assumption].
  split; [exact Hr|]. apply numberToString_inj. exact Hp.
Qed.

(** With a negative period two different cells share a key. *)
Example slotKey_negative_period_collides :
  slotKey (js "A-") 1 = slotKey (js "A") (-1).
Proof. reflexivity. Qed.

(** ** The map built by [setAll] *)

Lemma setAll_acc (kept : list Booking) (m : gmap jsstring Booking) (k : jsstring) :
  foldl (fun m b => <[slotKey (classroom b) (period b) := b]> m) m kept !! k
  = match last (underKey k kept) with
    | Some b => Some b
    | None => m !! k
    end.
Proof.
  revert m. induction kept as [|b kept IH]; intros m; [reflexivity|].
  simpl foldl. rewrite IH. unfold underKey. simpl List.filter.
  destruct (str_eqb (slotKey (classroom b) (period b)) k) eqn:E.
  - rewrite last_cons. apply str_eqb_eq in E. subst k.
    destruct (last _); [reflexivity|]. apply lookup_insert_eq.
  - destruct (last _); [reflexivity|].
    apply lookup_insert_ne. intros Hk. apply str_eqb_eq in Hk. congruence.
Qed.

(** A cell holds the last kept booking of its key. *)
Lemma setAll_lookup (kept : list Booking) (k : jsstring) :
  setAll kept !! k = last (underKey k kept).
Proof.
  unfold setAll. rewrite setAll_acc, lookup_empty.
  destruct (last _); reflexivity.
Qed.

Lemma underKey_In k kept b :
  In b (underKey k kept) <-> In b kept /\ slotKey (classroom b) (period b) = k.
Proof. unfold underKey. rewrite filter_In, str_eqb_eq. reflexivity. Qed.

Lemma last_In {A} (l : list A) (x : A) : last l = Some x -> In x l.
Proof.
  intros H. apply last_Some in H as [l' ->]. apply in_or_app. right. left.
  reflexivity.
Qed.

Lemma last_is_Some {A} (l : list A) (x : A) : In x l -> exists y, last l = Some y.
Proof.
  destruct (last l) as [y|] eqn:E; [eauto|].
  apply last_None in E. subst. intros [].
Qed.

(** ** The throwing filter *)

Lemma filterExcept_Value p l kept :
  filterExcept p l = Value kept ->
  kept = List.filter (keeps p) l /\ Forall (fun b => p b <> RangeError) l.
Proof.
  revert kept. induction l as [|b l IH]; simpl; intros kept H.
  - injection H as <-. split; [reflexivity|constructor].
  - unfold keeps at 1. destruct (p b) as [keep|] eqn:Eb; [|discriminate].
    destruct (filterExcept p l) as [rest|]; [|discriminate].
    destruct (IH rest eq_refl) as [-> Hall].
    injection H as <-. split.
    + destruct keep; reflexivity.
    + constructor; [rewrite Eb; discriminate|exact Hall].
Qed.

Lemma filterExcept_total p l :
  Forall (fun b => p b <> RangeError) l ->
  filterExcept p l = Value (List.filter (keeps p) l).
Proof.
  induction 1 as [|b l Hb _ IH]; simpl; [reflexivity|].
  unfold keeps at 1. destruct (p b) as [keep|]; [|contradiction].
  rewrite IH. destruct keep; reflexivity.
Qed.


(** ** The schedule projection *)

Example bangkok_day_of_utc_evening :
  formatBangkok (newDate isoDateParse (js "2024-07-22T17:00:00.000Z"))
  = Value (js "2024-07-23").
Proof. reflexivity. Qed.

Example bangkok_day_of_utc_afternoon :
  formatBangkok (newDate isoDateParse (js "2024-07-22T16:59:59.999Z"))
  = Value (js "2024-07-22").
Proof. reflexivity. Qed.

Example bangkok_day_of_date_only :
  formatBangkok (newDate isoDateParse (js "2024-07-23")) = Value (js "2024-07-23").
Proof. reflexivity. Qed.

Example bangkok_day_of_invalid_date :
  formatBangkok (newDate isoDateParse (js "22/07")) = RangeError.
Proof. reflexivity. Qed.

Lemma inactive_not_included b :
  status b = Cancelled \/ status b = Returned ->
  statusIncludes activeStatuses (status b) = false.
Proof. intros [->| ->]; reflexivity. Qed.

Section ScheduleProperties.

Variable Date_parse : jsstring -> option Z.

Lemma bookingDateInBangkok_Value b :
  bookingDateInBangkok Date_parse b
  = match newDate Date_parse (bookingDate b) with
    | Some t => Value (enCA (civilFromDays ((t + bangkokOffset t) / msPerDay)))
    | None => RangeError
    end.
Proof. reflexivity. Qed.

Lemma onSelectedDate_RangeError selectedDate b :
  onSelectedDate Date_parse selectedDate b = RangeError
  <-> newDate Date_parse (bookingDate b) = None.
Proof.
  unfold onSelectedDate. rewrite bookingDateInBangkok_Value.
  destruct (newDate Date_parse (bookingDate b)); split; intros H;
    congruence.
Qed.

Lemma keeps_onSelectedDate selectedDate b :
  keeps (onSelectedDate Date_parse selectedDate) b = true
  <-> bookingDateInBangkok Date_parse b = Value selectedDate /\ isActive b.
Proof.
  unfold keeps, onSelectedDate, isActive.
  destruct (bookingDateInBangkok Date_parse b) as [day|].
  - rewrite <- statusIncludes_active.
    destruct (str_eqb day selectedDate) eqn:E.
    + apply str_eqb_eq in E. subst.
      destruct (statusIncludes activeStatuses (status b)); simpl;
        intuition congruence.
    + assert (day <> selectedDate)
        by (intros ->; unfold str_eqb in E;
            rewrite bool_decide_eq_false in E; auto).
      simpl. split; [discriminate|]. intros [[= ->] _]. contradiction.
  - split; [discriminate|]. intros [H _]. discriminate H.
Qed.

Lemma bookingsForDateMap_total bookings selectedDate :
  Forall (fun b => newDate Date_parse (bookingDate b) <> None) bookings ->
  bookingsForDateMap Date_parse bookings selectedDate
  = Value (setAll (List.filter (keeps (onSelectedDate Date_parse selectedDate))
                               bookings)).
Proof.
  intros H. unfold bookingsForDateMap. rewrite filterExcept_total; [reflexivity|].
  eapply Forall_impl; [exact H|]. intros b Hb Hr.
  apply onSelectedDate_RangeError in Hr. contradiction.
Qed.

Lemma bookingsForDateMap_Value bookings selectedDate m :
  bookingsForDateMap Date_parse bookings selectedDate = Value m ->
  m = setAll (List.filter (keeps (onSelectedDate Date_parse selectedDate)) bookings)
  /\ Forall (fun b => newDate Date_parse (bookingDate b) <> None) bookings.
Proof.
  unfold bookingsForDateMap.
  destruct (filterExcept _ bookings) as [kept|] eqn:E; [|discriminate].
  intros [= <-]. apply filterExcept_Value in E as [-> Hall].
  split; [reflexivity|].
  eapply Forall_impl; [exact Hall|]. intros b Hb Hn. apply Hb.
  apply onSelectedDate_RangeError. exact Hn.
Qed.


Lemma projection_entry bookings selectedDate k b :
  setAll (List.filter (keeps (onSelectedDate Date_parse selectedDate)) bookings)
    !! k = Some b ->
  In b bookings /\ isActive b
  /\ bookingDateInBangkok Date_parse b = Value selectedDate
  /\ k = slotKey (classroom b) (period b).
Proof.
  rewrite setAll_lookup. intros H. apply last_In, underKey_In in H as [H Hk].
  apply filter_In in H as [Hin Hkeep].
  apply keeps_onSelectedDate in Hkeep as [Hd Ha]. auto.
Qed.

End ScheduleProperties.




(** ** Inactive bookings *)

Lemma bookingsAtSameTime_skip pre b post date per :
  statusIncludes activeStatuses (status b) = false ->
  bookingsAtSameTime (pre ++ b :: post) date per
  = bookingsAtSameTime (pre ++ post) date per.
Proof.
  intros H. unfold bookingsAtSameTime. rewrite !List.filter_app. cbn [List.filter].
  rewrite H, andb_false_r. reflexivity.
Qed.

Lemma keeps_skip Date_parse selectedDate pre b post :
  statusIncludes activeStatuses (status b) = false ->
  List.filter (keeps (onSelectedDate Date_parse selectedDate)) (pre ++ b :: post)
  = List.filter (keeps (onSelectedDate Date_parse selectedDate)) (pre ++ post).
Proof.
  intros H. rewrite !List.filter_app. cbn [List.filter].
  assert (E : keeps (onSelectedDate Date_parse selectedDate) b = false).
  { unfold keeps, onSelectedDate.
    destruct (bookingDateInBangkok Date_parse b); [|reflexivity].
    rewrite H, andb_false_r. reflexivity. }
  rewrite E. reflexivity.
Qed.

(** C6.  A booking whose status is Cancelled or Returned is never among
    the bookings the conflict check looks at, and taking it out of the
    cache does not change the answer of the conflict check; it is never
    the booking of a cell of the schedule map, and with or without it
    the projection gives the same map.  Both filters keep exactly the
    statuses Booked, In Use and Awaiting Return: what they keep is
    active, and an active booking of the slot, or of the day, is
    kept. *)
Theorem inactive_booking_never_counts (Date_parse : jsstring -> option Z)
    (b : Booking) :
  status b = Cancelled \/ status b = Returned ->
  (forall bookings date per, ~ In b (bookingsAtSameTime bookings date per))
  /\ (forall pre post date room per requested,
         conflictCheck (pre ++ b :: post) date room per requested
         = conflictCheck (pre ++ post) date room per requested)
  /\ (forall bookings selectedDate m k,
         bookingsForDateMap Date_parse bookings selectedDate = Value m ->
         m !! k <> Some b)
  /\ (forall pre post selectedDate m,
         bookingsForDateMap Date_parse (pre ++ b :: post) selectedDate = Value m ->
         bookingsForDateMap Date_parse (pre ++ post) selectedDate = Value m)
  /\ (forall pre post selectedDate m,
         newDate Date_parse (bookingDate b) <> None ->
         bookingsForDateMap Date_parse (pre ++ post) selectedDate = Value m ->
         bookingsForDateMap Date_parse (pre ++ b :: post) selectedDate = Value m)
  /\ (forall x bookings date per,
         In x (bookingsAtSameTime bookings date per)
         <-> In x bookings /\ isActive x
             /\ substring0 10 (bookingDate x) = date /\ period x = per)
  /\ (forall x bookings selectedDate m,
         bookingsForDateMap Date_parse bookings selectedDate = Value m ->
         ((exists k, m !! k = Some x) -> In x bookings /\ isActive x)
         /\ (In x bookings -> isActive x ->
             bookingDateInBangkok Date_parse x = Value selectedDate ->
             exists x', m !! slotKey (classroom x) (period x) = Some x')).
Proof.
  intros Hst. pose proof (inactive_not_included b Hst) as Hinc.
  assert (Hna : ~ isActive b)
    by (unfold isActive; destruct Hst as [E|E]; rewrite E;
        intros [H|[H|H]]; discriminate H).
  split; [|split; [|split; [|split; [|split; [|split]]]]].
  - intros bookings date per Hin.
    apply bookingsAtSameTime_In in Hin as [_ [Ha _]]. contradiction.
  - intros. unfold conflictCheck. rewrite bookingsAtSameTime_skip by exact Hinc.
    reflexivity.
  - intros bookings selectedDate m k Hm Hk.
    apply bookingsForDateMap_Value in Hm as [-> _].
    apply projection_entry in Hk as [_ [Ha _]]. contradiction.
  - intros pre post selectedDate m Hm.
    apply bookingsForDateMap_Value in Hm as [-> Hall].
    rewrite bookingsForDateMap_total.
    + rewrite keeps_skip by exact Hinc. reflexivity.
    + apply Forall_app in Hall as [Hpre Hpost].
      apply Forall_app. split; [exact Hpre|].
      apply Forall_cons_1 in Hpost as [_ Hpost]. exact Hpost.
  - intros pre post selectedDate m Hb Hm.
    apply bookingsForDateMap_Value in Hm as [-> Hall].
    rewrite bookingsForDateMap_total.
    + rewrite keeps_skip by exact Hinc. reflexivity.
    + apply Forall_app in Hall as [Hpre Hpost].
      apply Forall_app. split; [exact Hpre|]. constructor; assumption.
  - intros x bookings date per. rewrite bookingsAtSameTime_In.
    unfold sameSlot. tauto.
  - intros x bookings selectedDate m Hm.
    apply bookingsForDateMap_Value in Hm as [-> Hall]. split.
    + intros [k Hk]. apply projection_entry in Hk. tauto.
    + intros Hin Ha Hd. rewrite setAll_lookup.
      apply (last_is_Some _ x). apply underKey_In. split; [|reflexivity].
      apply filter_In. split; [exact Hin|]. apply keeps_onSelectedDate. auto.
Qed.

Lemma inactive_booking_never_counts_witness :
  conflictCheck ([eveningBooking] ++ cancelledBooking :: [lateBooking])
                (js "2024-07-23") (js "P.1A TP") 3 [js "tv"]
  = conflictCheck ([eveningBooking] ++ [lateBooking])
                  (js "2024-07-23") (js "P.1A TP") 3 [js "tv"].
Proof.
  destruct (inactive_booking_never_counts isoDateParse cancelledBooking)
    as [_ [H _]].
  - left. reflexivity.
  - apply H.
Defined.

(** The cancelled booking of the sample would clash with the proposal
    if it counted: the proposal is accepted. *)
Example cancelled_booking_frees_the_slot :
  conflictCheck [cancelledBooking] (js "2024-07-23") (js "P.1A TP") 3 [js "tv"]
  = NoConflict.
Proof. reflexivity. Qed.

(** ** The two date conventions *)

(** From 17:00 UTC on, the calendar day in Bangkok is the day after the
    UTC day; before 17:00 UTC it is the UTC day. *)
Lemma bangkok_day_vs_utc_day t :
  bangkokSwitch <= t ->
  (17 * 3600000 <= t mod msPerDay ->
   (t + bangkokOffset t) / msPerDay = t / msPerDay + 1)
  /\ (t mod msPerDay < 17 * 3600000 ->
      (t + bangkokOffset t) / msPerDay = t / msPerDay).
Proof.
  intros Hsw. unfold bangkokOffset.
  destruct (Z.ltb_spec t bangkokSwitch) as [Hlt|_]; [lia|].
  unfold msPerDay in *.
  pose proof (Z.div_mod t 86400000 ltac:(lia)) as Hdm.
  pose proof (Z.mod_pos_bound t 86400000 ltac:(lia)) as Hb.
  split; intros Hr; symmetry.
  - apply (Z.div_unique _ _ _ (t mod 86400000 + 25200000 - 86400000)); lia.
  - apply (Z.div_unique _ _ _ (t mod 86400000 + 25200000)); lia.
Qed.

(** C10.  The conflict check takes an existing booking to be on the
    proposal's date exactly when the first ten code units of its stored
    date are the proposal's date string; the schedule projection puts a
    booking on the Bangkok calendar day of the parsed time value, which
    from 17:00 UTC on is the day after the UTC day.  For the stored dates
    2024-07-22T17:00:00.000Z and 2024-07-22T23:59:59.999Z the conflict
    check places the booking on 2024-07-22 and the schedule on
    2024-07-23. *)
Theorem conflict_check_and_schedule_days_differ :
  (forall bookings date per b,
      In b (bookingsAtSameTime bookings date per)
      <-> In b bookings /\ isActive b
          /\ substring0 10 (bookingDate b) = date /\ period b = per)
  /\ (forall Date_parse bookings selectedDate m b,
         bookingsForDateMap Date_parse bookings selectedDate = Value m ->
         ((exists k, m !! k = Some b) ->
          In b bookings /\ isActive b
          /\ formatBangkok (newDate Date_parse (bookingDate b)) = Value selectedDate)
         /\ (In b bookings -> isActive b ->
             formatBangkok (newDate Date_parse (bookingDate b)) = Value selectedDate ->
             exists b', m !! slotKey (classroom b) (period b) = Some b'))
  /\ (forall t, bangkokSwitch <= t -> 17 * 3600000 <= t mod msPerDay ->
                formatBangkok (Some t)
                = Value (enCA (civilFromDays (t / msPerDay + 1))))
  /\ (bookingDate eveningBooking = js "2024-07-22T17:00:00.000Z"
      /\ bookingsAtSameTime [eveningBooking] (js "2024-07-22") 3 = [eveningBooking]
      /\ bookingsAtSameTime [eveningBooking] (js "2024-07-23") 3 = []
      /\ bookingsForDateMap isoDateParse [eveningBooking] (js "2024-07-22")
         = Value ∅
      /\ bookingsForDateMap isoDateParse [eveningBooking] (js "2024-07-23")
         = Value {[ slotKey (js "P.1A TP") 3 := eveningBooking ]})
  /\ (bookingDate lateBooking = js "2024-07-22T23:59:59.999Z"
      /\ bookingsAtSameTime [lateBooking] (js "2024-07-22") 4 = [lateBooking]
      /\ bookingsAtSameTime [lateBooking] (js "2024-07-23") 4 = []
      /\ bookingsForDateMap isoDateParse [lateBooking] (js "2024-07-22")
         = Value ∅
      /\ bookingsForDateMap isoDateParse [lateBooking] (js "2024-07-23")
         = Value {[ slotKey (js "P.2A TP") 4 := lateBooking ]}).
Proof.
  split; [|split; [|split; [|split]]].
  - intros bookings date per b. rewrite bookingsAtSameTime_In.
    unfold sameSlot. tauto.
  - intros Date_parse bookings selectedDate m b Hm.
    apply bookingsForDateMap_Value in Hm as [-> Hall]. split.
    + intros [k Hk]. apply projection_entry in Hk. tauto.
    + intros Hin Ha Hd. rewrite setAll_lookup.
      apply (last_is_Some _ b). apply underKey_In. split; [|reflexivity].
      apply filter_In. split; [exact Hin|]. apply keeps_onSelectedDate. auto.
  - intros t Hsw Hr. unfold formatBangkok.
    rewrite (proj1 (bangkok_day_vs_utc_day t Hsw) Hr). reflexivity.
  - repeat split.
  - repeat split.
Qed.

Lemma conflict_check_and_schedule_days_differ_witness :
  formatBangkok (Some 1721667600000)
  = Value (enCA (civilFromDays (1721667600000 / msPerDay + 1))).
Proof.
  destruct conflict_check_and_schedule_days_differ as [_ [_ [H _]]].
  apply H; vm_compute; discriminate.
Defined.

(** One millisecond before 17:00 UTC the two conventions agree. *)
Example conflict_check_and_schedule_agree_before_17 :
  let b := sampleBooking 5 "P.1A TP" 3 "2024-07-22T16:59:59.999Z" [js "tv"] Booked in
  bookingsAtSameTime [b] (js "2024-07-22") 3 = [b]
  /\ bookingsForDateMap isoDateParse [b] (js "2024-07-22")
     = Value {[ slotKey (js "P.1A TP") 3 := b ]}.
Proof. split; reflexivity. Qed.

(** A booking stored with the time value of midnight in Bangkok fills
    the cell of 2024-07-23 in the schedule, and the conflict check for a
    proposal on that day, same classroom and period, does not see it. *)
Example occupied_cell_not_seen_by_conflict_check :
  bookingsForDateMap isoDateParse [eveningBooking] (js "2024-07-23")
  = Value {[ slotKey (js "P.1A TP") 3 := eveningBooking ]}
  /\ conflictCheck [eveningBooking] (js "2024-07-23") (js "P.1A TP") 3 [js "tv"]
     = NoConflict
  /\ conflictCheck [eveningBooking] (js "2024-07-22") (js "P.1A TP") 3 [js "tv"]
     = ClassroomConflict.
Proof. repeat split. Qed.

(** * Further properties *)

(** ** Export and normalisation of the equipment list *)

Lemma split_app_sep sep (a rest : jsstring) :
  ~ In sep a -> split sep (a ++ sep :: rest) = a :: split sep rest.
Proof.
  induction a as [|c a IH]; intros Ha; simpl.
  - rewrite N.eqb_refl. reflexivity.
  - destruct (N.eqb_spec c sep) as [->|Hne].
    + exfalso. apply Ha. left. reflexivity.
    + rewrite IH by (intros H; apply Ha; right; exact H). reflexivity.
Qed.

Lemma split_without_sep sep (a : jsstring) : ~ In sep a -> split sep a = [a].
Proof.
  induction a as [|c a IH]; intros Ha; simpl; [reflexivity|].
  destruct (N.eqb_spec c sep) as [->|Hne].
  - exfalso. apply Ha. left. reflexivity.
  - rewrite IH by (intros H; apply Ha; right; exact H). reflexivity.
Qed.

Lemma trim_after_space (e : jsstring) : trim (32%N :: e) = trim e.
Proof. reflexivity. Qed.

Lemma trimStart_In c s : In c (trimStart s) -> In c s.
Proof.
  induction s as [|x s IH]; simpl; [tauto|].
  destruct (isWhiteSpace x); [intros H; right; apply IH; exact H|].
  intros H. exact H.
Qed.

Lemma trimEnd_In c s : In c (trimEnd s) -> In c s.
Proof.
  induction s as [|x s IH]; simpl; [tauto|].
  destruct (trimEnd s) as [|y r].
  - destruct (isWhiteSpace x); [intros []|]. intros [H|[]]. left. exact H.
  - intros [H|H]; [left; exact H|right; apply IH; exact H].
Qed.

Lemma trim_In c s : In c (trim s) -> In c s.
Proof. unfold trim. intros H. apply trimStart_In, trimEnd_In. exact H. Qed.

Lemma join_cons_head (sep : jsstring) (c : N) (e : jsstring) (items : list jsstring) :
  c :: join sep (e :: items) = join sep ((c :: e) :: items).
Proof. destruct items; reflexivity. Qed.

(** The pieces of an exported list, before trimming: the first item,
    then every other item behind one space. *)
Lemma split_join_cons (e : jsstring) (items : list jsstring) :
  ~ In comma e -> Forall (fun x => ~ In comma x) items ->
  split comma (join (js ", ") (e :: items))
  = e :: ((fun x => 32%N :: x) <$> items).
Proof.
  revert e. induction items as [|e' items IH]; intros e He Hall.
  - simpl. apply split_without_sep. exact He.
  - inversion Hall as [|? ? He' Hall']; subst.
    change (join (js ", ") (e :: e' :: items))
      with (e ++ comma :: 32%N :: join (js ", ") (e' :: items)).
    rewrite split_app_sep by exact He.
    rewrite join_cons_head, IH; [reflexivity| |exact Hall'].
    intros [H|H]; [discriminate H|exact (He' H)].
Qed.

Lemma split_join_items (items : list jsstring) :
  Forall (fun e => ~ In comma e) items ->
  trim <$> split comma (join (js ", ") items)
  = match items with
    | [] => [[]]
    | _ => trim <$> items
    end.
Proof.
  intros Hall. destruct items as [|e items]; [reflexivity|].
  inversion Hall as [|? ? He Hall']; subst.
  rewrite split_join_cons by assumption.
  rewrite !fmap_cons. f_equal.
  rewrite <- list_fmap_compose. apply list_fmap_ext.
  intros i x _. reflexivity.
Qed.

Lemma filter_nonempty_all (items : list jsstring) :
  Forall (fun e => e <> []) items ->
  List.filter (fun e => (0 <? length e)%nat) items = items.
Proof.
  induction 1 as [|e items He _ IH]; simpl; [reflexivity|].
  destruct e; [contradiction|]. simpl. rewrite IH. reflexivity.
Qed.

Lemma fmap_trim_fixed (items : list jsstring) :
  Forall (fun e => trim e = e) items -> trim <$> items = items.
Proof.
  induction 1 as [|e items He _ IH]; [reflexivity|].
  rewrite fmap_cons, He, IH. reflexivity.
Qed.

Lemma sanitize_exported (items : list jsstring) :
  Forall (fun e => e <> []) items ->
  Forall (fun e => trim e = e) items ->
  Forall (fun e => ~ In comma e) items ->
  sanitizeEquipment (EqString (join (js ", ") items)) = items.
Proof.
  intros Hne Htrim Hcomma. unfold sanitizeEquipment.
  rewrite split_join_items by exact Hcomma.
  destruct items as [|e items]; [reflexivity|].
  rewrite fmap_trim_fixed by exact Htrim.
  apply filter_nonempty_all. exact Hne.
Qed.

(** X1.  A booking whose equipment items are non-empty, trimmed and free
    of commas survives the trip through the exported text: joining the
    items with a comma and a space and normalising that string gives the
    items back, in order. *)
Theorem export_then_sanitize_round_trip (b : Booking) (raw : RawBooking) :
  Forall (fun e => e <> [] /\ trim e = e /\ ~ In comma e) (equipment b) ->
  r_equipment raw = EqString (exportEquipment b) ->
  equipment (sanitizeBooking raw) = equipment b.
Proof.
  intros H Hraw. simpl. rewrite Hraw. unfold exportEquipment.
  apply sanitize_exported; eapply Forall_impl; try exact H; simpl; tauto.
Qed.

Lemma export_then_sanitize_round_trip_witness :
  equipment (sanitizeBooking
               (sampleRaw 1 (EqString
                  (exportEquipment
                     (sampleBooking 1 "P.1A TP" 3 "2024-07-22"
                        [js "Smart TV"; js "HDMI"] Booked)))))
  = [js "Smart TV"; js "HDMI"].
Proof.
  apply (export_then_sanitize_round_trip
           (sampleBooking 1 "P.1A TP" 3 "2024-07-22"
              [js "Smart TV"; js "HDMI"] Booked)).
  - repeat constructor; try discriminate; vm_compute; intuition discriminate.
  - reflexivity.
Defined.

(** X2.  What the normalisation of a string produces is stable: exported
    again and normalised again it is the same list. *)
Theorem sanitize_export_sanitize (s : jsstring) :
  sanitizeEquipment
    (EqString (join (js ", ") (sanitizeEquipment (EqString s))))
  = sanitizeEquipment (EqString s).
Proof.
  apply sanitize_exported; apply List.Forall_forall; intros e He;
    unfold sanitizeEquipment in He; apply filter_In in He as [He Hlen];
    apply in_map_iff in He as [piece [<- Hp]].
  - destruct (trim piece); [discriminate Hlen|discriminate].
  - apply trim_idempotent.
  - intros Hc. apply trim_In in Hc.
    pose proof (split_no_sep comma s) as Hs.
    rewrite List.Forall_forall in Hs. exact (Hs piece Hp Hc).
Qed.

(** ** The guard of the booking form *)

Lemma emptyStr_false (s : jsstring) : emptyStr s = false <-> s <> [].
Proof. unfold emptyStr. apply bool_decide_eq_false. Qed.

Lemma formIncomplete_false f :
  formIncomplete f = false ->
  f_teacherName f <> [] /\ f_program f <> None /\ f_classroom f <> []
  /\ Number (f_period f) <> 0 /\ f_bookingDate f <> []
  /\ f_learningUnitNumber f <> [] /\ f_learningUnitName f <> []
  /\ f_lessonPlanName f <> [] /\ finalEquipmentList f <> [].
Proof.
  unfold formIncomplete. rewrite !orb_false_iff, !emptyStr_false.
  rewrite bool_decide_eq_false, Z.eqb_neq, andb_false_iff.
  intros [[[[[[[[H1 H2] H3] H4] H5] H6] H7] H8] H9].
  repeat (split; [assumption|]).
  unfold finalEquipmentList. destruct H9 as [H9|H9].
  - destruct (f_selectedEquipment f); [discriminate H9|].
    rewrite fmap_cons. discriminate.
  - rewrite H9. intros H. apply app_eq_nil in H as [_ H]. discriminate H.
Qed.

Lemma handleSubmit_incomplete f bookings clock reply s :
  formIncomplete f = true ->
  handleSubmit f bookings clock reply s = (tt, s, [SwalFire FormValidationError]).
Proof. intros H. unfold handleSubmit. rewrite H. reflexivity. Qed.

(** X3.  Whatever the form, the cache and the gateway do, a request sent
    by [handleSubmit] is the creation request for the form's data, the
    form was complete and free of conflict, and the data are complete:
    teacher, program, classroom, date, unit and plan present, a period
    other than zero, and at least one equipment item. *)
Theorem submitted_request_is_complete (f : FormState) (bookings : list Booking)
    (clock : Clock) (reply : Reply RawBooking) (s : list Booking) (r : Request) :
  In (Call r) (trace (handleSubmit f bookings clock reply s)) ->
  r = ReqCreateBooking (bookingDataOf f)
  /\ conflictCheck bookings (f_bookingDate f) (f_classroom f)
                   (Number (f_period f)) (finalEquipmentList f) = NoConflict
  /\ d_teacherName (bookingDataOf f) <> []
  /\ f_program f = Some (d_program (bookingDataOf f))
  /\ d_classroom (bookingDataOf f) <> []
  /\ d_period (bookingDataOf f) <> 0
  /\ d_bookingDate (bookingDataOf f) <> []
  /\ d_learningUnitNumber (bookingDataOf f) <> []
  /\ d_learningUnitName (bookingDataOf f) <> []
  /\ d_lessonPlanName (bookingDataOf f) <> []
  /\ d_equipment (bookingDataOf f) <> [].
Proof.
  destruct (formIncomplete f) eqn:Hf.
  - rewrite handleSubmit_incomplete by exact Hf.
    intros [H|[]]. discriminate H.
  - rewrite handleSubmit_conflict by exact Hf.
    pose proof (formIncomplete_false f Hf)
      as [H1 [H2 [H3 [H4 [H5 [H6 [H7 [H8 H9]]]]]]]].
    destruct (conflictCheck _ _ _ _ _) eqn:Hc.
    + intros [H|[H|[]]]; discriminate H.
    + intros [H|[H|[]]]; discriminate H.
    + intros Hin.
      assert (Hr : r = ReqCreateBooking (bookingDataOf f)).
      { destruct reply; cbn in Hin;
          repeat (destruct Hin as [Hin|Hin];
                  [try discriminate Hin; injection Hin as <-; reflexivity|]);
          contradiction. }
      split; [exact Hr|]. split; [reflexivity|].
      simpl. repeat (split; [assumption|]).
      split; [|repeat (split; [assumption|]); assumption].
      destruct (f_program f); [reflexivity|contradiction].
Qed.

Lemma submitted_request_is_complete_witness :
  d_equipment (bookingDataOf (sampleForm "P.2A TP" 4 "2024-07-22" [js "tv"])) <> [].
Proof.
  apply (submitted_request_is_complete
           (sampleForm "P.2A TP" 4 "2024-07-22" [js "tv"])
           [sampleBooking 1 "P.1A TP" 3 "2024-07-22" [js "tv"] Booked]
           sampleClock (Resolved (sampleRaw 2 EqOther)) []
           (ReqCreateBooking
              (bookingDataOf (sampleForm "P.2A TP" 4 "2024-07-22" [js "tv"])))).
  vm_compute. right. right. left. reflexivity.
Defined.

(** ** The placeholder and a second submission *)

Lemma optimistic_is_active clock bookingData :
  statusIncludes activeStatuses (status (optimisticBooking clock bookingData)) = true.
Proof.
  unfold optimisticBooking, newStatus. simpl.
  destruct (bool_decide (d_type bookingData = Yuem)); reflexivity.
Qed.

(** X4.  While a creation is pending, its placeholder is in the cache
    and counts as a booking: a second submission of the same complete
    form, whose date has at most ten code units, is turned down as a
    classroom conflict, and nothing is sent. *)
Theorem pending_placeholder_blocks_resubmission (f : FormState)
    (bookings : list Booking) (clock clock' : Clock)
    (reply' : Reply RawBooking) (s : list Booking) :
  formIncomplete f = false ->
  (length (f_bookingDate f) <= 10)%nat ->
  handleSubmit f (optimisticBooking clock (bookingDataOf f) :: bookings)
               clock' reply' s
  = (tt, s, [SwalFire LoadingIndicator; SwalFire BookingConflict]).
Proof.
  intros Hf Hlen. rewrite handleSubmit_conflict by exact Hf.
  assert (E : conflictCheck (optimisticBooking clock (bookingDataOf f) :: bookings)
                (f_bookingDate f) (f_classroom f) (Number (f_period f))
                (finalEquipmentList f) = ClassroomConflict).
  { apply (conflictCheck_cases _ (f_bookingDate f) (f_classroom f)
             (Number (f_period f)) (finalEquipmentList f)).
    exists (optimisticBooking clock (bookingDataOf f)).
    split; [left; reflexivity|]. split; [|reflexivity].
    split; [apply statusIncludes_active, optimistic_is_active|].
    split; [|reflexivity].
    unfold substring0. simpl. apply take_ge. exact Hlen. }
  rewrite E. reflexivity.
Qed.

Lemma pending_placeholder_blocks_resubmission_witness :
  handleSubmit (sampleForm "P.2A TP" 4 "2024-07-22" [js "tv"])
    [optimisticBooking sampleClock
       (bookingDataOf (sampleForm "P.2A TP" 4 "2024-07-22" [js "tv"]))]
    sampleClock (Resolved (sampleRaw 2 EqOther)) []
  = (tt, [], [SwalFire LoadingIndicator; SwalFire BookingConflict]).
Proof.
  apply (pending_placeholder_blocks_resubmission
           (sampleForm "P.2A TP" 4 "2024-07-22" [js "tv"]) [] sampleClock).
  - reflexivity.
  - vm_compute. lia.
Defined.

(** ** Cancelling and returning, seen by the conflict check and the grid *)

Lemma bookingsAtSameTime_retired target st prev date per :
  statusIncludes activeStatuses st = false ->
  bookingsAtSameTime (setStatusOf target st prev) date per
  = bookingsAtSameTime (removeId target prev) date per.
Proof.
  intros Hst. unfold bookingsAtSameTime, setStatusOf, removeId.
  induction prev as [|b prev IH]; [reflexivity|].
  cbn [map List.filter]. destruct (id b =? target) eqn:E.
  - cbn [negb status withStatus]. rewrite Hst, andb_false_r. exact IH.
  - cbn [negb List.filter]. rewrite IH. reflexivity.
Qed.

Lemma keeps_retired Date_parse selectedDate target st prev :
  statusIncludes activeStatuses st = false ->
  List.filter (keeps (onSelectedDate Date_parse selectedDate))
              (setStatusOf target st prev)
  = List.filter (keeps (onSelectedDate Date_parse selectedDate))
                (removeId target prev).
Proof.
  intros Hst. unfold setStatusOf, removeId.
  induction prev as [|b prev IH]; [reflexivity|].
  cbn [map List.filter]. destruct (id b =? target) eqn:E.
  - cbn [negb].
    assert (K : keeps (onSelectedDate Date_parse selectedDate) (withStatus b st)
                = false).
    { unfold keeps, onSelectedDate.
      destruct (bookingDateInBangkok Date_parse (withStatus b st)); [|reflexivity].
      cbn [status withStatus]. rewrite Hst, andb_false_r. reflexivity. }
    rewrite K. exact IH.
  - cbn [negb List.filter]. rewrite IH. reflexivity.
Qed.

Lemma setStatusOf_dates Date_parse target st prev :
  Forall (fun b => newDate Date_parse (bookingDate b) <> None) prev ->
  Forall (fun b => newDate Date_parse (bookingDate b) <> None)
         (setStatusOf target st prev).
Proof.
  unfold setStatusOf. induction 1 as [|b prev Hb _ IH]; [constructor|].
  cbn [map]. constructor; [|exact IH].
  destruct (id b =? target); exact Hb.
Qed.

Lemma removeId_dates Date_parse target prev :
  Forall (fun b => newDate Date_parse (bookingDate b) <> None) prev ->
  Forall (fun b => newDate Date_parse (bookingDate b) <> None)
         (removeId target prev).
Proof.
  unfold removeId. induction 1 as [|b prev Hb _ IH]; [constructor|].
  cbn [List.filter]. destruct (negb (id b =? target)); [constructor|]; assumption.
Qed.

(** X5.  For the conflict check, marking a booking Cancelled or Returned
    (what the cancel, delete and return buttons do, optimistically at
    once) is the same as taking it out of the cache: the proposals
    accepted and refused are those of the cache without the records of
    that id. *)
Theorem retired_booking_is_gone_for_conflict_check (target : Z)
    (st : BookingStatus) (prev : list Booking) (date room : jsstring) (per : Z)
    (requested : list jsstring) :
  st = Cancelled \/ st = Returned ->
  conflictCheck (setStatusOf target st prev) date room per requested
  = conflictCheck (removeId target prev) date room per requested
  /\ forall b, In b (bookingsAtSameTime (setStatusOf target st prev) date per) ->
               id b <> target.
Proof.
  intros Hst.
  assert (Hinc : statusIncludes activeStatuses st = false)
    by (destruct Hst as [->| ->]; reflexivity).
  split.
  - unfold conflictCheck. rewrite bookingsAtSameTime_retired by exact Hinc.
    reflexivity.
  - intros b Hb. rewrite bookingsAtSameTime_retired in Hb by exact Hinc.
    apply bookingsAtSameTime_In in Hb as [Hb _].
    apply removeId_In in Hb as [_ Hb]. exact Hb.
Qed.

Lemma retired_booking_is_gone_for_conflict_check_witness :
  conflictCheck
    (setStatusOf 1 Cancelled
       [sampleBooking 1 "P.1A TP" 3 "2024-07-22" [js "tv"] Booked])
    (js "2024-07-22") (js "P.1A TP") 3 [js "tv"]
  = conflictCheck
      (removeId 1 [sampleBooking 1 "P.1A TP" 3 "2024-07-22" [js "tv"] Booked])
      (js "2024-07-22") (js "P.1A TP") 3 [js "tv"].
Proof.
  apply (retired_booking_is_gone_for_conflict_check 1 Cancelled).
  left. reflexivity.
Defined.

(** X6.  The same for the schedule: with valid stored dates, the grid of
    a cache in which a booking has just been marked Cancelled or
    Returned is the grid of the cache without the records of that id,
    and no cell shows a record of that id. *)
Theorem retired_booking_leaves_the_grid (Date_parse : jsstring -> option Z)
    (target : Z) (st : BookingStatus) (prev : list Booking)
    (selectedDate : jsstring) :
  st = Cancelled \/ st = Returned ->
  Forall (fun b => newDate Date_parse (bookingDate b) <> None) prev ->
  exists m : gmap jsstring Booking,
    bookingsForDateMap Date_parse (setStatusOf target st prev) selectedDate
    = Value m
    /\ bookingsForDateMap Date_parse (removeId target prev) selectedDate
       = Value m
    /\ forall k b, m !! k = Some b -> id b <> target.
Proof.
  intros Hst Hvalid.
  assert (Hinc : statusIncludes activeStatuses st = false)
    by (destruct Hst as [->| ->]; reflexivity).
  eexists. split; [|split].
  - apply bookingsForDateMap_total, setStatusOf_dates. exact Hvalid.
  - rewrite bookingsForDateMap_total by (apply removeId_dates; exact Hvalid).
    rewrite keeps_retired by exact Hinc. reflexivity.
  - intros k b Hk. rewrite keeps_retired in Hk by exact Hinc.
    apply projection_entry in Hk as [Hin _].
    apply removeId_In in Hin as [_ Hin]. exact Hin.
Qed.

Lemma retired_booking_leaves_the_grid_witness :
  exists m : gmap jsstring Booking,
    bookingsForDateMap isoDateParse
      (setStatusOf 1 Cancelled [eveningBooking; lateBooking]) (js "2024-07-23")
    = Value m
    /\ bookingsForDateMap isoDateParse
         (removeId 1 [eveningBooking; lateBooking]) (js "2024-07-23")
       = Value m.
Proof.
  destruct (retired_booking_leaves_the_grid isoDateParse 1 Cancelled
              [eveningBooking; lateBooking] (js "2024-07-23"))
    as [m [H1 [H2 _]]].
  - left. reflexivity.
  - constructor; [vm_compute; discriminate|].
    constructor; [vm_compute; discriminate|constructor].
  - exists m. split; assumption.
Defined.

(** ** The buttons that change a status *)

Section HandlerProperties.

Variable sortByCreatedAtDesc : list Booking -> list Booking.





(** X8.  A status update or a deletion for an id that no record of the
    cache carries changes nothing in the cache, optimistically, and the
    request is sent all the same. *)
Theorem mutation_of_unknown_id (bookings prev : list Booking) (target : Z)
    (st : BookingStatus) (reply : Reply unit)
    (refresh : Reply (list RawBooking)) :
  Forall (fun b => id b <> target) prev ->
  (exists rest,
      trace (updateBookingStatus sortByCreatedAtDesc bookings target st reply
                                 refresh prev)
      = SetBookings prev :: Call (ReqUpdateBookingStatus target st) :: rest)
  /\ (exists rest,
         trace (deleteBooking sortByCreatedAtDesc bookings target reply refresh
                              prev)
         = SetBookings prev :: Call (ReqDeleteBooking target) :: rest).
Proof.
  intros Hfresh.
  assert (E1 : setStatusOf target st prev = prev).
  { unfold setStatusOf. induction Hfresh as [|b prev Hb _ IH]; [reflexivity|].
    cbn [map]. rewrite IH.
    destruct (Z.eqb_spec (id b) target); [contradiction|reflexivity]. }
  assert (E2 : removeId target prev = prev)
    by (apply removeTemp_fresh; exact Hfresh).
  split; destruct reply as [[]|e]; destruct refresh as [data|e'];
    eexists; cbn; rewrite ?E1, ?E2; reflexivity.
Qed.

End HandlerProperties.


Lemma mutation_of_unknown_id_witness :
  exists rest,
    trace (deleteBooking (fun l => l) [eveningBooking] 77 (Rejected gatewayDown)
                         (Resolved []) [eveningBooking])
    = SetBookings [eveningBooking] :: Call (ReqDeleteBooking 77) :: rest.
Proof.
  apply (mutation_of_unknown_id (fun l => l) [eveningBooking] [eveningBooking]
           77 Cancelled).
  constructor; [vm_compute; discriminate|constructor].
Defined.

(** ** The cancel button of a schedule cell *)

(** X9.  The booking shown in a cell of the schedule is active, so the
    two status tests of [canCancel] always pass there: the button is
    offered exactly to an administrator and to the user whose name is
    the booking's teacher name, and to nobody when no user is logged
    in. *)
Theorem cancel_button_of_a_cell (Date_parse : jsstring -> option Z)
    (bookings : list Booking) (selectedDate : jsstring)
    (m : gmap jsstring Booking) (k : jsstring) (b : Booking)
    (currentUser : option User) :
  bookingsForDateMap Date_parse bookings selectedDate = Value m ->
  m !! k = Some b ->
  canCancel currentUser b
  = match currentUser with
    | None => false
    | Some u => bool_decide (u_role u = admin)
                || str_eqb (u_name u) (teacherName b)
    end.
Proof.
  intros Hm Hk. apply bookingsForDateMap_Value in Hm as [-> _].
  apply projection_entry in Hk as [_ [Ha _]].
  unfold canCancel. destruct currentUser as [u|]; [|reflexivity].
  destruct Ha as [E|[E|E]]; rewrite E; simpl;
    rewrite !andb_true_r; reflexivity.
Qed.

Lemma cancel_button_of_a_cell_witness :
  canCancel (Some {| u_id := 5; u_name := js "Kru A"; u_username := js "kru.a";
                     u_role := teacher |})
            eveningBooking
  = true.
Proof.
  rewrite (cancel_button_of_a_cell isoDateParse [eveningBooking]
             (js "2024-07-23") {[ slotKey (js "P.1A TP") 3 := eveningBooking ]}
             (slotKey (js "P.1A TP") 3)).
  - reflexivity.
  - reflexivity.
  - apply lookup_singleton_eq.
Defined.

(** ** The report filter *)

Section ListProperties.

Variable Date_parse : jsstring -> option Z.
Variable toLowerCase : jsstring -> jsstring.

Lemma filter_all {A} (p : A -> bool) (l : list A) :
  (forall x, In x l -> p x = true) -> List.filter p l = l.
Proof.
  induction l as [|x l IH]; intros H; simpl; [reflexivity|].
  rewrite (H x (or_introl eq_refl)), IH; [reflexivity|].
  intros y Hy. apply H. right. exact Hy.
Qed.

Lemma displayedBookings_In bookings selectedStatus startDate endDate searchQuery b :
  In b (displayedBookings Date_parse toLowerCase bookings selectedStatus
          startDate endDate searchQuery)
  <-> In b bookings
      /\ statusFilter selectedStatus b = true
      /\ dateFilter Date_parse startDate endDate b = true
      /\ reportSearchFilter toLowerCase searchQuery b = true.
Proof. unfold displayedBookings. rewrite !filter_In. tauto. Qed.

(** X10.  With no status chosen, no date bound and no search text the
    report shows the whole cache, in cache order.  With a status chosen
    and nothing else, it shows exactly the bookings of that status, in
    cache order; and whatever the other filters, every row shown has the
    chosen status. *)
Theorem report_status_filter (bookings : list Booking) :
  displayedBookings Date_parse toLowerCase bookings None [] [] [] = bookings
  /\ (forall st,
         displayedBookings Date_parse toLowerCase bookings (Some st) [] [] []
         = List.filter (fun b => bool_decide (status b = st)) bookings)
  /\ (forall st startDate endDate searchQuery b,
         In b (displayedBookings Date_parse toLowerCase bookings (Some st)
                 startDate endDate searchQuery) ->
         status b = st).
Proof.
  split; [|split].
  - unfold displayedBookings.
    rewrite (filter_all (reportSearchFilter toLowerCase []))
      by (intros; reflexivity).
    rewrite (filter_all (dateFilter Date_parse [] [])) by (intros; reflexivity).
    apply filter_all. intros; reflexivity.
  - intros st. unfold displayedBookings.
    rewrite (filter_all (reportSearchFilter toLowerCase []))
      by (intros; reflexivity).
    rewrite (filter_all (dateFilter Date_parse [] [])) by (intros; reflexivity).
    reflexivity.
  - intros st startDate endDate searchQuery b Hb.
    apply displayedBookings_In in Hb as [_ [Hs _]].
    apply bool_decide_eq_true in Hs. exact Hs.
Qed.

Lemma day_floor_le (a b : Z) :
  a / msPerDay * msPerDay <= b / msPerDay * msPerDay <-> a / msPerDay <= b / msPerDay.
Proof. unfold msPerDay. lia. Qed.

Lemma emptyStr_true (s : jsstring) : emptyStr s = true <-> s = [].
Proof. unfold emptyStr. apply bool_decide_eq_true. Qed.

Lemma dateGe_midnight (a b : option Z) :
  dateGe (setUTCMidnight a) (setUTCMidnight b) = true
  <-> exists x y, a = Some x /\ b = Some y /\ y / msPerDay <= x / msPerDay.
Proof.
  destruct a as [x|]; destruct b as [y|]; simpl;
    try (split; [discriminate|intros [x' [y' [H1 [H2 _]]]]; discriminate]).
  rewrite Z.leb_le, day_floor_le. split.
  - intros H. exists x, y. auto.
  - intros [x' [y' [[= <-] [[= <-] H]]]]. exact H.
Qed.

Lemma dateLe_midnight (a b : option Z) :
  dateLe (setUTCMidnight a) (setUTCMidnight b) = true
  <-> exists x y, a = Some x /\ b = Some y /\ x / msPerDay <= y / msPerDay.
Proof.
  destruct a as [x|]; destruct b as [y|]; simpl;
    try (split; [discriminate|intros [x' [y' [H1 [H2 _]]]]; discriminate]).
  rewrite Z.leb_le, day_floor_le. split.
  - intros H. exists x, y. auto.
  - intros [x' [y' [[= <-] [[= <-] H]]]]. exact H.
Qed.

(** X11.  The date filter of the report compares UTC day numbers, both
    bounds included, and the time of day plays no part.  With a bound
    set, a booking passes exactly when its stored date is a valid date
    and each bound that is set is a valid date whose UTC day is on the
    right side of the booking's UTC day; so a booking with an invalid
    date is shown only while both bounds are empty. *)
Theorem report_date_filter (startDate endDate : jsstring) (b : Booking) :
  dateFilter Date_parse startDate endDate b = true
  <-> (startDate = [] /\ endDate = [])
      \/ exists t,
           newDate Date_parse (bookingDate b) = Some t
           /\ (startDate <> [] ->
               exists ts, newDate Date_parse startDate = Some ts
                          /\ ts / msPerDay <= t / msPerDay)
           /\ (endDate <> [] ->
               exists te, newDate Date_parse endDate = Some te
                          /\ t / msPerDay <= te / msPerDay).
Proof.
  unfold dateFilter.
  destruct (emptyStr startDate) eqn:Es; destruct (emptyStr endDate) eqn:Ee;
    cbn [andb];
    [apply (proj1 (emptyStr_true _)) in Es; apply (proj1 (emptyStr_true _)) in Ee
    |apply (proj1 (emptyStr_true _)) in Es; apply (proj1 (emptyStr_false _)) in Ee
    |apply (proj1 (emptyStr_false _)) in Es; apply (proj1 (emptyStr_true _)) in Ee
    |apply (proj1 (emptyStr_false _)) in Es; apply (proj1 (emptyStr_false _)) in Ee].
  - split; auto.
  - rewrite dateLe_midnight. split.
    + intros [x [y [Hx [Hy H]]]]. right. exists x. split; [exact Hx|].
      split; [intros C; contradiction|]. intros _. exists y. auto.
    + intros [[_ C]|[t [Ht [_ H]]]]; [contradiction|].
      destruct (H Ee) as [te [Hte Hle]]. exists t, te. auto.
  - rewrite andb_true_r, dateGe_midnight. split.
    + intros [x [y [Hx [Hy H]]]]. right. exists x. split; [exact Hx|].
      split; [intros _; exists y; auto|intros C; contradiction].
    + intros [[C _]|[t [Ht [H _]]]]; [contradiction|].
      destruct (H Es) as [ts [Hts Hle]]. exists t, ts. auto.
  - rewrite andb_true_iff, dateGe_midnight, dateLe_midnight. split.
    + intros [[x [y [Hx [Hy H]]]] [x' [y' [Hx' [Hy' H']]]]].
      right. exists x. split; [exact Hx|].
      assert (x' = x) by congruence. subst x'.
      split; intros _; eauto.
    + intros [[C _]|[t [Ht [H1 H2]]]]; [contradiction|].
      destruct (H1 Es) as [ts [Hts Hle1]]. destruct (H2 Ee) as [te [Hte Hle2]].
      split; [exists t, ts|exists t, te]; auto.
Qed.

End ListProperties.

Lemma report_status_filter_witness :
  status lateBooking = InUse.
Proof.
  destruct (report_status_filter isoDateParse (fun s => s)
              [eveningBooking; lateBooking; cancelledBooking])
    as [_ [_ H]].
  apply (H InUse (js "2024-07-22") (js "2024-07-22") [] lateBooking).
  vm_compute. left. reflexivity.
Defined.

Lemma report_date_filter_witness :
  dateFilter isoDateParse (js "2024-07-22") (js "2024-07-22") lateBooking = true.
Proof.
  apply (proj2 (report_date_filter isoDateParse (js "2024-07-22")
                  (js "2024-07-22") lateBooking)).
  right. exists 1721692799999.
  split; [reflexivity|].
  split; intros _; exists 1721606400000; split;
    try reflexivity; vm_compute; discriminate.
Defined.

(** The report puts the evening booking on the UTC day 2024-07-22; the
    schedule shows it on 2024-07-23. *)
Example report_day_is_the_utc_day :
  dateFilter isoDateParse (js "2024-07-23") (js "2024-07-23") eveningBooking = false
  /\ dateFilter isoDateParse (js "2024-07-22") (js "2024-07-22") eveningBooking = true.
Proof. split; reflexivity. Qed.

(** ** The dashboard list *)

Section DashboardProperties.

Variable toLowerCase : jsstring -> jsstring.
Variable sortByDateThenPeriod : list Booking -> list Booking.

(** X12.  Provided the engine's sort returns the elements it was given,
    the dashboard lists active bookings of the cache only; with an empty
    search text it lists every one of them; and right after a booking
    has been marked Cancelled or Returned no record of its id is
    listed. *)
Theorem dashboard_lists_active_bookings (bookings : list Booking)
    (searchQuery : jsstring) :
  (forall l x, In x (sortByDateThenPeriod l) <-> In x l) ->
  (forall b, In b (activeBookings toLowerCase sortByDateThenPeriod bookings
                     searchQuery) ->
             In b bookings /\ isActive b)
  /\ (forall b, In b bookings -> isActive b ->
                In b (activeBookings toLowerCase sortByDateThenPeriod bookings []))
  /\ (forall target st b,
         st = Cancelled \/ st = Returned ->
         In b (activeBookings toLowerCase sortByDateThenPeriod
                 (setStatusOf target st bookings) searchQuery) ->
         id b <> target).
Proof.
  intros Hsort. unfold activeBookings. split; [|split].
  - intros b Hb. apply (proj1 (Hsort _ _)) in Hb. apply filter_In in Hb as [Hb _].
    apply filter_In in Hb as [Hb Ha]. split; [exact Hb|].
    apply statusIncludes_active. exact Ha.
  - intros b Hb Ha. apply (proj2 (Hsort _ _)). apply filter_In. split; [|reflexivity].
    apply filter_In. split; [exact Hb|]. apply statusIncludes_active. exact Ha.
  - intros target st b Hst Hb. apply (proj1 (Hsort _ _)) in Hb.
    apply filter_In in Hb as [Hb _]. apply filter_In in Hb as [Hb Ha].
    unfold setStatusOf in Hb. apply in_map_iff in Hb as [x [Hx _]].
    destruct (Z.eqb_spec (id x) target) as [E|E].
    + subst b. cbn [status withStatus] in Ha.
      destruct Hst as [->| ->]; discriminate Ha.
    + subst b. exact E.
Qed.

End DashboardProperties.

Lemma dashboard_lists_active_bookings_witness :
  In lateBooking
     (activeBookings (fun s => s) (fun l => rev l)
                     [eveningBooking; lateBooking; cancelledBooking] []).
Proof.
  destruct (dashboard_lists_active_bookings (fun s => s) (fun l => rev l)
              [eveningBooking; lateBooking; cancelledBooking] [])
    as [_ [H _]].
  - intros l x. symmetry. apply in_rev.
  - apply H; [right; left; reflexivity|right; left; reflexivity].
Defined.

(** ** The session *)

Lemma restoreSession_reads_storage (item : option StoredItem) :
  user (restoreSession (initialAuth item))
  = storedUser (restoreSession (initialAuth item))
  /\ user (restoreSession (initialAuth item)) = storedUser (initialAuth item)
  /\ isLoading (restoreSession (initialAuth item)) = false.
Proof. destruct item as [[value| |]|]; repeat split. Qed.

Lemma authStep_keeps (st : AuthState) (a : AuthAction) :
  user st = storedUser st /\ isLoading st = false ->
  user (authStep st a) = storedUser (authStep st a)
  /\ isLoading (authStep st a) = false.
Proof.
  intros [Hu Hl]. destruct a as [[[u|]|e]|]; simpl; auto.
Qed.

Lemma session_keeps (actions : list AuthAction) (st : AuthState) :
  user st = storedUser st /\ isLoading st = false ->
  user (foldl authStep st actions) = storedUser (foldl authStep st actions)
  /\ isLoading (foldl authStep st actions) = false.
Proof.
  revert st. induction actions as [|a actions IH]; intros st H; [exact H|].
  simpl. apply IH, authStep_keeps. exact H.
Qed.

(** X13.  After the page has loaded, and after any series of logins and
    logouts, the current user is the user the storage holds, so that a
    reload of the page restores exactly the current user, and nothing is
    loading.  A login answers true exactly when the gateway resolves
    with a user; a login that answers false, and a logout, leave no
    current user and no stored item, also when somebody was logged in
    before. *)
Theorem session_agrees_with_storage (item : option StoredItem)
    (actions : list AuthAction) (reply : Reply (option User)) :
  let st := session item actions in
  isLoading st = false
  /\ user st = storedUser st
  /\ user (restoreSession (initialAuth (currentUserItem st))) = user st
  /\ (fst (login reply st) = true <-> exists u, reply = Resolved (Some u))
  /\ (fst (login reply st) = false ->
      user (snd (login reply st)) = None
      /\ currentUserItem (snd (login reply st)) = None)
  /\ user (logout st) = None /\ currentUserItem (logout st) = None.
Proof.
  cbv zeta. unfold session.
  pose proof (restoreSession_reads_storage item) as [H1 [_ H3]].
  pose proof (session_keeps actions _ (conj H1 H3)) as [Hu Hl].
  split; [exact Hl|]. split; [exact Hu|]. split.
  - destruct (restoreSession_reads_storage
                (currentUserItem (foldl authStep (restoreSession (initialAuth item))
                                        actions))) as [_ [E _]].
    rewrite E, Hu. reflexivity.
  - split; [|split; [|split; reflexivity]].
    + destruct reply as [[u|]|e]; simpl; split;
        try discriminate; try (intros [u' H]; discriminate H); eauto.
    + destruct reply as [[u|]|e]; simpl; [discriminate|auto|auto].
Qed.

Lemma session_agrees_with_storage_witness :
  user (snd (login (Rejected gatewayDown)
               (session (Some (ItemJson (Some {| u_id := 5; u_name := js "Kru A";
                                                 u_username := js "kru.a";
                                                 u_role := teacher |})))
                        [])))
  = None.
Proof.
  destruct (session_agrees_with_storage
              (Some (ItemJson (Some {| u_id := 5; u_name := js "Kru A";
                                       u_username := js "kru.a";
                                       u_role := teacher |})))
              [] (Rejected gatewayDown))
    as [_ [_ [_ [_ [H _]]]]].
  apply H. reflexivity.
Defined.

(** ** Routes *)

(** X14.  Whatever the router's matcher and the location, the pages for
    lending on behalf of a teacher, for reports and for user management
    are displayed only to a logged-in administrator whose session has
    finished loading; every page other than the login page needs a
    logged-in user, and without one only the login page is
    displayed. *)
Theorem admin_pages_need_an_administrator (matchPath : jsstring -> jsstring -> bool)
    (auth : AuthState) (location : jsstring) (page : Page) :
  AppContent matchPath auth location = Display page ->
  (page = AdminBorrowPage \/ page = ReportsPage \/ page = UserManagementPage ->
   exists u, user auth = Some u /\ u_role u = admin /\ isLoading auth = false)
  /\ (page <> LoginPage -> exists u, user auth = Some u)
  /\ (user auth = None -> page = LoginPage).
Proof.
  unfold AppContent, ProtectedRoute.
  destruct (user auth) as [u|] eqn:Eu.
  - intros H. split; [|split; [eauto|discriminate]].
    intros Hp. exists u.
    destruct (isLoading auth);
      repeat match type of H with
             | (if matchPath ?p location then _ else _) = _ =>
                 destruct (matchPath p location)
             end;
      try discriminate H;
      try (injection H as <-; destruct Hp as [Hp|[Hp|Hp]]; discriminate Hp);
      cbn [andb] in H;
      destruct (bool_decide (u_role u = admin)) eqn:Er;
      try discriminate H;
      apply bool_decide_eq_true in Er; auto.
  - destruct (matchPath (js "/login") location); [|discriminate].
    intros [= <-]. split; [intros [H|[H|H]]; discriminate H|].
    split; [intros C; contradiction|reflexivity].
Qed.

Lemma admin_pages_need_an_administrator_witness :
  exists u, user {| user := Some {| u_id := 1; u_name := js "Admin";
                                    u_username := js "admin"; u_role := admin |};
                    currentUserItem := None; isLoading := false |} = Some u
            /\ u_role u = admin /\ false = false.
Proof.
  apply (admin_pages_need_an_administrator
           (fun p l => bool_decide (p = l))
           {| user := Some {| u_id := 1; u_name := js "Admin";
                              u_username := js "admin"; u_role := admin |};
              currentUserItem := None; isLoading := false |}
           (js "/reports") ReportsPage).
  - reflexivity.
  - right. left. reflexivity.
Defined.

(** A teacher who enters the address of the reports is sent to the
    dashboard address. *)
Example teacher_is_turned_away_from_reports :
  AppContent (fun p l => bool_decide (p = l))
    {| user := Some {| u_id := 5; u_name := js "Kru A"; u_username := js "kru.a";
                       u_role := teacher |};
       currentUserItem := None; isLoading := false |}
    (js "/reports")
  = Navigate (js "/").
Proof. reflexivity. Qed.

(** ** The gateway and a creation *)

Lemma fetchFromScript_Resolved {A} (response : Reply (HttpResponse A))
    (syntaxError typeError : Error) (d : A) :
  fetchFromScript response syntaxError typeError = Resolved d
  <-> exists r message,
        response = Resolved r /\ ok r = true
        /\ json r = JsonObject (Some (js "success")) d message.
Proof.
  unfold fetchFromScript. destruct response as [r|e].
  - destruct (ok r) eqn:Hok; cbn [negb].
    + destruct (json r) as [| |st data message] eqn:Hj.
      * split; [discriminate|]. intros [r' [m [[= <-] [_ H]]]].
        rewrite Hj in H. discriminate H.
      * split; [discriminate|]. intros [r' [m [[= <-] [_ H]]]].
        rewrite Hj in H. discriminate H.
      * destruct (bool_decide (st = Some (js "success"))) eqn:Hs.
        -- apply bool_decide_eq_true in Hs. subst st. split.
           ++ intros [= <-]. exists r, message. auto.
           ++ intros [r' [m [[= <-] [_ H]]]]. rewrite Hj in H.
              injection H as <- _. reflexivity.
        -- apply bool_decide_eq_false in Hs. split; [discriminate|].
           intros [r' [m [[= <-] [_ H]]]]. rewrite Hj in H.
           injection H as -> _ _. contradiction.
    + split; [discriminate|]. intros [r' [m [[= <-] [H _]]]]. congruence.
  - split; [discriminate|]. intros [r' [m [H _]]]. discriminate H.
Qed.

(** X15.  A creation whose request goes through [fetchFromScript]
    keeps the server's record only when the transport answered OK and
    the body is an object whose status is the text success: the head of
    the cache is then the sanitized data of that body.  In every other
    case (network failure, a status that is not OK whatever the body
    says, a body that is not JSON, any other status text) the call
    throws and no record with the placeholder's id is left in the
    cache. *)
Theorem creation_through_the_gateway (clock : Clock) (bookingData : BookingData)
    (response : Reply (HttpResponse RawBooking)) (syntaxError typeError : Error)
    (s : list Booking) :
  let run := createBooking clock bookingData
               (fetchFromScript response syntaxError typeError) s in
  (forall r message data,
      response = Resolved r -> ok r = true ->
      json r = JsonObject (Some (js "success")) data message ->
      result run = Return
      /\ finalState run
         = sanitizeBooking data :: replaceTemp (now clock) (sanitizeBooking data) s)
  /\ ((forall r message data,
          response = Resolved r -> ok r = true ->
          json r <> JsonObject (Some (js "success")) data message) ->
      (exists e, result run = Throw e)
      /\ finalState run = removeTemp (now clock) s)
  /\ (forall r, response = Resolved r -> ok r = false ->
                result run
                = Throw (RemoteError
                           (js "API request failed with status "
                            ++ numberToString (httpStatus r) ++ js ": "
                            ++ orElse (text r) (statusText r)))).
Proof.
  cbv zeta. split; [|split].
  - intros r message data Hr Hok Hj.
    assert (E : fetchFromScript response syntaxError typeError = Resolved data)
      by (apply fetchFromScript_Resolved; eauto).
    rewrite E, createBooking_resolved. unfold result, finalState. cbn [fst snd].
    rewrite replaceTemp_placeholder. auto.
  - intros Hno.
    destruct (fetchFromScript response syntaxError typeError) as [d|e] eqn:E.
    + apply fetchFromScript_Resolved in E as [r [m [Hr [Hok Hj]]]].
      exfalso. exact (Hno r m d Hr Hok Hj).
    + rewrite createBooking_rejected. unfold result, finalState. cbn [fst snd].
      rewrite removeTemp_placeholder. eauto.
  - intros r -> Hok. unfold fetchFromScript. rewrite Hok. reflexivity.
Qed.

Lemma creation_through_the_gateway_witness :
  result (createBooking sampleClock (sampleData "P.2A TP" 4 Jong)
            (fetchFromScript
               (Resolved {| ok := false; httpStatus := 500;
                            statusText := js "Internal Server Error";
                            text := [];
                            json := JsonObject (Some (js "success"))
                                      (sampleRaw 2 EqOther) None |})
               gatewayDown gatewayDown)
            [])
  = Throw (RemoteError
             (js "API request failed with status 500: Internal Server Error")).
Proof.
  destruct (creation_through_the_gateway sampleClock (sampleData "P.2A TP" 4 Jong)
              (Resolved {| ok := false; httpStatus := 500;
                           statusText := js "Internal Server Error";
                           text := [];
                           json := JsonObject (Some (js "success"))
                                     (sampleRaw 2 EqOther) None |})
              gatewayDown gatewayDown [])
    as [_ [_ H]].
  apply (H _ eq_refl eq_refl).
Defined.

(** ** The equipment boxes of the form *)

Lemma untick_absent (value : jsstring) (l : list jsstring) :
  ~ In value l -> handleEquipmentChange value false l = l.
Proof.
  intros Hn. unfold handleEquipmentChange. apply filter_all.
  intros x Hx. apply negb_true_iff. unfold str_eqb.
  apply bool_decide_eq_false. intros ->. contradiction.
Qed.

Lemma untick_sublist (value : jsstring) (l : list jsstring) :
  sublist (handleEquipmentChange value false l) l.
Proof.
  unfold handleEquipmentChange. induction l as [|x l IH]; simpl.
  - constructor.
  - destruct (negb (str_eqb x value)); constructor; exact IH.
Qed.

(** X16.  Unticking a box removes every occurrence of its value from the
    selection and leaves the other values in their order: the result is
    a sublist of the selection that holds exactly the values other than
    the box's; a selection without the value is unchanged; and for a
    selection [before ++ value :: after] with the value not in [before]
    the result is [before] followed by the result for [after].  Ticking
    a box and unticking it again is the same as unticking it, and gives
    the selection back when the value was not selected. *)
Theorem equipment_box_round_trip (value : jsstring) (prev : list jsstring) :
  ~ In value (handleEquipmentChange value false prev)
  /\ (forall x, In x (handleEquipmentChange value false prev)
                <-> In x prev /\ x <> value)
  /\ sublist (handleEquipmentChange value false prev) prev
  /\ (~ In value prev -> handleEquipmentChange value false prev = prev)
  /\ (forall before after,
         prev = before ++ value :: after -> ~ In value before ->
         handleEquipmentChange value false prev
         = before ++ handleEquipmentChange value false after)
  /\ handleEquipmentChange value false (handleEquipmentChange value true prev)
     = handleEquipmentChange value false prev
  /\ (~ In value prev ->
      handleEquipmentChange value false (handleEquipmentChange value true prev)
      = prev).
Proof.
  assert (Hin : forall x, In x (handleEquipmentChange value false prev)
                          <-> In x prev /\ x <> value).
  { intros x. unfold handleEquipmentChange. rewrite filter_In, negb_true_iff.
    unfold str_eqb. rewrite bool_decide_eq_false. reflexivity. }
  assert (Hrt : handleEquipmentChange value false
                  (handleEquipmentChange value true prev)
                = handleEquipmentChange value false prev).
  { unfold handleEquipmentChange. rewrite List.filter_app. cbn [List.filter].
    unfold str_eqb at 2. rewrite bool_decide_eq_true_2 by reflexivity.
    cbn [negb]. apply app_nil_r. }
  split; [|split; [exact Hin|]].
  { intros H. apply Hin in H as [_ H]. contradiction. }
  split; [apply untick_sublist|].
  split; [apply untick_absent|].
  split; [|split; [exact Hrt|]].
  - intros before after -> Hb.
    rewrite <- (untick_absent value before Hb) at 2.
    unfold handleEquipmentChange. rewrite List.filter_app. cbn [List.filter].
    unfold str_eqb at 2. rewrite bool_decide_eq_true_2 by reflexivity.
    reflexivity.
  - intros Hn. rewrite Hrt. apply untick_absent. exact Hn.
Qed.

Lemma equipment_box_round_trip_witness :
  handleEquipmentChange (js "tv") false
    [js "hdmi"; js "tv"; js "remote"; js "tv"; js "hdmi"]
  = [js "hdmi"] ++ handleEquipmentChange (js "tv") false
                     [js "remote"; js "tv"; js "hdmi"].
Proof.
  destruct (equipment_box_round_trip (js "tv")
              [js "hdmi"; js "tv"; js "remote"; js "tv"; js "hdmi"])
    as [_ [_ [_ [_ [H _]]]]].
  apply (H [js "hdmi"] [js "remote"; js "tv"; js "hdmi"]).
  - reflexivity.
  - intros [H'|[]]. discriminate H'.
Defined.

(** ** Stored dates without a time of day *)

Lemma upto_In (n : nat) (z : Z) : 0 <= z < Z.of_nat n -> In z (upto n).
Proof.
  intros H. unfold upto. apply in_map_iff. exists (Z.to_nat z).
  split; [lia|]. apply in_seq. lia.
Qed.

Lemma forallb_upto (n : nat) (f : Z -> bool) (z : Z) :
  forallb f (upto n) = true -> 0 <= z < Z.of_nat n -> f z = true.
Proof.
  intros H Hz. rewrite forallb_forall in H. apply H, upto_In. exact Hz.
Qed.

Lemma digitCodes_In (c : N) : (48 <= c <= 57)%N -> In c digitCodes.
Proof.
  intros H. unfold digitCodes.
  assert (c = 48 \/ c = 49 \/ c = 50 \/ c = 51 \/ c = 52 \/ c = 53 \/ c = 54
          \/ c = 55 \/ c = 56 \/ c = 57)%N as Hc by lia.
  simpl. intuition.
Qed.

Lemma forallb_digits (f : N -> bool) (c : N) :
  forallb f digitCodes = true -> (48 <= c <= 57)%N -> f c = true.
Proof.
  intros H Hc. rewrite forallb_forall in H. apply H, digitCodes_In. exact Hc.
Qed.

Lemma checkCalendar_true : forallb calendarYear (upto 400) = true.
Proof. vm_cast_no_check (eq_refl true). Qed.

Lemma checkYearDigits_true : forallb yearRow0 digitCodes = true.
Proof. vm_cast_no_check (eq_refl true). Qed.

Lemma checkPad2_true : forallb pad2Row digitCodes = true.
Proof. vm_cast_no_check (eq_refl true). Qed.

Lemma isLeapYear_era (y e : Z) : isLeapYear (y + 400 * e) = isLeapYear y.
Proof.
  unfold isLeapYear.
  replace ((y + 400 * e) mod 4) with (y mod 4)
    by (rewrite <- (Z.mod_add y (100 * e) 4) by lia; f_equal; lia).
  replace ((y + 400 * e) mod 100) with (y mod 100)
    by (rewrite <- (Z.mod_add y (4 * e) 100) by lia; f_equal; lia).
  replace ((y + 400 * e) mod 400) with (y mod 400)
    by (rewrite <- (Z.mod_add y e 400) by lia; f_equal; lia).
  reflexivity.
Qed.

Lemma daysInMonth_era (y e m : Z) : daysInMonth (y + 400 * e) m = daysInMonth y m.
Proof. unfold daysInMonth. rewrite isLeapYear_era. reflexivity. Qed.

Lemma daysInMonth_le_31 (y m : Z) : daysInMonth y m <= 31.
Proof.
  unfold daysInMonth.
  destruct (m =? 2); [destruct (isLeapYear y); lia|].
  destruct ((m =? 4) || (m =? 6) || (m =? 9) || (m =? 11)); lia.
Qed.

Lemma civilFromDays_era (z : Z) :
  civilFromDays z
  = (let era := (z + 719468) / 146097 in
     let '(y, m, d) := dateOfEraDay (z + 719468 - era * 146097) in
     (y + era * 400, m, d)).
Proof.
  unfold civilFromDays, dateOfEraDay. cbv zeta.
  set (era := (z + 719468) / 146097).
  set (doe := z + 719468 - era * 146097).
  set (yoe := (doe - doe / 1460 + doe / 36524 - doe / 146096) / 365).
  set (doy := doe - (365 * yoe + yoe / 4 - yoe / 100)).
  set (mp := (5 * doy + 2) / 153).
  destruct ((if mp <? 10 then mp + 3 else mp - 9) <=? 2);
    f_equal; f_equal; clearbody yoe era; lia.
Qed.

Lemma daysFromCivil_era (y m d : Z) :
  daysFromCivil y m d
  = (let y' := if m <=? 2 then y - 1 else y in
     let era := y' / 400 in
     era * 146097 + dayOfEra (y' - era * 400) m d - 719468).
Proof. reflexivity. Qed.

Lemma calendarCell_at (yoe m d : Z) :
  0 <= yoe < 400 -> 1 <= m <= 12 -> 1 <= d <= 31 ->
  d <= daysInMonth (if m <=? 2 then yoe + 1 else yoe) m ->
  0 <= dayOfEra yoe m d < 146097
  /\ dateOfEraDay (dayOfEra yoe m d) = (if m <=? 2 then yoe + 1 else yoe, m, d).
Proof.
  intros Hy Hm Hd Hdim.
  pose proof (forallb_upto 400 calendarYear yoe checkCalendar_true Hy) as H.
  pose proof (forallb_upto 12 (calendarMonth yoe) (m - 1) H ltac:(lia)) as H'.
  pose proof (forallb_upto 31 (calendarCell yoe (m - 1)) (d - 1) H' ltac:(lia))
    as H''.
  clear H H'. unfold calendarCell in H''. cbv zeta in H''.
  replace (m - 1 + 1) with m in H'' by lia.
  replace (d - 1 + 1) with d in H'' by lia.
  apply Z.leb_le in Hdim. rewrite Hdim in H''.
  apply andb_true_iff in H'' as [H H3]. apply andb_true_iff in H as [H1 H2].
  apply bool_decide_eq_true in H3. split; [|exact H3].
  apply Z.leb_le in H1. apply Z.ltb_lt in H2. split; assumption.
Qed.

(** The day number of a calendar date gives the date back. *)
Lemma calendar_round_trip (y m d : Z) :
  1 <= m <= 12 -> 1 <= d <= daysInMonth y m ->
  civilFromDays (daysFromCivil y m d) = (y, m, d).
Proof.
  intros Hm Hd.
  rewrite daysFromCivil_era. cbv zeta.
  remember (if m <=? 2 then y - 1 else y) as y' eqn:Hy'.
  pose proof (Z.div_mod y' 400 ltac:(lia)) as Hdm.
  pose proof (Z.mod_pos_bound y' 400 ltac:(lia)) as Hmb.
  remember (y' / 400) as era eqn:Hera. clear Hera.
  remember (y' - era * 400) as yoe eqn:Hyoe.
  assert (Hr : 0 <= yoe < 400) by lia.
  assert (Hy : y = (if m <=? 2 then yoe + 1 else yoe) + 400 * era).
  { destruct (m <=? 2); lia. }
  pose proof (daysInMonth_le_31 y m) as H31.
  assert (Hdim : d <= daysInMonth (if m <=? 2 then yoe + 1 else yoe) m).
  { rewrite <- (daysInMonth_era _ era), <- Hy. lia. }
  destruct (calendarCell_at yoe m d Hr Hm ltac:(lia) Hdim) as [Hdoe Hback].
  rewrite civilFromDays_era. cbv zeta.
  remember (dayOfEra yoe m d) as doe eqn:Hd'. clear Hd'.
  replace ((era * 146097 + doe - 719468 + 719468) / 146097) with era
    by (apply (Z.div_unique _ _ _ doe); lia).
  replace (era * 146097 + doe - 719468 + 719468 - era * 146097) with doe by lia.
  rewrite Hback. f_equal. f_equal. lia.
Qed.

Lemma digitValue_inv (c : N) (v : Z) :
  digitValue c = Some v -> (48 <= c <= 57)%N /\ v = digitOf c.
Proof.
  unfold digitValue, digitOf.
  destruct (N.leb_spec 48 c); destruct (N.leb_spec c 57); simpl;
    try discriminate.
  intros [= <-]. split; [lia|reflexivity].
Qed.

Lemma date_only_shape (s : jsstring) (t : Z) :
  length s = 10%nat -> isoDateParse s = Some t ->
  exists c0 c1 c2 c3 c5 c6 c8 c9,
    s = [c0; c1; c2; c3; hyphen; c5; c6; hyphen; c8; c9]
    /\ Forall (fun c => (48 <= c <= 57)%N) [c0; c1; c2; c3; c5; c6; c8; c9]
    /\ let y := 10 * (10 * (10 * (10 * 0 + digitOf c0) + digitOf c1) + digitOf c2)
                + digitOf c3 in
       let m := 10 * (10 * 0 + digitOf c5) + digitOf c6 in
       let d := 10 * (10 * 0 + digitOf c8) + digitOf c9 in
       1 <= m <= 12 /\ 1 <= d <= daysInMonth y m
       /\ t = daysFromCivil y m d * msPerDay.
Proof.
  intros Hlen Hp.
  do 10 (destruct s as [|? s]; [discriminate Hlen|]).
  destruct s; [|discriminate Hlen]. clear Hlen.
  unfold isoDateParse in Hp. cbn [length Nat.eqb] in Hp.
  unfold isoDay, field, unitAt in Hp.
  cbn [take drop Nat.sub digitsValue] in Hp.
  destruct (digitValue n) as [v0|] eqn:E0; [|discriminate Hp].
  destruct (digitValue n0) as [v1|] eqn:E1; [|discriminate Hp].
  destruct (digitValue n1) as [v2|] eqn:E2; [|discriminate Hp].
  destruct (digitValue n2) as [v3|] eqn:E3; [|discriminate Hp].
  destruct (digitValue n4) as [v5|] eqn:E5; [|discriminate Hp].
  destruct (digitValue n5) as [v6|] eqn:E6; [|discriminate Hp].
  destruct (digitValue n7) as [v8|] eqn:E8; [|discriminate Hp].
  destruct (digitValue n8) as [v9|] eqn:E9; [|discriminate Hp].
  apply digitValue_inv in E0 as [R0 ->]. apply digitValue_inv in E1 as [R1 ->].
  apply digitValue_inv in E2 as [R2 ->]. apply digitValue_inv in E3 as [R3 ->].
  apply digitValue_inv in E5 as [R5 ->]. apply digitValue_inv in E6 as [R6 ->].
  apply digitValue_inv in E8 as [R8 ->]. apply digitValue_inv in E9 as [R9 ->].
  match type of Hp with
  | match (if ?c then _ else _) with _ => _ end = _ => destruct c eqn:Hc
  end; [|discriminate Hp].
  injection Hp as <-.
  rewrite !andb_true_iff, !bool_decide_eq_true, !Z.leb_le in Hc.
  destruct Hc as [[[[[H3 H6] Hm1] Hm2] Hd1] Hd2].
  injection H3 as ->. injection H6 as ->.
  exists n, n0, n1, n2, n4, n5, n7, n8.
  split; [reflexivity|].
  split; [repeat (constructor; [assumption|]); constructor|].
  cbv zeta. repeat split; assumption.
Qed.

Lemma year_digits (c0 c1 c2 c3 : N) :
  Forall (fun c => (48 <= c <= 57)%N) [c0; c1; c2; c3] -> c0 <> 48%N ->
  numberToString
    (10 * (10 * (10 * (10 * 0 + digitOf c0) + digitOf c1) + digitOf c2)
     + digitOf c3)
  = [c0; c1; c2; c3].
Proof.
  intros H Hnz.
  apply Forall_cons_1 in H as [R0 H]. apply Forall_cons_1 in H as [R1 H].
  apply Forall_cons_1 in H as [R2 H]. apply Forall_cons_1 in H as [R3 _].
  pose proof (forallb_digits yearRow0 c0 checkYearDigits_true R0) as H0.
  pose proof (forallb_digits (yearRow1 c0) c1 H0 R1) as H1.
  pose proof (forallb_digits (yearRow2 c0 c1) c2 H1 R2) as H2.
  pose proof (forallb_digits (yearCell c0 c1 c2) c3 H2 R3) as H3.
  clear H0 H1 H2. unfold yearCell in H3.
  apply orb_true_iff in H3 as [H3|H3].
  - apply N.eqb_eq in H3. contradiction.
  - apply bool_decide_eq_true in H3. exact H3.
Qed.

Lemma pad2_digits (c0 c1 : N) :
  (48 <= c0 <= 57)%N -> (48 <= c1 <= 57)%N ->
  pad2 (10 * (10 * 0 + digitOf c0) + digitOf c1) = [c0; c1].
Proof.
  intros R0 R1.
  pose proof (forallb_digits pad2Row c0 checkPad2_true R0) as H0.
  pose proof (forallb_digits (pad2Cell c0) c1 H0 R1) as H1.
  apply bool_decide_eq_true in H1. exact H1.
Qed.

Lemma bangkok_day_of_midnight (day : Z) :
  (day * msPerDay + bangkokOffset (day * msPerDay)) / msPerDay = day.
Proof.
  unfold bangkokOffset, msPerDay.
  destruct (day * 86400000 <? bangkokSwitch); symmetry;
    [apply (Z.div_unique _ _ _ 24124000)|apply (Z.div_unique _ _ _ 25200000)];
    lia.
Qed.

(** The same string. *)
Lemma date_only_round_trip (s : jsstring) :
  isDateOnly s -> formatBangkok (newDate isoDateParse s) = Value s.
Proof.
  intros [Hlen [Hp Hz]].
  destruct (isoDateParse s) as [t|] eqn:E; [|contradiction]. clear Hp.
  destruct (date_only_shape s t Hlen E)
    as [c0 [c1 [c2 [c3 [c5 [c6 [c8 [c9 [-> [Hall Hrest]]]]]]]]]].
  cbv zeta in Hrest. destruct Hrest as [Hm [Hd Ht]].
  apply Forall_cons_1 in Hall as [R0 Hall].
  apply Forall_cons_1 in Hall as [R1 Hall].
  apply Forall_cons_1 in Hall as [R2 Hall].
  apply Forall_cons_1 in Hall as [R3 Hall].
  apply Forall_cons_1 in Hall as [R5 Hall].
  apply Forall_cons_1 in Hall as [R6 Hall].
  apply Forall_cons_1 in Hall as [R8 Hall].
  apply Forall_cons_1 in Hall as [R9 _].
  assert (Hc0 : c0 <> 48%N) by (intros ->; apply Hz; reflexivity).
  pose proof (year_digits c0 c1 c2 c3
                ltac:(repeat (constructor; [assumption|]); constructor) Hc0)
    as Hyear.
  pose proof (pad2_digits c5 c6 R5 R6) as Hmonth.
  pose proof (pad2_digits c8 c9 R8 R9) as Hday.
  remember (10 * (10 * (10 * (10 * 0 + digitOf c0) + digitOf c1) + digitOf c2)
            + digitOf c3) as y eqn:Hy.
  remember (10 * (10 * 0 + digitOf c5) + digitOf c6) as m eqn:Hm'.
  remember (10 * (10 * 0 + digitOf c8) + digitOf c9) as d eqn:Hd'.
  assert (Hyr : 1000 <= y <= 9999) by (unfold digitOf in Hy; lia).
  unfold newDate. rewrite E.
  assert (Hrange : Z.abs t <= maxTimeValue).
  { subst t. rewrite daysFromCivil_era. cbv zeta.
    pose proof (daysInMonth_le_31 y m) as H31.
    assert (Hy2 : 999 <= (if m <=? 2 then y - 1 else y) <= 9999)
      by (destruct (m <=? 2); lia).
    remember (if m <=? 2 then y - 1 else y) as y' eqn:Ey'. clear Ey'.
    pose proof (Z.div_mod y' 400 ltac:(lia)) as Hdm.
    pose proof (Z.mod_pos_bound y' 400 ltac:(lia)) as Hmb.
    remember (y' / 400) as era eqn:Eera. clear Eera.
    assert (He : 2 <= era <= 24) by lia.
    assert (Hyoe : 0 <= y' - era * 400 < 400) by lia.
    remember (y' - era * 400) as yoe eqn:Eyoe. clear Eyoe.
    assert (Hdoe : 0 <= dayOfEra yoe m d <= 400 * 366 + 400).
    { unfold dayOfEra. cbv zeta.
      assert (Hq : 0 <= (153 * (if 2 <? m then m - 3 else m + 9) + 2) / 5 <= 400).
      { destruct (Z.ltb_spec 2 m); split;
          try (apply Z.div_pos; lia);
          apply Z.div_le_upper_bound; lia. }
      remember ((153 * (if 2 <? m then m - 3 else m + 9) + 2) / 5) as q eqn:Eq.
      clear Eq.
      pose proof (Z.div_pos yoe 4 ltac:(lia) ltac:(lia)).
      pose proof (Z.div_le_upper_bound yoe 4 100 ltac:(lia) ltac:(lia)).
      pose proof (Z.div_pos yoe 100 ltac:(lia) ltac:(lia)).
      pose proof (Z.div_le_upper_bound yoe 100 4 ltac:(lia) ltac:(lia)).
      pose proof (Z.mul_div_le yoe 100 ltac:(lia)).
      lia. }
    unfold maxTimeValue, msPerDay. lia. }
  apply Z.leb_le in Hrange. rewrite Hrange. unfold formatBangkok.
  subst t. rewrite bangkok_day_of_midnight.
  rewrite calendar_round_trip by assumption.
  unfold enCA. destruct (Z.leb_spec 1 y) as [_|C]; [|lia].
  rewrite Hyear, Hmonth, Hday. reflexivity.
Qed.

(** X17.  A stored date of the form YYYY-MM-DD (year from 1000 on) is
    read as midnight UTC of that day, which in Bangkok is the same
    calendar day: the day the schedule assigns to the booking is the
    stored string itself, which is also the day the conflict check
    compares. *)
Theorem date_only_booking_same_day (b : Booking) :
  isDateOnly (bookingDate b) ->
  bookingDateInBangkok isoDateParse b = Value (bookingDate b)
  /\ substring0 10 (bookingDate b) = bookingDate b.
Proof.
  intros H. split.
  - unfold bookingDateInBangkok. apply date_only_round_trip. exact H.
  - destruct H as [Hlen _]. unfold substring0. apply take_ge. lia.
Qed.

Lemma date_only_booking_same_day_witness :
  bookingDateInBangkok isoDateParse cancelledBooking = Value (js "2024-07-23")
  /\ substring0 10 (bookingDate cancelledBooking) = js "2024-07-23".
Proof.
  apply (date_only_booking_same_day cancelledBooking).
  split; [reflexivity|]. split; vm_compute; discriminate.
Defined.

(** X18.  On a cache whose stored dates are all dates of the calendar
    written YYYY-MM-DD with a year from 1000 on (month 01 to 12, a day
    that the month has, no time of day) and whose periods are not
    negative, the schedule and the conflict check agree: the projection
    gives a map, and a proposal for a date, a classroom and a period
    that is not negative is refused as a classroom conflict exactly when
    the cell of that classroom and period is occupied in the map of that
    date.  (Without the bound on the year they differ, see
    [year_below_1000_grid_and_check_differ].) *)
Theorem grid_and_conflict_check_agree (bookings : list Booking)
    (date room : jsstring) (per : Z) (requested : list jsstring) :
  Forall (fun b => isDateOnly (bookingDate b) /\ 0 <= period b) bookings ->
  0 <= per ->
  exists m : gmap jsstring Booking,
    bookingsForDateMap isoDateParse bookings date = Value m
    /\ (conflictCheck bookings date room per requested = ClassroomConflict
        <-> exists b, m !! slotKey room per = Some b).
Proof.
  intros Hall Hper.
  assert (Hsame : forall b, In b bookings ->
            bookingDateInBangkok isoDateParse b = Value (bookingDate b)
            /\ substring0 10 (bookingDate b) = bookingDate b
            /\ 0 <= period b).
  { intros b Hb. rewrite List.Forall_forall in Hall.
    destruct (Hall b Hb) as [Hd Hp]. split; [|split; [|exact Hp]].
    - unfold bookingDateInBangkok. apply date_only_round_trip. exact Hd.
    - destruct Hd as [Hlen _]. unfold substring0. apply take_ge. lia. }
  assert (Hvalid : Forall (fun b => newDate isoDateParse (bookingDate b) <> None)
                          bookings).
  { apply List.Forall_forall. intros b Hb Hn.
    destruct (Hsame b Hb) as [Hd _].
    rewrite bookingDateInBangkok_Value, Hn in Hd. discriminate Hd. }
  eexists. split; [apply bookingsForDateMap_total; exact Hvalid|].
  destruct (conflictCheck_cases bookings date room per requested) as [Hc _].
  rewrite Hc. split.
  - intros [b [Hb [[Ha [Hd Hp]] Hr]]].
    destruct (Hsame b Hb) as [Hbk [Hsub _]].
    rewrite setAll_lookup. subst room per.
    apply (last_is_Some _ b). apply underKey_In. split; [|reflexivity].
    apply filter_In. split; [exact Hb|]. apply keeps_onSelectedDate.
    split; [|exact Ha]. rewrite Hbk. f_equal. congruence.
  - intros [b Hk]. pose proof (projection_entry _ _ _ _ _ Hk) as [Hb [Ha [Hd Hkey]]].
    destruct (Hsame b Hb) as [Hbk [Hsub Hp]].
    apply slotKey_inj in Hkey as [-> ->]; [|exact Hper|exact Hp].
    exists b. split; [exact Hb|]. split; [|reflexivity].
    split; [exact Ha|]. split; [|reflexivity].
    rewrite Hsub. rewrite Hbk in Hd. injection Hd as Hd. exact Hd.
Qed.

Lemma grid_and_conflict_check_agree_witness :
  exists m : gmap jsstring Booking,
    bookingsForDateMap isoDateParse
      [sampleBooking 1 "P.1A TP" 3 "2024-07-22" [js "tv"] Booked]
      (js "2024-07-22") = Value m
    /\ (conflictCheck [sampleBooking 1 "P.1A TP" 3 "2024-07-22" [js "tv"] Booked]
                      (js "2024-07-22") (js "P.1A TP") 3 [js "remote"]
        = ClassroomConflict
        <-> exists b, m !! slotKey (js "P.1A TP") 3 = Some b).
Proof.
  apply (grid_and_conflict_check_agree
           [sampleBooking 1 "P.1A TP" 3 "2024-07-22" [js "tv"] Booked]).
  - constructor; [|constructor].
    split; [|vm_compute; discriminate].
    split; [reflexivity|]. split; vm_compute; discriminate.
  - lia.
Defined.

(** The bound on the year is needed: a year below 1000 is printed
    without its leading zeros, so a booking stored for 0999-12-31 is
    seen by the conflict check for that date and shown in no cell of
    the schedule of that date. *)
Example year_below_1000_grid_and_check_differ :
  let b := sampleBooking 1 "P.1A TP" 3 "0999-12-31" [js "tv"] Booked in
  bookingDateInBangkok isoDateParse b = Value (js "999-12-31")
  /\ conflictCheck [b] (js "0999-12-31") (js "P.1A TP") 3 [js "remote"]
     = ClassroomConflict
  /\ bookingsForDateMap isoDateParse [b] (js "0999-12-31") = Value ∅.
Proof. cbv zeta. split; [|split]; vm_compute; reflexivity. Qed.

(** ** A refresh while a creation is pending *)

Section PendingCreation.

Variable sortByCreatedAtDesc : list Booking -> list Booking.

Lemma createBooking_split clock bookingData reply s :
  createBooking clock bookingData reply s
  = (createBooking_begin clock bookingData ;;
     createBooking_settle clock reply) s.
Proof. destruct reply; reflexivity. Qed.

(** X19.  [createBooking] is its part before the wait followed by its
    part after it.  When a refresh of the cache succeeds in between,
    with records none of which carries the placeholder's id, the cache
    is the refreshed list when the creation settles, whether it
    succeeded or failed: the placeholder is gone and the record the
    server returned for the creation is not put into the cache. *)
Theorem refresh_during_pending_creation (clock : Clock) (bookingData : BookingData)
    (reply : Reply RawBooking) (data : list RawBooking) (s : list Booking) :
  Forall (fun b => id b <> now clock)
         (sortByCreatedAtDesc (map sanitizeBooking data)) ->
  createBooking clock bookingData reply s
  = (createBooking_begin clock bookingData ;;
     createBooking_settle clock reply) s
  /\ finalState
       ((createBooking_begin clock bookingData ;;
         fetchBookings sortByCreatedAtDesc true (Resolved data) ;;
         createBooking_settle clock reply) s)
     = sortByCreatedAtDesc (map sanitizeBooking data).
Proof.
  intros Hfresh. split; [apply createBooking_split|].
  destruct reply as [finalBooking|error]; unfold finalState; cbn.
  - apply replaceTemp_fresh. exact Hfresh.
  - apply removeTemp_fresh. exact Hfresh.
Qed.

End PendingCreation.

Lemma refresh_during_pending_creation_witness :
  finalState
    ((createBooking_begin sampleClock (sampleData "P.2A TP" 4 Jong) ;;
      fetchBookings (fun l => l) true (Resolved [sampleRaw 1 EqOther]) ;;
      createBooking_settle sampleClock (Resolved (sampleRaw 2 EqOther))) [])
  = [sanitizeBooking (sampleRaw 1 EqOther)].
Proof.
  apply (refresh_during_pending_creation (fun l => l) sampleClock
           (sampleData "P.2A TP" 4 Jong) (Resolved (sampleRaw 2 EqOther))
           [sampleRaw 1 EqOther] []).
  constructor; [vm_compute; discriminate|constructor].
Defined.

(** ** An accepted booking in the grid *)

Lemma optimistic_fields clock bookingData :
  bookingDate (optimisticBooking clock bookingData) = d_bookingDate bookingData
  /\ classroom (optimisticBooking clock bookingData) = d_classroom bookingData
  /\ period (optimisticBooking clock bookingData) = d_period bookingData.
Proof. repeat split. Qed.

(** X20.  On a cache whose stored dates are all dates of the calendar
    written YYYY-MM-DD with a year from 1000 on (month 01 to 12, a day
    that the month has, no time of day) and whose periods are not
    negative, a form whose date is such a date, whose period is not
    negative and which passes the conflict check shows at once in the
    schedule: in the map of the form's date, built from the cache with
    the placeholder at its head, the cell of the form's classroom and
    period holds the placeholder. *)
Theorem accepted_booking_fills_its_cell (f : FormState) (bookings : list Booking)
    (clock : Clock) :
  Forall (fun b => isDateOnly (bookingDate b) /\ 0 <= period b) bookings ->
  isDateOnly (f_bookingDate f) ->
  0 <= Number (f_period f) ->
  conflictCheck bookings (f_bookingDate f) (f_classroom f) (Number (f_period f))
                (finalEquipmentList f) = NoConflict ->
  exists m : gmap jsstring Booking,
    bookingsForDateMap isoDateParse
      (optimisticBooking clock (bookingDataOf f) :: bookings) (f_bookingDate f)
    = Value m
    /\ m !! slotKey (f_classroom f) (Number (f_period f))
       = Some (optimisticBooking clock (bookingDataOf f)).
Proof.
  intros Hall Hdate Hper Hfree.
  set (o := optimisticBooking clock (bookingDataOf f)).
  assert (Ho : bookingDateInBangkok isoDateParse o = Value (f_bookingDate f))
    by (unfold bookingDateInBangkok; apply date_only_round_trip; exact Hdate).
  assert (Hsame : forall b, In b bookings ->
            bookingDateInBangkok isoDateParse b = Value (bookingDate b)
            /\ substring0 10 (bookingDate b) = bookingDate b
            /\ 0 <= period b).
  { intros b Hb. rewrite List.Forall_forall in Hall.
    destruct (Hall b Hb) as [Hd Hp]. split; [|split; [|exact Hp]].
    - unfold bookingDateInBangkok. apply date_only_round_trip. exact Hd.
    - destruct Hd as [Hlen _]. unfold substring0. apply take_ge. lia. }
  assert (Hvalid : Forall (fun b => newDate isoDateParse (bookingDate b) <> None)
                          (o :: bookings)).
  { constructor.
    - intros Hn. rewrite bookingDateInBangkok_Value, Hn in Ho. discriminate Ho.
    - apply List.Forall_forall. intros b Hb Hn.
      destruct (Hsame b Hb) as [Hd _].
      rewrite bookingDateInBangkok_Value, Hn in Hd. discriminate Hd. }
  eexists. split; [apply bookingsForDateMap_total; exact Hvalid|].
  rewrite setAll_lookup.
  assert (Hko : keeps (onSelectedDate isoDateParse (f_bookingDate f)) o = true).
  { apply keeps_onSelectedDate. split; [exact Ho|].
    apply statusIncludes_active, optimistic_is_active. }
  assert (Hnone : underKey (slotKey (f_classroom f) (Number (f_period f)))
                    (List.filter (keeps (onSelectedDate isoDateParse
                                           (f_bookingDate f))) bookings) = []).
  { destruct (underKey _ _) as [|b rest] eqn:E; [reflexivity|].
    exfalso.
    assert (Hb : In b (underKey (slotKey (f_classroom f) (Number (f_period f)))
                         (List.filter (keeps (onSelectedDate isoDateParse
                                                (f_bookingDate f))) bookings)))
      by (rewrite E; left; reflexivity).
    apply underKey_In in Hb as [Hb Hkey].
    apply filter_In in Hb as [Hb Hkeep].
    apply keeps_onSelectedDate in Hkeep as [Hd Ha].
    destruct (Hsame b Hb) as [Hbk [Hsub Hp]].
    apply slotKey_inj in Hkey as [Hroom Hperiod]; [|exact Hp|exact Hper].
    destruct (conflictCheck_cases bookings (f_bookingDate f) (f_classroom f)
                (Number (f_period f)) (finalEquipmentList f)) as [[_ Hc] _].
    rewrite Hc in Hfree; [discriminate Hfree|].
    exists b. split; [exact Hb|]. split; [|exact Hroom].
    split; [exact Ha|]. split; [|exact Hperiod].
    rewrite Hsub. rewrite Hbk in Hd. injection Hd as Hd. exact Hd. }
  cbn [List.filter]. rewrite Hko. unfold underKey at 1. cbn [List.filter].
  fold (underKey (slotKey (f_classroom f) (Number (f_period f)))
          (List.filter (keeps (onSelectedDate isoDateParse (f_bookingDate f)))
                       bookings)).
  rewrite Hnone.
  unfold o at 1 2. cbn [classroom period optimisticBooking bookingDataOf
                         d_classroom d_period].
  unfold str_eqb. rewrite bool_decide_eq_true_2 by reflexivity. reflexivity.
Qed.

Lemma accepted_booking_fills_its_cell_witness :
  exists m : gmap jsstring Booking,
    bookingsForDateMap isoDateParse
      (optimisticBooking sampleClock
         (bookingDataOf (sampleForm "P.2A TP" 4 "2024-07-22" [js "tv"]))
       :: [sampleBooking 1 "P.1A TP" 3 "2024-07-22" [js "tv"] Booked])
      (js "2024-07-22") = Value m
    /\ m !! slotKey (js "P.2A TP") 4
       = Some (optimisticBooking sampleClock
                 (bookingDataOf (sampleForm "P.2A TP" 4 "2024-07-22" [js "tv"]))).
Proof.
  apply (accepted_booking_fills_its_cell
           (sampleForm "P.2A TP" 4 "2024-07-22" [js "tv"])
           [sampleBooking 1 "P.1A TP" 3 "2024-07-22" [js "tv"] Booked]
           sampleClock).
  - constructor; [|constructor].
    split; [|vm_compute; discriminate].
    split; [reflexivity|]. split; vm_compute; discriminate.
  - split; [reflexivity|]. split; vm_compute; discriminate.
  - vm_compute. discriminate.
  - vm_compute. reflexivity.
Defined.

(** ** Today's date *)

Lemma checkEraDays_true : forallb eraDayRow (upto 147) = true.
Proof. vm_cast_no_check (eq_refl true). Qed.

Lemma eraDay_at (doe : Z) :
  0 <= doe < 146097 ->
  exists y m d,
    dateOfEraDay doe = (y, m, d)
    /\ 1 <= m <= 12 /\ 1 <= d <= daysInMonth y m
    /\ 0 <= (if m <=? 2 then y - 1 else y) < 400
    /\ dayOfEra (if m <=? 2 then y - 1 else y) m d = doe.
Proof.
  intros Hdoe.
  pose proof (Z.div_mod doe 1000 ltac:(lia)) as Hdm.
  pose proof (Z.mod_pos_bound doe 1000 ltac:(lia)) as Hmb.
  assert (Hhi : 0 <= doe / 1000 < Z.of_nat 147).
  { split; [apply Z.div_pos; lia|apply Z.div_lt_upper_bound; lia]. }
  pose proof (forallb_upto 147 eraDayRow (doe / 1000) checkEraDays_true Hhi) as H.
  pose proof (forallb_upto 1000 (eraDayCell (doe / 1000)) (doe mod 1000) H
                ltac:(lia)) as H'.
  clear H. unfold eraDayCell in H'. cbv zeta in H'.
  rewrite <- Hdm in H'.
  destruct (Z.ltb_spec doe 146097) as [_|C]; [|lia].
  destruct (dateOfEraDay doe) as [[y m] d].
  exists y, m, d. split; [reflexivity|].
  rewrite !andb_true_iff, !Z.leb_le, !Z.ltb_lt, Z.eqb_eq in H'.
  destruct H' as [[[[[[H1 H2] H3] H4] H5] H6] H7].
  repeat split; assumption.
Qed.

(** Every day number is the day number of its calendar date. *)
Lemma civil_of_day (z : Z) :
  exists y m d,
    civilFromDays z = (y, m, d)
    /\ 1 <= m <= 12 /\ 1 <= d <= daysInMonth y m
    /\ daysFromCivil y m d = z.
Proof.
  rewrite civilFromDays_era. cbv zeta.
  pose proof (Z.div_mod (z + 719468) 146097 ltac:(lia)) as Hdm.
  pose proof (Z.mod_pos_bound (z + 719468) 146097 ltac:(lia)) as Hmb.
  remember ((z + 719468) / 146097) as era eqn:Hera. clear Hera.
  remember (z + 719468 - era * 146097) as doe eqn:Hdoe.
  assert (Hr : 0 <= doe < 146097) by lia.
  destruct (eraDay_at doe Hr) as [y [m [d [E [Hm [Hd [Hyoe Hback]]]]]]].
  rewrite E. exists (y + era * 400), m, d.
  split; [reflexivity|]. split; [exact Hm|].
  replace (y + era * 400) with (y + 400 * era) by lia.
  split; [rewrite daysInMonth_era; exact Hd|].
  rewrite daysFromCivil_era. cbv zeta.
  remember (if m <=? 2 then y - 1 else y) as yoe eqn:Eyoe.
  replace (if m <=? 2 then y + 400 * era - 1 else y + 400 * era)
    with (yoe + 400 * era) by (subst yoe; destruct (m <=? 2); lia).
  clear Eyoe.
  replace ((yoe + 400 * era) / 400) with era
    by (apply (Z.div_unique _ _ _ yoe); lia).
  replace (yoe + 400 * era - era * 400) with yoe by lia.
  rewrite Hback. lia.
Qed.

Lemma daysFromCivil_from_10000 (y m d : Z) :
  1 <= m <= 12 -> 1 <= d -> 10000 <= y -> 2932897 <= daysFromCivil y m d.
Proof.
  intros Hm Hd Hy. rewrite daysFromCivil_era. cbv zeta. unfold dayOfEra. cbv zeta.
  assert (Hq : (if m <=? 2 then 306 else 0)
               <= (153 * (if 2 <? m then m - 3 else m + 9) + 2) / 5).
  { destruct (Z.leb_spec m 2); destruct (Z.ltb_spec 2 m); try lia.
    - apply Z.div_le_lower_bound; lia.
    - apply Z.div_pos; lia. }
  remember ((153 * (if 2 <? m then m - 3 else m + 9) + 2) / 5) as q eqn:Eq.
  clear Eq.
  assert (Hy' : (if m <=? 2 then 9999 else 10000)
                <= (if m <=? 2 then y - 1 else y))
    by (destruct (m <=? 2); lia).
  remember (if m <=? 2 then y - 1 else y) as y' eqn:Ey'. clear Ey'.
  pose proof (Z.div_mod y' 400 ltac:(lia)) as Hdm.
  pose proof (Z.mod_pos_bound y' 400 ltac:(lia)) as Hmb.
  remember (y' / 400) as era eqn:Eera. clear Eera.
  remember (y' - era * 400) as yoe eqn:Eyoe.
  assert (Hyoe : 0 <= yoe < 400) by lia.
  pose proof (Z.div_mod yoe 4 ltac:(lia)) as H4.
  pose proof (Z.mod_pos_bound yoe 4 ltac:(lia)) as H4b.
  pose proof (Z.div_mod yoe 100 ltac:(lia)) as H100.
  pose proof (Z.mod_pos_bound yoe 100 ltac:(lia)) as H100b.
  remember (yoe / 4) as a eqn:Ea. clear Ea.
  remember (yoe / 100) as c eqn:Ec. clear Ec.
  destruct (m <=? 2); lia.
Qed.

Lemma daysFromCivil_before_1000 (y m d : Z) :
  1 <= m <= 12 -> d <= 31 -> y <= 999 -> daysFromCivil y m d < 0.
Proof.
  intros Hm Hd Hy. rewrite daysFromCivil_era. cbv zeta. unfold dayOfEra. cbv zeta.
  assert (Hq : (153 * (if 2 <? m then m - 3 else m + 9) + 2) / 5 <= 337).
  { apply Z.lt_succ_r, Z.div_lt_upper_bound; [lia|].
    destruct (Z.ltb_spec 2 m); lia. }
  remember ((153 * (if 2 <? m then m - 3 else m + 9) + 2) / 5) as q eqn:Eq.
  clear Eq.
  assert (Hy' : (if m <=? 2 then y - 1 else y) <= 999)
    by (destruct (m <=? 2); lia).
  remember (if m <=? 2 then y - 1 else y) as y' eqn:Ey'. clear Ey'.
  pose proof (Z.div_mod y' 400 ltac:(lia)) as Hdm.
  pose proof (Z.mod_pos_bound y' 400 ltac:(lia)) as Hmb.
  remember (y' / 400) as era eqn:Eera. clear Eera.
  remember (y' - era * 400) as yoe eqn:Eyoe.
  assert (Hyoe : 0 <= yoe < 400) by lia.
  pose proof (Z.div_mod yoe 4 ltac:(lia)) as H4.
  pose proof (Z.mod_pos_bound yoe 4 ltac:(lia)) as H4b.
  pose proof (Z.div_mod yoe 100 ltac:(lia)) as H100.
  pose proof (Z.mod_pos_bound yoe 100 ltac:(lia)) as H100b.
  remember (yoe / 4) as a eqn:Ea. clear Ea.
  remember (yoe / 100) as c eqn:Ec. clear Ec.
  lia.
Qed.

Lemma digitValue_digit (c : N) :
  (48 <= c <= 57)%N -> digitValue c = Some (digitOf c).
Proof.
  intros [H1 H2]. unfold digitValue, digitOf.
  apply N.leb_le in H1, H2. rewrite H1, H2. reflexivity.
Qed.

Lemma digit_code (v : Z) :
  0 <= v <= 9 ->
  (48 <= Z.to_N (v + 48) <= 57)%N /\ digitOf (Z.to_N (v + 48)) = v.
Proof. intros H. unfold digitOf. lia. Qed.

Lemma two_digits (v : Z) :
  0 <= v <= 99 ->
  exists c0 c1,
    (48 <= c0 <= 57)%N /\ (48 <= c1 <= 57)%N
    /\ v = 10 * (10 * 0 + digitOf c0) + digitOf c1.
Proof.
  intros H.
  pose proof (Z.div_mod v 10 ltac:(lia)) as Hdm.
  pose proof (Z.mod_pos_bound v 10 ltac:(lia)) as Hmb.
  assert (Hq : 0 <= v / 10 <= 9).
  { split; [apply Z.div_pos; lia|].
    apply Z.lt_succ_r, Z.div_lt_upper_bound; lia. }
  destruct (digit_code (v / 10) Hq) as [R0 E0].
  destruct (digit_code (v mod 10) ltac:(lia)) as [R1 E1].
  exists (Z.to_N (v / 10 + 48)), (Z.to_N (v mod 10 + 48)).
  split; [exact R0|]. split; [exact R1|]. rewrite E0, E1. lia.
Qed.

Lemma four_digits (y : Z) :
  1000 <= y <= 9999 ->
  exists c0 c1 c2 c3,
    Forall (fun c => (48 <= c <= 57)%N) [c0; c1; c2; c3] /\ c0 <> 48%N
    /\ y = 10 * (10 * (10 * (10 * 0 + digitOf c0) + digitOf c1) + digitOf c2)
           + digitOf c3.
Proof.
  intros H.
  pose proof (Z.div_mod y 100 ltac:(lia)) as Hdm.
  pose proof (Z.mod_pos_bound y 100 ltac:(lia)) as Hmb.
  assert (Hq : 10 <= y / 100 <= 99).
  { split; [apply Z.div_le_lower_bound; lia|].
    apply Z.lt_succ_r, Z.div_lt_upper_bound; lia. }
  destruct (two_digits (y / 100) ltac:(lia)) as [c0 [c1 [R0 [R1 E01]]]].
  destruct (two_digits (y mod 100) ltac:(lia)) as [c2 [c3 [R2 [R3 E23]]]].
  exists c0, c1, c2, c3.
  split; [repeat (constructor; [assumption|]); constructor|].
  split; [intros ->; unfold digitOf in E01, R1; lia|].
  lia.
Qed.

Lemma isoDateParse_digits (c0 c1 c2 c3 c5 c6 c8 c9 : N) :
  Forall (fun c => (48 <= c <= 57)%N) [c0; c1; c2; c3; c5; c6; c8; c9] ->
  let y := 10 * (10 * (10 * (10 * 0 + digitOf c0) + digitOf c1) + digitOf c2)
           + digitOf c3 in
  let m := 10 * (10 * 0 + digitOf c5) + digitOf c6 in
  let d := 10 * (10 * 0 + digitOf c8) + digitOf c9 in
  1 <= m <= 12 -> 1 <= d <= daysInMonth y m ->
  isoDateParse [c0; c1; c2; c3; hyphen; c5; c6; hyphen; c8; c9]
  = Some (daysFromCivil y m d * msPerDay).
Proof.
  intros Hall y m d Hm Hd.
  apply Forall_cons_1 in Hall as [R0 Hall].
  apply Forall_cons_1 in Hall as [R1 Hall].
  apply Forall_cons_1 in Hall as [R2 Hall].
  apply Forall_cons_1 in Hall as [R3 Hall].
  apply Forall_cons_1 in Hall as [R5 Hall].
  apply Forall_cons_1 in Hall as [R6 Hall].
  apply Forall_cons_1 in Hall as [R8 Hall].
  apply Forall_cons_1 in Hall as [R9 _].
  unfold isoDateParse. cbn [length Nat.eqb].
  unfold isoDay, field, unitAt. cbn [take drop Nat.sub digitsValue].
  rewrite (digitValue_digit c0 R0), (digitValue_digit c1 R1),
    (digitValue_digit c2 R2), (digitValue_digit c3 R3),
    (digitValue_digit c5 R5), (digitValue_digit c6 R6),
    (digitValue_digit c8 R8), (digitValue_digit c9 R9).
  fold y m d.
  rewrite !bool_decide_eq_true_2 by reflexivity.
  destruct Hm as [Hm1 Hm2]. destruct Hd as [Hd1 Hd2].
  apply Z.leb_le in Hm1, Hm2, Hd1, Hd2.
  rewrite Hm1, Hm2, Hd1, Hd2. reflexivity.
Qed.

(** X21.  At any time from 1970 to the end of the year 9999 in Bangkok,
    the date string of [getThaiTime], the first value of the form's date
    and of the schedule's selected date, has the form YYYY-MM-DD; it is
    read as midnight UTC of the Bangkok calendar day of that time, and
    formatting the date read gives the same string, so a booking stored
    with it falls on the schedule of that day. *)
Theorem today_is_a_date_only_string (clock : Clock) :
  0 <= now clock < 253402275600000 ->
  isDateOnly (getThaiTime clock)
  /\ isoDateParse (getThaiTime clock)
     = Some ((now clock + 25200000) / msPerDay * msPerDay)
  /\ formatBangkok (newDate isoDateParse (getThaiTime clock))
     = Value (getThaiTime clock).
Proof.
  intros Hnow.
  assert (Hshape : isDateOnly (getThaiTime clock)
                   /\ isoDateParse (getThaiTime clock)
                      = Some ((now clock + 25200000) / msPerDay * msPerDay)).
  { unfold getThaiTime, bangkokOffset, bangkokSwitch.
    destruct (Z.ltb_spec (now clock) (-1570084924000)) as [C|_]; [lia|].
    assert (Hday : 0 <= (now clock + 25200000) / msPerDay <= 2932896).
    { unfold msPerDay. split; [apply Z.div_pos; lia|].
      apply Z.lt_succ_r, Z.div_lt_upper_bound; lia. }
    remember ((now clock + 25200000) / msPerDay) as day eqn:Eday. clear Eday.
    destruct (civil_of_day day) as [y [m [d [E [Hm [Hd Hback]]]]]].
    rewrite E.
    pose proof (daysInMonth_le_31 y m) as H31.
    assert (Hy : 1000 <= y <= 9999).
    { split.
      - destruct (Z.le_gt_cases 1000 y) as [|C]; [assumption|].
        pose proof (daysFromCivil_before_1000 y m d Hm ltac:(lia) ltac:(lia)).
        lia.
      - destruct (Z.le_gt_cases y 9999) as [|C]; [assumption|].
        pose proof (daysFromCivil_from_10000 y m d Hm ltac:(lia) ltac:(lia)).
        lia. }
    destruct (four_digits y Hy) as [c0 [c1 [c2 [c3 [Hyd [Hnz Ey]]]]]].
    destruct (two_digits m ltac:(lia)) as [c5 [c6 [R5 [R6 Em]]]].
    destruct (two_digits d ltac:(lia)) as [c8 [c9 [R8 [R9 Ed]]]].
    assert (Hstr : enCA (y, m, d)
                   = [c0; c1; c2; c3; hyphen; c5; c6; hyphen; c8; c9]).
    { unfold enCA. destruct (Z.leb_spec 1 y) as [_|C]; [|lia].
      rewrite Ey, (year_digits c0 c1 c2 c3 Hyd Hnz).
      rewrite Em, (pad2_digits c5 c6 R5 R6).
      rewrite Ed, (pad2_digits c8 c9 R8 R9). reflexivity. }
    rewrite Hstr.
    assert (Hparse : isoDateParse [c0; c1; c2; c3; hyphen; c5; c6; hyphen; c8; c9]
                     = Some (day * msPerDay)).
    { rewrite isoDateParse_digits.
      - cbv zeta. rewrite <- Ey, <- Em, <- Ed, Hback. reflexivity.
      - apply Forall_cons_1 in Hyd as [R0 Hyd].
        apply Forall_cons_1 in Hyd as [R1 Hyd].
        apply Forall_cons_1 in Hyd as [R2 Hyd].
        apply Forall_cons_1 in Hyd as [R3 _].
        repeat (constructor; [assumption|]); constructor.
      - rewrite <- Em. exact Hm.
      - rewrite <- Em, <- Ed, <- Ey. exact Hd. }
    split; [|exact Hparse].
    split; [reflexivity|]. split; [rewrite Hparse; discriminate|].
    cbn. intros [= ->]. apply Hnz. reflexivity. }
  destruct Hshape as [Hd Hp]. split; [exact Hd|]. split; [exact Hp|].
  apply date_only_round_trip. exact Hd.
Qed.

Lemma today_is_a_date_only_string_witness :
  isDateOnly (getThaiTime sampleClock)
  /\ isoDateParse (getThaiTime sampleClock)
     = Some ((now sampleClock + 25200000) / msPerDay * msPerDay)
  /\ formatBangkok (newDate isoDateParse (getThaiTime sampleClock))
     = Value (getThaiTime sampleClock).
Proof.
  apply (today_is_a_date_only_string sampleClock). unfold sampleClock, now. lia.
Defined.
